(** * Payer resolution layer of the payin service: a shallow embedding

    The development follows
      - [app/payin/core/payer/processor.py]       (PayerClient, PayerOps, LegacyPayerOps,
                                                   create_payer_impl, update_payer_impl),
      - [app/payin/api/payer/v1/api.py]           (the create_payer route),
      - [app/payin/repository/payment_method_repo.py] (the three insert operations),
      - [app/payin/core/payment_method/model.py]  (RawPaymentMethod),
      - [app/payin/core/cart_payment/model.py]    (the frozen PgpPaymentIntent dataclass),
    and, beside the payer layer,
      - [app/middleware/doordash_metrics.py]      (the endpoint tag and the status counter),
      - [app/commons/providers/stripe/stripe_models.py] (Event.event_type),
      - [app/payout/core/transfer/processors/weekly_create_transfer.py].

    Coroutines are modelled as computations in a state-and-error monad that
    also returns the list of externally visible events (database statements,
    gateway calls, log lines) in the order in which they were issued.  Python
    exceptions are values of [exn]; objects that the code mutates (RawPayer)
    live in an object store and are passed around by reference. *)

From Stdlib Require Import ZArith String Ascii List Bool Lia DecimalString.
From Stdlib Require DecimalZ.
From stdpp Require Import gmap strings.
Import ListNotations.

Open Scope string_scope.
Open Scope Z_scope.

(* ===================================================================== *)
(** ** Python values used by the code *)
(* ===================================================================== *)

Module Py.

(** Truth value of an [Optional[str]]: [None] and the empty string are falsy. *)
Definition truthy_str (o : option string) : bool :=
  match o with
  | None => false
  | Some s => negb (String.eqb s "")
  end.

(** Truth value of an optional object without [__bool__]/[__len__]
    (the pydantic entities): only [None] is falsy. *)
Definition truthy {A} (o : option A) : bool :=
  match o with
  | None => false
  | Some _ => true
  end.

(** [x == y] for an [Optional[str]] against a string constant. *)
Definition opt_str_eqb (o : option string) (c : string) : bool :=
  match o with
  | None => false
  | Some s => String.eqb s c
  end.

(** [x in (c1, c2)] for an [Optional[str]]. *)
Definition opt_str_in (o : option string) (cs : list string) : bool :=
  existsb (opt_str_eqb o) cs.

(** *** [int(s)] for a string

    A string is the sequence of the bytes of its UTF-8 encoding.  The
    conversion is that of CPython 3.11 with its default settings.  The
    string is first brought to ASCII
    ([_PyUnicode_TransformDecimalAndSpaceToASCII]): a character below 127
    stays, white space beyond it becomes a blank, a decimal digit of any
    script becomes the ASCII digit, anything else a question mark.  The
    result is read in base 10 ([PyLong_FromString]).  The two tables are
    those of the Unicode data of that interpreter (version 14.0). *)

(** White space of the reader ([Py_ISSPACE]): tab, line feed, vertical tab,
    form feed, carriage return and blank.  The separators 28 to 31 are
    white space for [str.strip] but not for [int]. *)
Definition is_space (c : ascii) : bool :=
  let n := nat_of_ascii c in
  ((9 <=? n) && (n <=? 13) || (n =? 32))%nat.

Definition is_digit (c : ascii) : bool :=
  let n := nat_of_ascii c in ((48 <=? n) && (n <=? 57))%nat.

Definition digit_val (c : ascii) : Z := Z.of_nat (nat_of_ascii c - 48).

(** The code points from 127 on that are white space
    ([Py_UNICODE_ISSPACE]). *)
Definition unicode_spaces : list N :=
  [
    133; 160; 5760; 8192; 8193; 8194; 8195; 8196;
    8197; 8198; 8199; 8200; 8201; 8202; 8232; 8233;
    8239; 8287; 12288
  ]%N.

Definition is_unicode_space (cp : N) : bool := existsb (N.eqb cp) unicode_spaces.

(** The zeros of the decimal digits beyond ASCII: each is followed by the
    digits one to nine of its script ([Py_UNICODE_TODECIMAL]). *)
Definition unicode_zeros : list N :=
  [
    1632; 1776; 1984; 2406; 2534; 2662; 2790; 2918;
    3046; 3174; 3302; 3430; 3558; 3664; 3792; 3872;
    4160; 4240; 6112; 6160; 6470; 6608; 6784; 6800;
    6992; 7088; 7232; 7248; 42528; 43216; 43264; 43472;
    43504; 43600; 44016; 65296; 66720; 68912; 69734; 69872;
    69942; 70096; 70384; 70736; 70864; 71248; 71360; 71472;
    71904; 72016; 72784; 73040; 73120; 92768; 92864; 93008;
    120782; 120792; 120802; 120812; 120822; 123200; 123632; 125264;
    130032
  ]%N.

Definition unicode_decimal (cp : N) : option N :=
  match List.find (fun zero => (zero <=? cp) && (cp <? zero + 10))%N unicode_zeros with
  | Some zero => Some (cp - zero)%N
  | None => None
  end.

(** A continuation byte of UTF-8 and its six bits. *)
Definition continuation (c : ascii) : option N :=
  let n := N_of_ascii c in
  if ((128 <=? n) && (n <? 192))%N then Some (n - 128)%N else None.

(** The code points of a UTF-8 string; [None] for bytes that are no
    encoding of a string (a stray or missing continuation byte, an overlong
    form, a value beyond U+10FFFF).  Lone surrogates, which a Python string
    can hold, are read in their three-byte form. *)
Fixpoint decode_utf8 (l : list ascii) : option (list N) :=
  match l with
  | [] => Some []
  | b0 :: rest =>
      let n0 := N_of_ascii b0 in
      if (n0 <? 128)%N then option_map (cons n0) (decode_utf8 rest)
      else if ((194 <=? n0) && (n0 <? 224))%N then
        match rest with
        | b1 :: rest1 =>
            match continuation b1 with
            | Some c1 =>
                option_map (cons ((n0 - 192) * 64 + c1)%N) (decode_utf8 rest1)
            | None => None
            end
        | [] => None
        end
      else if ((224 <=? n0) && (n0 <? 240))%N then
        match rest with
        | b1 :: b2 :: rest2 =>
            match continuation b1, continuation b2 with
            | Some c1, Some c2 =>
                let cp := ((n0 - 224) * 4096 + c1 * 64 + c2)%N in
                if (2048 <=? cp)%N then option_map (cons cp) (decode_utf8 rest2)
                else None
            | _, _ => None
            end
        | _ => None
        end
      else if ((240 <=? n0) && (n0 <? 245))%N then
        match rest with
        | b1 :: b2 :: b3 :: rest3 =>
            match continuation b1, continuation b2, continuation b3 with
            | Some c1, Some c2, Some c3 =>
                let cp := ((n0 - 240) * 262144 + c1 * 4096 + c2 * 64 + c3)%N in
                if ((65536 <=? cp) && (cp <=? 1114111))%N
                then option_map (cons cp) (decode_utf8 rest3)
                else None
            | _, _, _ => None
            end
        | _ => None
        end
      else None
  end.

(** One character brought to ASCII. *)
Definition to_ascii (cp : N) : ascii :=
  if (cp <? 127)%N then ascii_of_N cp
  else if is_unicode_space cp then " "%char
  else match unicode_decimal cp with
       | Some d => ascii_of_N (48 + d)
       | None => "?"%char
       end.

Fixpoint lstrip (l : list ascii) : list ascii :=
  match l with
  | c :: rest => if is_space c then lstrip rest else l
  | [] => []
  end.

Definition strip (l : list ascii) : list ascii := rev (lstrip (rev (lstrip l))).

(** Decimal digits with single underscores allowed between two digits. *)
Fixpoint int_body (acc : Z) (prev_digit : bool) (l : list ascii) : option Z :=
  match l with
  | [] => if prev_digit then Some acc else None
  | c :: rest =>
      if is_digit c then int_body (10 * acc + digit_val c) true rest
      else if Ascii.eqb c "_" then
             if prev_digit then int_body acc false rest else None
           else None
  end.

(** [sys.int_info.default_max_str_digits]: a string with more digits is
    refused, whatever the digits are. *)
Definition max_str_digits : nat := 4300.

Definition int_digits (body : list ascii) : option Z :=
  if (length (List.filter is_digit body) <=? max_str_digits)%nat
  then int_body 0 false body
  else None.

(** [int(s)] in base 10: surrounding white space is dropped, one sign is
    accepted, and [None] stands for [ValueError]. *)
Definition int (s : string) : option Z :=
  match decode_utf8 (list_ascii_of_string s) with
  | None => None
  | Some code_points =>
      match strip (List.map to_ascii code_points) with
      | "+"%char :: body => int_digits body
      | "-"%char :: body => option_map Z.opp (int_digits body)
      | body => int_digits body
      end
  end.

(** [str(n)] for an integer. *)
Definition str (n : Z) : string := NilZero.string_of_int (Z.to_int n).

Definition str_of_nat (n : nat) : string := NilZero.string_of_uint (Nat.to_uint n).

End Py.

(* ===================================================================== *)
(** ** Error codes and exceptions *)
(* ===================================================================== *)

(** The members of [PayinErrorCode] that the modelled code raises or tests. *)
Inductive PayinErrorCode : Set :=
| PAYER_CREATE_INVALID_DATA
| PAYER_CREATE_PAYER_ALREADY_EXIST
| PAYER_CREATE_STRIPE_ERROR
| PAYER_READ_DB_ERROR
| PAYER_READ_INVALID_DATA
| PAYER_READ_NOT_FOUND
| PAYER_READ_STRIPE_ERROR_NOT_FOUND
| PAYER_UPDATE_STRIPE_ERROR
| PAYER_UPDATE_DB_ERROR_INVALID_DATA
| PAYMENT_METHOD_GET_NOT_FOUND
| PAYMENT_METHOD_GET_INVALID_PAYMENT_METHOD_TYPE.

Definition PayinErrorCode_eqb (a b : PayinErrorCode) : bool :=
  match a, b with
  | PAYER_CREATE_INVALID_DATA, PAYER_CREATE_INVALID_DATA
  | PAYER_CREATE_PAYER_ALREADY_EXIST, PAYER_CREATE_PAYER_ALREADY_EXIST
  | PAYER_CREATE_STRIPE_ERROR, PAYER_CREATE_STRIPE_ERROR
  | PAYER_READ_DB_ERROR, PAYER_READ_DB_ERROR
  | PAYER_READ_INVALID_DATA, PAYER_READ_INVALID_DATA
  | PAYER_READ_NOT_FOUND, PAYER_READ_NOT_FOUND
  | PAYER_READ_STRIPE_ERROR_NOT_FOUND, PAYER_READ_STRIPE_ERROR_NOT_FOUND
  | PAYER_UPDATE_STRIPE_ERROR, PAYER_UPDATE_STRIPE_ERROR
  | PAYER_UPDATE_DB_ERROR_INVALID_DATA, PAYER_UPDATE_DB_ERROR_INVALID_DATA
  | PAYMENT_METHOD_GET_NOT_FOUND, PAYMENT_METHOD_GET_NOT_FOUND
  | PAYMENT_METHOD_GET_INVALID_PAYMENT_METHOD_TYPE,
    PAYMENT_METHOD_GET_INVALID_PAYMENT_METHOD_TYPE => true
  | _, _ => false
  end.

(** What a database statement can fail with.  [DataError] is asyncpg's class
    for invalid data and violated constraints; the two others stand for
    connectivity problems and timeouts. *)
Inductive DbFault : Set :=
| FaultDataError
| FaultConnectionLost
| FaultTimeout.

Inductive exn : Set :=
(* domain errors, all subclasses of PaymentError *)
| PayerCreationError (error_code : PayinErrorCode) (retryable : bool)
| PayerReadError (error_code : PayinErrorCode) (retryable : bool)
| PayerUpdateError (error_code : PayinErrorCode) (retryable : bool)
| PaymentMethodReadError (error_code : PayinErrorCode) (retryable : bool)
(* the exception of the HTTP layer *)
| PaymentException (http_status_code : Z) (error_code : PayinErrorCode) (retryable : bool)
(* database driver *)
| DataError
| ConnectionLostError
| QueryTimeoutError
(* anything the gateway client raises *)
| StripeError
(* Python runtime errors *)
| ValueError
| UnboundLocalError
| FrozenInstanceError.

Definition exn_of_fault (f : DbFault) : exn :=
  match f with
  | FaultDataError => DataError
  | FaultConnectionLost => ConnectionLostError
  | FaultTimeout => QueryTimeoutError
  end.

(** [isinstance(e, PaymentError)], with the two attributes the route reads. *)
Definition as_PaymentError (e : exn) : option (PayinErrorCode * bool) :=
  match e with
  | PayerCreationError c r
  | PayerReadError c r
  | PayerUpdateError c r
  | PaymentMethodReadError c r => Some (c, r)
  | _ => None
  end.

(** A typed domain error or the HTTP-layer exception, as opposed to an
    exception nobody translated. *)
Definition is_typed_error (e : exn) : bool :=
  match e with
  | PayerCreationError _ _ | PayerReadError _ _ | PayerUpdateError _ _
  | PaymentMethodReadError _ _ | PaymentException _ _ _ => true
  | _ => false
  end.

Definition HTTP_422_UNPROCESSABLE_ENTITY : Z := 422.
Definition HTTP_500_INTERNAL_SERVER_ERROR : Z := 500.

(* ===================================================================== *)
(** ** Enumerations of the payer domain *)
(* ===================================================================== *)

(** Modelled from the spec: the string values of [PayerIdType]
    ([app/payin/core/types.py] is not part of the sources); section 4.4 of
    the specification and the docstring of [get_payer_impl] list them. *)
Module PayerIdType.
Definition DD_PAYMENT_PAYER_ID : string := "dd_payer_id".
Definition DD_CONSUMER_ID : string := "dd_consumer_id".
Definition STRIPE_CUSTOMER_ID : string := "stripe_customer_id".
Definition STRIPE_CUSTOMER_SERIAL_ID : string := "stripe_customer_serial_id".
End PayerIdType.

(** Modelled from the spec: [PayerType] ([app/payin/core/payer/types.py] is
    not part of the sources) is a string-valued enumeration, so that a member
    compares equal to its value; the docstring of the [get_payer] route lists
    the values. *)
Module PayerType.
Definition MARKETPLACE : string := "marketplace".
Definition DRIVE : string := "drive".
Definition MERCHANT : string := "merchant".
Definition STORE : string := "store".
Definition BUSINESS : string := "business".
End PayerType.

Module PaymentProvider.
Definition STRIPE : string := "stripe".
End PaymentProvider.

Inductive ResourceUuidPrefix : Set := PAYER | PGP_CUSTOMER.

(* ===================================================================== *)
(** ** Database entities *)
(* ===================================================================== *)

(** Rows of the [payers] table.  The columns are those that
    [InsertPayerInput] receives in [create_payer_raw_objects]. *)
Module PayerDbEntity.
Record t : Set := mk {
  id : string;
  payer_type : string;
  dd_payer_id : string;
  legacy_stripe_customer_id : string;
  country : string;
  description : option string
}.
End PayerDbEntity.

(** Rows of [pgp_customers] (columns of [InsertPgpCustomerInput]). *)
Module PgpCustomerDbEntity.
Record t : Set := mk {
  id : string;
  payer_id : string;
  pgp_code : string;
  pgp_resource_id : string;
  default_payment_method_id : option string
}.

Definition with_default_payment_method_id (v : option string) (r : t) : t :=
  mk (id r) (payer_id r) (pgp_code r) (pgp_resource_id r) v.
End PgpCustomerDbEntity.

(** Rows of the legacy [stripe_customer] table (columns of
    [InsertStripeCustomerInput], plus the serial primary key). *)
Module StripeCustomerDbEntity.
Record t : Set := mk {
  id : Z;
  stripe_id : string;
  country_shortname : string;
  owner_type : string;
  owner_id : Z;
  default_card : option string
}.

Definition with_default_card (v : option string) (r : t) : t :=
  mk (id r) (stripe_id r) (country_shortname r) (owner_type r) (owner_id r) v.
End StripeCustomerDbEntity.

(** [PgpPaymentMethodDbEntity] of payment_method_repo.py; time stamps are
    seconds since the epoch. *)
Module PgpPaymentMethodDbEntity.
Record t : Set := mk {
  id : string;
  pgp_code : string;
  pgp_resource_id : string;
  payer_id : option string;
  pgp_card_id : option string;
  legacy_consumer_id : option string;
  object : option string;
  type : option string;
  created_at : option Z;
  updated_at : option Z;
  deleted_at : option Z;
  attached_at : option Z;
  detached_at : option Z;
  payment_method_id : option string
}.
End PgpPaymentMethodDbEntity.

(** [PaymentMethodDbEntity] of payment_method_repo.py. *)
Module PaymentMethodDbEntity.
Record t : Set := mk {
  id : string;
  payer_id : option string;
  created_at : Z;
  updated_at : Z
}.
End PaymentMethodDbEntity.

(** [InsertStripeCardDbEntity] of payment_method_repo.py: a stripe card
    before the database has given it a primary key. *)
Module InsertStripeCardDbEntity.
Record t : Set := mk {
  stripe_id : string;
  fingerprint : string;
  last4 : string;
  dynamic_last4 : string;
  exp_month : string;
  exp_year : string;
  type : string;
  country_of_origin : option string;
  zip_code : option string;
  created_at : option Z;
  removed_at : option Z;
  is_scanned : option bool;
  dd_fingerprint : option string;
  active : bool;
  consumer_id : option Z;
  stripe_customer_id : option Z;
  external_stripe_customer_id : option string;
  tokenization_method : option string;
  address_line1_check : option string;
  address_zip_check : option string;
  validation_card_id : option Z
}.
End InsertStripeCardDbEntity.

(** [StripeCardDbEntity(InsertStripeCardDbEntity)]: the inherited columns
    and the primary key. *)
Module StripeCardDbEntity.
Record t : Set := mk {
  id : Z;
  columns : InsertStripeCardDbEntity.t
}.
Definition stripe_id (c : t) : string := InsertStripeCardDbEntity.stripe_id (columns c).
End StripeCardDbEntity.

(* ===================================================================== *)
(** ** Aggregates held in memory *)
(* ===================================================================== *)

(** [RawPayer]: three optional entity snapshots.  The class itself
    ([app/payin/core/payer/model.py]) is not part of the sources; its
    constructor keywords and attributes are those the processor uses.
    RawPayer objects are mutable and live in the object store below. *)
Module RawPayer.
Record t : Set := mk {
  payer_entity : option PayerDbEntity.t;
  pgp_customer_entity : option PgpCustomerDbEntity.t;
  stripe_customer_entity : option StripeCustomerDbEntity.t
}.

Definition set_pgp_customer_entity (v : option PgpCustomerDbEntity.t) (r : t) : t :=
  mk (payer_entity r) v (stripe_customer_entity r).

Definition set_stripe_customer_entity (v : option StripeCustomerDbEntity.t) (r : t) : t :=
  mk (payer_entity r) (pgp_customer_entity r) v.
End RawPayer.

(** Address of an object in the object store. *)
Definition ref := nat.

(** [RawPaymentMethod] of payment_method/model.py. *)
Module RawPaymentMethod.
Record t : Set := mk {
  pgp_payment_method_entity : option PgpPaymentMethodDbEntity.t;
  stripe_card_entity : option StripeCardDbEntity.t
}.
End RawPaymentMethod.

(* ===================================================================== *)
(** ** The world: two databases, the object store, the environment *)
(* ===================================================================== *)

Inductive Database : Set := PaymentDatabase | MainDatabase.

Inductive Table : Set :=
| T_payers | T_pgp_customers | T_pgp_payment_methods | T_payment_methods
| T_stripe_customer | T_stripe_cards.

Definition database_of (t : Table) : Database :=
  match t with
  | T_stripe_customer | T_stripe_cards => MainDatabase
  | _ => PaymentDatabase
  end.

Inductive Event : Set :=
| DbRead (t : Table)
| DbWrite (t : Table)
| TxBegin (d : Database)
| TxCommit (d : Database)
| TxRollback (d : Database)
| GatewayCreateCustomer
| GatewayUpdateCustomer
| LogInfo (site : string)
| LogError (site : string).

Definition is_db_write (e : Event) : bool :=
  match e with DbWrite _ => true | _ => false end.

Definition is_db_event (e : Event) : bool :=
  match e with
  | DbRead _ | DbWrite _ | TxBegin _ | TxCommit _ | TxRollback _ => true
  | _ => false
  end.

Definition is_gateway_event (e : Event) : bool :=
  match e with GatewayCreateCustomer | GatewayUpdateCustomer => true | _ => false end.

Record PaymentDb : Set := mkPaymentDb {
  payers : list PayerDbEntity.t;
  pgp_customers : list PgpCustomerDbEntity.t;
  pgp_payment_methods : list PgpPaymentMethodDbEntity.t;
  payment_methods : list PaymentMethodDbEntity.t
}.

Record MainDb : Set := mkMainDb {
  stripe_customer : list StripeCustomerDbEntity.t;
  stripe_cards : list StripeCardDbEntity.t
}.

(** Reply of the payment gateway to one call. *)
Inductive GatewayReply : Set :=
| GatewayOk (resource_id : string)
| GatewayRaises.

Record World : Type := mkWorld {
  payment_database : PaymentDb;
  main_database : MainDb;
  (** object store of the RawPayer aggregates *)
  heap : gmap ref RawPayer.t;
  next_ref : ref;
  (** source of [generate_object_uuid] and of serial primary keys *)
  uuid_seed : nat;
  serial_seed : Z;
  (** outcome of the database statements to come: [None] succeeds, an empty
      list means that every further statement succeeds *)
  db_faults : list (option DbFault);
  (** replies of the gateway to the calls to come; with no reply left the
      gateway is unreachable *)
  gateway_script : list GatewayReply
}.

Definition set_payment_database (d : PaymentDb) (w : World) : World :=
  mkWorld d (main_database w) (heap w) (next_ref w) (uuid_seed w) (serial_seed w)
          (db_faults w) (gateway_script w).

Definition set_main_database (d : MainDb) (w : World) : World :=
  mkWorld (payment_database w) d (heap w) (next_ref w) (uuid_seed w) (serial_seed w)
          (db_faults w) (gateway_script w).

Definition set_heap (h : gmap ref RawPayer.t) (n : ref) (w : World) : World :=
  mkWorld (payment_database w) (main_database w) h n (uuid_seed w) (serial_seed w)
          (db_faults w) (gateway_script w).

Definition set_uuid_seed (n : nat) (w : World) : World :=
  mkWorld (payment_database w) (main_database w) (heap w) (next_ref w) n (serial_seed w)
          (db_faults w) (gateway_script w).

Definition set_serial_seed (n : Z) (w : World) : World :=
  mkWorld (payment_database w) (main_database w) (heap w) (next_ref w) (uuid_seed w) n
          (db_faults w) (gateway_script w).

Definition set_db_faults (f : list (option DbFault)) (w : World) : World :=
  mkWorld (payment_database w) (main_database w) (heap w) (next_ref w) (uuid_seed w)
          (serial_seed w) f (gateway_script w).

Definition set_gateway_script (g : list GatewayReply) (w : World) : World :=
  mkWorld (payment_database w) (main_database w) (heap w) (next_ref w) (uuid_seed w)
          (serial_seed w) (db_faults w) g.

Definition set_payers (l : list PayerDbEntity.t) (w : World) : World :=
  let d := payment_database w in
  set_payment_database
    (mkPaymentDb l (pgp_customers d) (pgp_payment_methods d) (payment_methods d)) w.

Definition set_pgp_customers (l : list PgpCustomerDbEntity.t) (w : World) : World :=
  let d := payment_database w in
  set_payment_database
    (mkPaymentDb (payers d) l (pgp_payment_methods d) (payment_methods d)) w.

Definition set_pgp_payment_methods (l : list PgpPaymentMethodDbEntity.t) (w : World) : World :=
  let d := payment_database w in
  set_payment_database
    (mkPaymentDb (payers d) (pgp_customers d) l (payment_methods d)) w.

Definition set_payment_methods (l : list PaymentMethodDbEntity.t) (w : World) : World :=
  let d := payment_database w in
  set_payment_database
    (mkPaymentDb (payers d) (pgp_customers d) (pgp_payment_methods d) l) w.

Definition set_stripe_customer (l : list StripeCustomerDbEntity.t) (w : World) : World :=
  set_main_database (mkMainDb l (stripe_cards (main_database w))) w.

Definition set_stripe_cards (l : list StripeCardDbEntity.t) (w : World) : World :=
  set_main_database (mkMainDb (stripe_customer (main_database w)) l) w.

(* ===================================================================== *)
(** ** The monad of coroutines *)
(* ===================================================================== *)

Inductive Result (A : Type) : Type :=
| Ok (a : A)
| Raise (e : exn).
Arguments Ok {A} a.
Arguments Raise {A} e.

(** A computation maps the world to a result, the new world and the events
    it issued, oldest first. *)
Definition M (A : Type) : Type := World -> Result A * World * list Event.

Definition ret {A} (a : A) : M A := fun w => (Ok a, w, []).

Definition raise {A} (e : exn) : M A := fun w => (Raise e, w, []).

Definition bind {A B} (m : M A) (k : A -> M B) : M B :=
  fun w =>
    match m w with
    | (Ok a, w1, ev1) =>
        match k a w1 with
        | (r, w2, ev2) => (r, w2, (ev1 ++ ev2)%list)
        end
    | (Raise e, w1, ev1) => (Raise e, w1, ev1)
    end.

Declare Scope coroutine_scope.
Delimit Scope coroutine_scope with coroutine.
Notation "x <- m ;; k" := (bind m (fun x => k))
  (at level 100, m at next level, right associativity) : coroutine_scope.
Notation "m ;;; k" := (bind m (fun _ => k))
  (at level 100, right associativity) : coroutine_scope.
Open Scope coroutine_scope.

(** [try: body except <classes selected by handler>: handler e].  The
    handler returns [None] for an exception the clause does not catch. *)
Definition try_except {A} (body : M A) (handler : exn -> option (M A)) : M A :=
  fun w =>
    match body w with
    | (Ok a, w1, ev1) => (Ok a, w1, ev1)
    | (Raise e, w1, ev1) =>
        match handler e with
        | None => (Raise e, w1, ev1)
        | Some h =>
            match h w1 with
            | (r, w2, ev2) => (r, w2, (ev1 ++ ev2)%list)
            end
        end
    end.

(** [except DataError as e] *)
Definition except_DataError {A} (h : M A) : exn -> option (M A) :=
  fun e => match e with DataError => Some h | _ => None end.

(** [except Exception as e] *)
Definition except_Exception {A} (h : M A) : exn -> option (M A) :=
  fun _ => Some h.

Definition emit (e : Event) : M unit := fun w => (Ok tt, w, [e]).

Definition log_info (site : string) : M unit := emit (LogInfo site).
Definition log_error (site : string) : M unit := emit (LogError site).

(** Reading a local variable that is only annotated until a later
    assignment: [None] is the unbound variable. *)
Definition read_local {A} (v : option A) : M A :=
  match v with
  | Some a => ret a
  | None => raise UnboundLocalError
  end.

(** Python's [int(s)] as a computation. *)
Definition int_of_str (s : string) : M Z :=
  match Py.int s with
  | Some n => ret n
  | None => raise ValueError
  end.

(** *** Object store *)

Definition new_RawPayer (r : RawPayer.t) : M ref :=
  fun w => (Ok (next_ref w), set_heap (<[next_ref w := r]> (heap w)) (S (next_ref w)) w, []).

(** Attribute access on a reference; a dangling reference cannot be built by
    the program and is reported as an unbound name. *)
Definition deref (l : ref) : M RawPayer.t :=
  fun w =>
    match heap w !! l with
    | Some r => (Ok r, w, [])
    | None => (Raise UnboundLocalError, w, [])
    end.

(** [obj.field = v]: the object at [l] is replaced by [f obj]. *)
Definition setattr (l : ref) (f : RawPayer.t -> RawPayer.t) : M unit :=
  fun w =>
    match heap w !! l with
    | Some r => (Ok tt, set_heap (<[l := f r]> (heap w)) (next_ref w) w, [])
    | None => (Raise UnboundLocalError, w, [])
    end.

(** *** Identifier generation *)

(** Modelled from the spec: [generate_object_uuid]
    ([app/commons/utils/uuid.py] is not part of the sources) returns a fresh
    identifier on every call; the prefix names the kind of resource. *)
Definition generate_object_uuid (p : ResourceUuidPrefix) : M string :=
  fun w =>
    let tag := match p with PAYER => "pay_" | PGP_CUSTOMER => "pgpcus_" end in
    (Ok (tag ++ Py.str_of_nat (uuid_seed w)), set_uuid_seed (S (uuid_seed w)) w, []).

Definition next_serial : M Z :=
  fun w => (Ok (serial_seed w), set_serial_seed (serial_seed w + 1) w, []).

Definition gets {A} (f : World -> A) : M A := fun w => (Ok (f w), w, []).

Definition modify (f : World -> World) : M unit := fun w => (Ok tt, f w, []).

(* ===================================================================== *)
(** ** Database access *)
(* ===================================================================== *)

(** One statement sent to a database.  The statement is recorded as issued;
    then the next scripted outcome decides whether the driver raises.  A
    statement that raises has no effect on the tables. *)
Definition statement (ev : Event) : M unit :=
  fun w =>
    match db_faults w with
    | [] => (Ok tt, w, [ev])
    | None :: rest => (Ok tt, set_db_faults rest w, [ev])
    | Some f :: rest => (Raise (exn_of_fault f), set_db_faults rest w, [ev])
    end.

Definition rollback (d : Database) (before after : World) : World :=
  match d with
  | PaymentDatabase => set_payment_database (payment_database before) after
  | MainDatabase => set_main_database (main_database before) after
  end.

(** [async with conn.transaction(): body]: commit when the body returns,
    roll the tables of that database back when it raises.  Sequences,
    the object store and the other database are not rolled back. *)
Definition transaction {A} (d : Database) (body : M A) : M A :=
  fun w =>
    match body w with
    | (Ok a, w1, ev) => (Ok a, w1, (TxBegin d :: ev ++ [TxCommit d])%list)
    | (Raise e, w1, ev) =>
        (Raise e, rollback d w w1, (TxBegin d :: ev ++ [TxRollback d])%list)
    end.

(** *** PaymentMethodRepository (payment_method_repo.py) *)
Module PaymentMethodRepository.

(** [InsertPgpPaymentMethodInput] has the columns of the entity; the row
    returned by [RETURNING *] is the inserted one. *)
Definition insert_pgp_payment_method
    (pm_input : PgpPaymentMethodDbEntity.t) : M PgpPaymentMethodDbEntity.t :=
  transaction PaymentDatabase
    (statement (DbWrite T_pgp_payment_methods) ;;;
     modify (fun w =>
       set_pgp_payment_methods
         (pgp_payment_methods (payment_database w) ++ [pm_input])%list w) ;;;
     ret pm_input).

(** No transaction block in the source: the statement runs on its own. *)
Definition insert_payment_method
    (pm_input : PaymentMethodDbEntity.t) : M PaymentMethodDbEntity.t :=
  statement (DbWrite T_payment_methods) ;;;
  modify (fun w =>
    set_payment_methods (payment_methods (payment_database w) ++ [pm_input])%list w) ;;;
  ret pm_input.

Definition insert_stripe_card
    (sc_input : InsertStripeCardDbEntity.t) : M StripeCardDbEntity.t :=
  transaction MainDatabase
    (statement (DbWrite T_stripe_cards) ;;;
     id <- next_serial ;;
     let row := StripeCardDbEntity.mk id sc_input in
     modify (fun w =>
       set_stripe_cards (stripe_cards (main_database w) ++ [row])%list w) ;;;
     ret row).

Definition get_stripe_card_by_stripe_id (stripe_id : string)
  : M (option StripeCardDbEntity.t) :=
  statement (DbRead T_stripe_cards) ;;;
  gets (fun w =>
    List.find (fun c => String.eqb (StripeCardDbEntity.stripe_id c) stripe_id)
              (stripe_cards (main_database w))).

Definition get_stripe_card_by_id (id : Z) : M (option StripeCardDbEntity.t) :=
  statement (DbRead T_stripe_cards) ;;;
  gets (fun w =>
    List.find (fun c => Z.eqb (StripeCardDbEntity.id c) id)
              (stripe_cards (main_database w))).

(** [DeleteStripeCardByIdSetInput]: both fields are required, so both
    columns are assigned. *)
Definition with_removed (removed_at : Z) (active : bool) (c : StripeCardDbEntity.t)
  : StripeCardDbEntity.t :=
  let columns := StripeCardDbEntity.columns c in
  StripeCardDbEntity.mk (StripeCardDbEntity.id c)
    (InsertStripeCardDbEntity.mk
       (InsertStripeCardDbEntity.stripe_id columns)
       (InsertStripeCardDbEntity.fingerprint columns)
       (InsertStripeCardDbEntity.last4 columns)
       (InsertStripeCardDbEntity.dynamic_last4 columns)
       (InsertStripeCardDbEntity.exp_month columns)
       (InsertStripeCardDbEntity.exp_year columns)
       (InsertStripeCardDbEntity.type columns)
       (InsertStripeCardDbEntity.country_of_origin columns)
       (InsertStripeCardDbEntity.zip_code columns)
       (InsertStripeCardDbEntity.created_at columns)
       (Some removed_at)
       (InsertStripeCardDbEntity.is_scanned columns)
       (InsertStripeCardDbEntity.dd_fingerprint columns)
       active
       (InsertStripeCardDbEntity.consumer_id columns)
       (InsertStripeCardDbEntity.stripe_customer_id columns)
       (InsertStripeCardDbEntity.external_stripe_customer_id columns)
       (InsertStripeCardDbEntity.tokenization_method columns)
       (InsertStripeCardDbEntity.address_line1_check columns)
       (InsertStripeCardDbEntity.address_zip_check columns)
       (InsertStripeCardDbEntity.validation_card_id columns)).

(** [UPDATE stripe_card SET removed_at = .., active = .. WHERE id = ..
    RETURNING *], one statement with no transaction block around it; the
    row returned is the first one updated. *)
Definition delete_stripe_card_by_id
    (set_removed_at : Z) (set_active : bool) (where_id : Z)
  : M (option StripeCardDbEntity.t) :=
  statement (DbWrite T_stripe_cards) ;;;
  let hit c := Z.eqb (StripeCardDbEntity.id c) where_id in
  let upd c := if hit c then with_removed set_removed_at set_active c else c in
  modify (fun w =>
    set_stripe_cards (List.map upd (stripe_cards (main_database w))) w) ;;;
  gets (fun w => List.find hit (stripe_cards (main_database w))).

(** [GetDuplicateStripeCardInput] *)
Record GetDuplicateStripeCardInput : Set := mkGetDuplicateStripeCardInput {
  dup_fingerprint : string;
  dup_dynamic_last4 : string;
  dup_exp_year : string;
  dup_exp_month : string;
  dup_active : bool;
  dup_external_stripe_customer_id : option string;
  dup_consumer_id : option Z;
  dup_stripe_customer_id : option Z
}.

(** [column == value] for a nullable integer column: SQLAlchemy compares
    with [IS NULL] when the value is [None]. *)
Definition nullable_int_eqb (column value : option Z) : bool :=
  match column, value with
  | Some a, Some b => Z.eqb a b
  | None, None => true
  | _, _ => false
  end.

(** The [WHERE] clause of [get_duplicate_stripe_card]: the card attributes,
    then the consumer for a marketplace payer and the legacy customer for
    any other payer type. *)
Definition duplicates
    (payer_type : string) (input : GetDuplicateStripeCardInput)
    (c : StripeCardDbEntity.t) : bool :=
  let columns := StripeCardDbEntity.columns c in
  String.eqb (InsertStripeCardDbEntity.fingerprint columns) (dup_fingerprint input)
  && String.eqb (InsertStripeCardDbEntity.dynamic_last4 columns) (dup_dynamic_last4 input)
  && String.eqb (InsertStripeCardDbEntity.exp_year columns) (dup_exp_year input)
  && String.eqb (InsertStripeCardDbEntity.exp_month columns) (dup_exp_month input)
  && (if String.eqb payer_type PayerType.MARKETPLACE
      then nullable_int_eqb (InsertStripeCardDbEntity.consumer_id columns)
                            (dup_consumer_id input)
      else nullable_int_eqb (InsertStripeCardDbEntity.stripe_customer_id columns)
                            (dup_stripe_customer_id input))
  && Bool.eqb (InsertStripeCardDbEntity.active columns) (dup_active input).

Definition get_duplicate_stripe_card
    (payer_type : string) (input : GetDuplicateStripeCardInput)
  : M (option StripeCardDbEntity.t) :=
  statement (DbRead T_stripe_cards) ;;;
  gets (fun w => List.find (duplicates payer_type input) (stripe_cards (main_database w))).

End PaymentMethodRepository.

(** *** PayerRepository *)

(** Modelled from the spec: [app/payin/repository/payer_repo.py] is not part
    of the sources.  Section 4.1 of the specification fixes the contract:
    every write is a single-row operation in one transaction of one
    database, the insertion of a Payer with its PgpCustomer is one
    transaction spanning both inserts, reads are not transactional, a lookup
    returns the first matching row or nothing.  The operations and the
    keywords of their inputs are those the processor calls them with. *)
Module PayerRepository.

(** [GetPayerByIdInput(id=..)], [(dd_payer_id=..)] and
    [(legacy_stripe_customer_id=..)] *)
Inductive GetPayerByIdInput : Set :=
| ById (id : string)
| ByDDPayerId (dd_payer_id : string)
| ByLegacyStripeCustomerId (legacy_stripe_customer_id : string).

(** [GetStripeCustomerInput(stripe_id=..)] and [(id=..)] *)
Inductive GetStripeCustomerInput : Set :=
| ByStripeId (stripe_id : string)
| BySerialId (id : string).

Definition payer_matches (i : GetPayerByIdInput) (p : PayerDbEntity.t) : bool :=
  match i with
  | ById x => String.eqb (PayerDbEntity.id p) x
  | ByDDPayerId x => String.eqb (PayerDbEntity.dd_payer_id p) x
  | ByLegacyStripeCustomerId x => String.eqb (PayerDbEntity.legacy_stripe_customer_id p) x
  end.

(** A serial id that does not read as an integer matches no row. *)
Definition stripe_customer_matches
    (i : GetStripeCustomerInput) (c : StripeCustomerDbEntity.t) : bool :=
  match i with
  | ByStripeId x => String.eqb (StripeCustomerDbEntity.stripe_id c) x
  | BySerialId x =>
      match Py.int x with
      | Some n => Z.eqb (StripeCustomerDbEntity.id c) n
      | None => false
      end
  end.

Definition get_payer_by_id (request : GetPayerByIdInput) : M (option PayerDbEntity.t) :=
  statement (DbRead T_payers) ;;;
  gets (fun w => List.find (payer_matches request) (payers (payment_database w))).

Definition get_payer_by_dd_payer_id_and_payer_type
    (dd_payer_id payer_type : string) : M (option PayerDbEntity.t) :=
  statement (DbRead T_payers) ;;;
  gets (fun w =>
    List.find (fun p => String.eqb (PayerDbEntity.dd_payer_id p) dd_payer_id
                        && String.eqb (PayerDbEntity.payer_type p) payer_type)
              (payers (payment_database w))).

Definition get_payer_and_pgp_customer_by_id (input : GetPayerByIdInput)
  : M (option PayerDbEntity.t * option PgpCustomerDbEntity.t) :=
  payer <- get_payer_by_id input ;;
  match payer with
  | None => ret (None, None)
  | Some p =>
      statement (DbRead T_pgp_customers) ;;;
      pgp <- gets (fun w =>
               List.find (fun c => String.eqb (PgpCustomerDbEntity.payer_id c)
                                              (PayerDbEntity.id p))
                         (pgp_customers (payment_database w))) ;;
      ret (Some p, pgp)
  end.

Definition get_stripe_customer (input : GetStripeCustomerInput)
  : M (option StripeCustomerDbEntity.t) :=
  statement (DbRead T_stripe_customer) ;;;
  gets (fun w =>
    List.find (stripe_customer_matches input) (stripe_customer (main_database w))).

Definition append_payer (row : PayerDbEntity.t) : M unit :=
  statement (DbWrite T_payers) ;;;
  modify (fun w => set_payers (payers (payment_database w) ++ [row])%list w).

Definition append_pgp_customer (row : PgpCustomerDbEntity.t) : M unit :=
  statement (DbWrite T_pgp_customers) ;;;
  modify (fun w =>
    set_pgp_customers (pgp_customers (payment_database w) ++ [row])%list w).

Definition insert_payer (request : PayerDbEntity.t) : M PayerDbEntity.t :=
  transaction PaymentDatabase (append_payer request ;;; ret request).

Definition insert_payer_and_pgp_customer
    (payer_input : PayerDbEntity.t) (pgp_customer_input : PgpCustomerDbEntity.t)
  : M (PayerDbEntity.t * PgpCustomerDbEntity.t) :=
  transaction PaymentDatabase
    (append_payer payer_input ;;;
     append_pgp_customer pgp_customer_input ;;;
     ret (payer_input, pgp_customer_input)).

(** [InsertStripeCustomerInput]: the columns without the primary key. *)
Definition insert_stripe_customer
    (stripe_id country_shortname owner_type : string) (owner_id : Z)
    (default_card : option string) : M StripeCustomerDbEntity.t :=
  transaction MainDatabase
    (statement (DbWrite T_stripe_customer) ;;;
     id <- next_serial ;;
     let row := StripeCustomerDbEntity.mk id stripe_id country_shortname
                  owner_type owner_id default_card in
     modify (fun w =>
       set_stripe_customer (stripe_customer (main_database w) ++ [row])%list w) ;;;
     ret row).

(** [UPDATE pgp_customers SET default_payment_method_id = .. WHERE id = ..
    RETURNING *] *)
Definition update_pgp_customer
    (set_default_payment_method_id : string) (where_id : string)
  : M (option PgpCustomerDbEntity.t) :=
  transaction PaymentDatabase
    (statement (DbWrite T_pgp_customers) ;;;
     let hit c := String.eqb (PgpCustomerDbEntity.id c) where_id in
     let upd c :=
       if hit c
       then PgpCustomerDbEntity.with_default_payment_method_id
              (Some set_default_payment_method_id) c
       else c in
     modify (fun w =>
       set_pgp_customers (List.map upd (pgp_customers (payment_database w))) w) ;;;
     gets (fun w => List.find hit (pgp_customers (payment_database w)))).

(** [UPDATE stripe_customer SET default_card = .. WHERE id = .. RETURNING *] *)
Definition update_stripe_customer
    (set_default_card : string) (where_id : Z)
  : M (option StripeCustomerDbEntity.t) :=
  transaction MainDatabase
    (statement (DbWrite T_stripe_customer) ;;;
     let hit c := Z.eqb (StripeCustomerDbEntity.id c) where_id in
     let upd c :=
       if hit c
       then StripeCustomerDbEntity.with_default_card (Some set_default_card) c
       else c in
     modify (fun w =>
       set_stripe_customer (List.map upd (stripe_customer (main_database w))) w) ;;;
     gets (fun w => List.find hit (stripe_customer (main_database w)))).

End PayerRepository.

(* ===================================================================== *)
(** ** payer/processor.py: the two strategies *)
(* ===================================================================== *)

Import PayerRepository.

(** The [except DataError] clause shared by both [create_payer_raw_objects]:
    the log line formats [payer_entity.id], so the local variable is read
    first; then the domain error is raised. *)
Definition create_payer_DataError_handler {A}
    (payer_entity : option PayerDbEntity.t) : M A :=
  _ <- read_local payer_entity ;;
  log_error "create_payer_impl: DataError when writing into db" ;;;
  raise (PayerCreationError PAYER_CREATE_INVALID_DATA true).

Module PayerOps.

(** [payer_entity] is a bare annotation until the insert returns, and the
    insert is the only statement of the [try] block that can raise a
    [DataError]: the handler always runs with [payer_entity] unbound. *)
Definition create_payer_raw_objects
    (dd_payer_id payer_type country pgp_customer_id pgp_code : string)
    (description default_payment_method_id : option string) : M ref :=
  entities <-
    try_except
      (payer_id <- generate_object_uuid PAYER ;;
       let payer_input :=
         PayerDbEntity.mk payer_id payer_type dd_payer_id pgp_customer_id
                          country description in
       pgp_id <- generate_object_uuid PGP_CUSTOMER ;;
       let pgp_customer_input :=
         PgpCustomerDbEntity.mk pgp_id payer_id pgp_code pgp_customer_id
                                default_payment_method_id in
       r <- insert_payer_and_pgp_customer payer_input pgp_customer_input ;;
       log_info "create_payer_impl: create payer/pgp_customer completed" ;;;
       ret r)
      (except_DataError (create_payer_DataError_handler None)) ;;
  new_RawPayer (RawPayer.mk (Some (fst entities)) (Some (snd entities)) None).

Definition get_payer_raw_objects
    (payer_id : string) (payer_id_type payer_type : option string) : M ref :=
  found <-
    try_except
      (get_payer_and_pgp_customer_by_id
         (if Py.opt_str_eqb payer_id_type PayerIdType.DD_CONSUMER_ID
          then ByDDPayerId payer_id
          else ById payer_id))
      (except_DataError
         (log_error "get_payer_raw_objects: DataError when reading data from db" ;;;
          raise (PayerReadError PAYER_READ_DB_ERROR false))) ;;
  let '(payer_entity, pgp_cus_entity) := found in
  let is_found := Py.truthy payer_entity && Py.truthy pgp_cus_entity in
  if negb is_found then
    log_error "get_payer_entity: payer not found" ;;;
    raise (PayerReadError PAYER_READ_NOT_FOUND false)
  else
    new_RawPayer (RawPayer.mk payer_entity pgp_cus_entity None).

(** The aggregate passed in is updated by attribute assignment and is the
    object that is returned. *)
Definition update_payer_default_payment_method
    (raw_payer : ref) (pgp_default_payment_method_id payer_id : string)
    (payer_type payer_id_type : option string) : M ref :=
  this <- deref raw_payer ;;
  match RawPayer.pgp_customer_entity this with
  | Some pgp_customer_entity =>
      updated <- update_pgp_customer pgp_default_payment_method_id
                   (PgpCustomerDbEntity.id pgp_customer_entity) ;;
      setattr raw_payer (RawPayer.set_pgp_customer_entity updated)
  | None =>
      match RawPayer.stripe_customer_entity this with
      | Some stripe_customer_entity =>
          updated <- update_stripe_customer pgp_default_payment_method_id
                       (StripeCustomerDbEntity.id stripe_customer_entity) ;;
          setattr raw_payer (RawPayer.set_stripe_customer_entity updated)
      | None =>
          log_info "update_payer_default_payment_method: payer object doesn't exist"
      end
  end ;;;
  log_info "update_payer_default_payment_method: pgp_customers update completed" ;;;
  ret raw_payer.

End PayerOps.

Module LegacyPayerOps.

(** The [try] block has two parts: up to the assignment of [payer_entity]
    a [DataError] reaches the handler with the variable unbound, after it
    with the variable bound.  The handler raises, so splitting the block
    at the assignment does not change which exception leaves it. *)
Definition create_payer_raw_objects
    (dd_payer_id payer_type country pgp_customer_id pgp_code : string)
    (description default_payment_method_id : option string) : M ref :=
  payer_entity <-
    try_except
      (payer_id <- generate_object_uuid PAYER ;;
       let payer_input :=
         PayerDbEntity.mk payer_id payer_type dd_payer_id pgp_customer_id
                          country description in
       insert_payer payer_input)
      (except_DataError (create_payer_DataError_handler None)) ;;
  stripe_customer_entity <-
    try_except
      (log_info "create_payer_impl: create payer completed" ;;;
       existing <- get_stripe_customer (ByStripeId pgp_customer_id) ;;
       stripe_customer_entity <-
         match existing with
         | Some e => ret e
         | None =>
             owner_id <- int_of_str dd_payer_id ;;
             insert_stripe_customer pgp_customer_id country payer_type owner_id
                                    default_payment_method_id
         end ;;
       log_info "create_payer_impl: create stripe_customer completed" ;;;
       ret stripe_customer_entity)
      (except_DataError (create_payer_DataError_handler (Some payer_entity))) ;;
  new_RawPayer (RawPayer.mk (Some payer_entity) None (Some stripe_customer_entity)).

Definition get_payer_raw_objects
    (payer_id : string) (payer_id_type payer_type : option string) : M ref :=
  found <-
    try_except
      (if Py.truthy_str payer_type
          && negb (Py.opt_str_eqb payer_type PayerType.MARKETPLACE)
       then
         stripe_cus_entity <-
           get_stripe_customer
             (if Py.opt_str_eqb payer_id_type PayerIdType.STRIPE_CUSTOMER_ID
              then ByStripeId payer_id
              else BySerialId payer_id) ;;
         payer_entity <- get_payer_by_id (ByLegacyStripeCustomerId payer_id) ;;
         ret (payer_entity, stripe_cus_entity)
       else
         log_error "get_payer_raw_objects: no record in db, should retrieve from stripe" ;;;
         ret (None, None))
      (except_DataError
         (log_error "get_payer_entity: DataError when reading data from db" ;;;
          raise (PayerReadError PAYER_READ_DB_ERROR false))) ;;
  let '(payer_entity, stripe_cus_entity) := found in
  let is_found := Py.truthy stripe_cus_entity in
  if negb is_found then
    log_error "get_payer_entity: payer not found" ;;;
    raise (PayerReadError PAYER_READ_NOT_FOUND false)
  else
    new_RawPayer (RawPayer.mk payer_entity None stripe_cus_entity).

Definition update_payer_default_payment_method
    (raw_payer : ref) (pgp_default_payment_method_id payer_id : string)
    (payer_type payer_id_type : option string) : M ref :=
  this <- deref raw_payer ;;
  match RawPayer.stripe_customer_entity this with
  | Some stripe_customer_entity =>
      updated <- update_stripe_customer pgp_default_payment_method_id
                   (StripeCustomerDbEntity.id stripe_customer_entity) ;;
      setattr raw_payer (RawPayer.set_stripe_customer_entity updated) ;;;
      log_info "update_payer_impl: stripe_customer update default_payment_method completed"
  | None => ret tt
  end ;;;
  ret raw_payer.

End LegacyPayerOps.

(** The strategy selected by the id type, as both dispatching methods of
    [PayerClient] compute it; [None] is the [else] branch. *)
Inductive PayerOpsInterface : Set := UsePayerOps | UseLegacyPayerOps.

Definition select_payer_interface (payer_id_type : option string)
  : option PayerOpsInterface :=
  if negb (Py.truthy_str payer_id_type)
     || Py.opt_str_in payer_id_type
          [PayerIdType.DD_PAYMENT_PAYER_ID; PayerIdType.DD_CONSUMER_ID]
  then Some UsePayerOps
  else if Py.opt_str_in payer_id_type
            [PayerIdType.STRIPE_CUSTOMER_SERIAL_ID; PayerIdType.STRIPE_CUSTOMER_ID]
       then Some UseLegacyPayerOps
       else None.

(* ===================================================================== *)
(** ** payer/processor.py: PayerClient *)
(* ===================================================================== *)

Module PayerClient.

Definition has_existing_payer (dd_payer_id payer_type : string) : M unit :=
  try_except
    (exist_payer <- get_payer_by_dd_payer_id_and_payer_type dd_payer_id payer_type ;;
     if Py.truthy exist_payer then
       (* the raise of PAYER_CREATE_PAYER_ALREADY_EXIST is commented out *)
       log_error "create_payer_impl: payer already exists"
     else ret tt)
    (except_DataError
       (log_error "create_payer_impl: DataError when reading from payers table" ;;;
        raise (PayerCreationError PAYER_READ_DB_ERROR true))).

Definition create_payer_raw_objects
    (dd_payer_id payer_type country pgp_customer_id pgp_code : string)
    (description default_payment_method_id : option string) : M ref :=
  if String.eqb payer_type PayerType.MARKETPLACE then
    PayerOps.create_payer_raw_objects dd_payer_id payer_type country
      pgp_customer_id pgp_code description default_payment_method_id
  else
    LegacyPayerOps.create_payer_raw_objects dd_payer_id payer_type country
      pgp_customer_id pgp_code description default_payment_method_id.

Definition get_payer_raw_objects
    (payer_id : string) (payer_id_type payer_type : option string) : M ref :=
  match select_payer_interface payer_id_type with
  | Some UsePayerOps =>
      PayerOps.get_payer_raw_objects payer_id payer_id_type payer_type
  | Some UseLegacyPayerOps =>
      LegacyPayerOps.get_payer_raw_objects payer_id payer_id_type payer_type
  | None =>
      log_error "get_payer_entity: invalid payer_id_type" ;;;
      raise (PayerReadError PAYER_READ_INVALID_DATA false)
  end.

Definition lazy_create_payer
    (dd_payer_id country pgp_customer_id pgp_code payer_type : string)
    (default_payment_method_id description : option string) : M ref :=
  (* ensure Payer doesn't exist *)
  get_payer_entity <- get_payer_by_id (ByLegacyStripeCustomerId pgp_customer_id) ;;
  match get_payer_entity with
  | Some _ =>
      log_info "lazy_create_payer: payer already exist for stripe_customer" ;;;
      new_RawPayer (RawPayer.mk get_payer_entity None None)
  | None =>
      create_payer_raw_objects dd_payer_id payer_type country pgp_customer_id
        pgp_code description default_payment_method_id
  end.

Definition update_payer_default_payment_method
    (raw_payer : ref) (pgp_default_payment_method_id payer_id : string)
    (payer_type payer_id_type description : option string) : M ref :=
  match select_payer_interface payer_id_type with
  | None =>
      log_error "get_payer_entity: invalid payer_id_type" ;;;
      raise (PayerReadError PAYER_READ_INVALID_DATA false)
  | Some interface =>
      let lazy_create :=
        match interface with UsePayerOps => false | UseLegacyPayerOps => true end in
      updated_raw_payer <-
        match interface with
        | UsePayerOps =>
            PayerOps.update_payer_default_payment_method raw_payer
              pgp_default_payment_method_id payer_id payer_type payer_id_type
        | UseLegacyPayerOps =>
            LegacyPayerOps.update_payer_default_payment_method raw_payer
              pgp_default_payment_method_id payer_id payer_type payer_id_type
        end ;;
      updated <- deref updated_raw_payer ;;
      match lazy_create, RawPayer.stripe_customer_entity updated with
      | true, Some stripe_customer_entity =>
          lazy_create_payer
            (Py.str (StripeCustomerDbEntity.owner_id stripe_customer_entity))
            (StripeCustomerDbEntity.country_shortname stripe_customer_entity)
            (StripeCustomerDbEntity.stripe_id stripe_customer_entity)
            PaymentProvider.STRIPE
            (StripeCustomerDbEntity.owner_type stripe_customer_entity)
            (Some pgp_default_payment_method_id)
            description
      | _, _ => ret updated_raw_payer
      end
  end.

End PayerClient.

(* ===================================================================== *)
(** ** The gateway *)
(* ===================================================================== *)

(** One call of the gateway client: the call is recorded as issued, the
    script gives the reply. *)
Definition gateway_call (ev : Event) : M string :=
  fun w =>
    match gateway_script w with
    | [] => (Raise StripeError, w, [ev])
    | GatewayOk resource_id :: rest => (Ok resource_id, set_gateway_script rest w, [ev])
    | GatewayRaises :: rest => (Raise StripeError, set_gateway_script rest w, [ev])
    end.

(* ===================================================================== *)
(** ** payer/processor.py: the operations, and the create_payer route *)
(* ===================================================================== *)

Section Operations.

(** Declarations of the repository that the sources do not contain are
    parameters of the operations. *)

(** membership in the [CountryCode] enumeration (app/commons/types.py) *)
Variable is_country_code : string -> bool.

(** the [Payer] response model and [RawPayer.to_payer]
    (app/payin/core/payer/model.py) *)
Variable Payer : Type.
Variable to_payer : RawPayer.t -> Payer.

(** [RawPayer.get_pgp_customer_id] (same module) *)
Variable get_pgp_customer_id : RawPayer.t -> Result string.

(** [get_payment_method] of app/payin/core/payment_method/processor.py,
    called with payer_id, payment_method_id, payer_id_type and
    payment_method_id_type *)
Variable get_payment_method :
  string -> string -> option string -> option string ->
  M (option PgpPaymentMethodDbEntity.t * StripeCardDbEntity.t).

(** [CountryCode(country)] *)
Definition CountryCode (country : string) : M string :=
  if is_country_code country then ret country else raise ValueError.

Definition lift_result {A} (r : Result A) : M A :=
  match r with
  | Ok a => ret a
  | Raise e => raise e
  end.

Definition pgp_create_customer (country email description : string) : M string :=
  try_except
    (c <- CountryCode country ;;
     gateway_call GatewayCreateCustomer)
    (except_Exception
       (log_error "pgp_create_customer: error while creating stripe customer" ;;;
        raise (PayerCreationError PAYER_CREATE_STRIPE_ERROR false))).

Definition pgp_update_customer_default_payment_method
    (country pgp_customer_id default_payment_method_id : string) : M string :=
  try_except
    (input_country <- CountryCode country ;;
     gateway_call GatewayUpdateCustomer)
    (except_Exception
       (log_error "pgp_update_customer_default_payment_method: error while updating stripe customer" ;;;
        raise (PayerUpdateError PAYER_UPDATE_STRIPE_ERROR false))).

Definition create_payer_impl
    (dd_payer_id payer_type email country description : string) : M Payer :=
  log_info "create_payer_impl" ;;;
  let pgp_code := PaymentProvider.STRIPE in
  (* step 1: lookup active payer by dd_payer_id + payer_type *)
  PayerClient.has_existing_payer dd_payer_id payer_type ;;;
  (* step 2: create PGP customer *)
  pgp_customer_id <- pgp_create_customer country email description ;;
  log_info "create_payer_impl: create PGP customer completed" ;;;
  (* step 3: create Payer/PgpCustomer/StripeCustomer objects *)
  raw_payer <- PayerClient.create_payer_raw_objects dd_payer_id payer_type country
                 pgp_customer_id pgp_code (Some description) None ;;
  this <- deref raw_payer ;;
  ret (to_payer this).

Definition get_payer_impl
    (payer_id : string) (payer_id_type payer_type : option string) : M Payer :=
  log_info "get_payer_impl" ;;;
  raw_payer <- PayerClient.get_payer_raw_objects payer_id payer_id_type payer_type ;;
  this <- deref raw_payer ;;
  ret (to_payer this).

Definition update_payer_impl
    (payer_id default_payment_method_id country : string)
    (payer_id_type payer_type payment_method_id_type : option string) : M Payer :=
  (* step 1: find Payer object to get pgp_resource_id *)
  raw_payer <- PayerClient.get_payer_raw_objects payer_id payer_id_type payer_type ;;
  (* step 2: find PaymentMethod object to get pgp_resource_id *)
  pm <- get_payment_method payer_id default_payment_method_id payer_id_type
          payment_method_id_type ;;
  let sc_entity := snd pm in
  (* step 3: call PGP/stripe api to update default payment method *)
  this <- deref raw_payer ;;
  pgp_customer_id <- lift_result (get_pgp_customer_id this) ;;
  stripe_customer <-
    pgp_update_customer_default_payment_method country pgp_customer_id
      (StripeCardDbEntity.stripe_id sc_entity) ;;
  log_info "update_payer_impl: PGP update default_payment_method completed" ;;;
  (* step 4: update default_payment_method in pgp_customers/stripe_customer table *)
  updated_raw_payer <-
    PayerClient.update_payer_default_payment_method raw_payer
      (StripeCardDbEntity.stripe_id sc_entity) payer_id payer_type payer_id_type None ;;
  updated <- deref updated_raw_payer ;;
  ret (to_payer updated).

(** *** api/payer/v1/api.py *)

(** The fields of [CreatePayerRequest] that the route reads. *)
Record CreatePayerRequest : Set := mkCreatePayerRequest {
  req_dd_payer_id : string;
  req_payer_type : string;
  req_email : string;
  req_country : string;
  req_description : string
}.

(** [except ValueError as e] *)
Definition except_ValueError {A} (h : M A) : exn -> option (M A) :=
  fun e => match e with ValueError => Some h | _ => None end.

(** [except PaymentError as e] *)
Definition except_PaymentError {A} (h : PayinErrorCode -> bool -> M A)
  : exn -> option (M A) :=
  fun e => match as_PaymentError e with
           | Some (c, r) => Some (h c r)
           | None => None
           end.

(** Verify dd_payer_id is numeric if it is provided. *)
Definition verify_dd_payer_id (dd_payer_id : string) : M unit :=
  if negb (String.eqb dd_payer_id "") then
    try_except
      (int_of_str dd_payer_id ;;; ret tt)
      (except_ValueError
         (log_error "create_payer: Value error for non-numeric value" ;;;
          raise (PaymentException HTTP_422_UNPROCESSABLE_ENTITY
                                  PAYER_CREATE_INVALID_DATA false)))
  else ret tt.

(** The route hands the request to the processor's [create_payer], which
    is [create_payer_impl] in processor.py. *)
Definition create_payer (req_body : CreatePayerRequest) : M Payer :=
  log_info "create_payer: receive request" ;;;
  verify_dd_payer_id (req_dd_payer_id req_body) ;;;
  try_except
    (payer <- create_payer_impl (req_dd_payer_id req_body) (req_payer_type req_body)
                (req_email req_body) (req_country req_body)
                (req_description req_body) ;;
     log_info "create_payer: completed" ;;;
     ret payer)
    (except_PaymentError
       (fun error_code retryable =>
          raise (PaymentException
                   (if PayinErrorCode_eqb error_code PAYER_CREATE_INVALID_DATA
                    then HTTP_422_UNPROCESSABLE_ENTITY
                    else HTTP_500_INTERNAL_SERVER_ERROR)
                   error_code retryable))).

End Operations.

(* ===================================================================== *)
(** ** payment_method/model.py *)
(* ===================================================================== *)

(** [RawPaymentMethod.pgp_payment_method_id]: the local variable is only
    annotated; each branch of the [if]/[elif] assigns it; the [return] reads
    it. *)
Definition pgp_payment_method_id (self : RawPaymentMethod.t) : M string :=
  let pgp_payment_method_id : option string :=
    match RawPaymentMethod.pgp_payment_method_entity self with
    | Some e => Some (PgpPaymentMethodDbEntity.pgp_resource_id e)
    | None =>
        match RawPaymentMethod.stripe_card_entity self with
        | Some c => Some (StripeCardDbEntity.stripe_id c)
        | None => None
        end
    end in
  read_local pgp_payment_method_id.

(** [RawPaymentMethod.legacy_dd_stripe_card_id] *)
Definition legacy_dd_stripe_card_id (self : RawPaymentMethod.t) : option string :=
  match RawPaymentMethod.stripe_card_entity self with
  | Some c => Some (Py.str (StripeCardDbEntity.id c))
  | None => None
  end.

(** [RawPaymentMethod.payer_id] *)
Definition RawPaymentMethod_payer_id (self : RawPaymentMethod.t) : option string :=
  match RawPaymentMethod.pgp_payment_method_entity self with
  | Some e => PgpPaymentMethodDbEntity.payer_id e
  | None => None
  end.

(* ===================================================================== *)
(** ** cart_payment/model.py *)
(* ===================================================================== *)

(** [PgpPaymentIntent], declared [@dataclass(frozen=True)]; the status is
    the value of the [IntentStatus] member, time stamps are seconds since
    the epoch. *)
Module PgpPaymentIntent.
Record t : Set := mk {
  id : string;
  payment_intent_id : string;
  idempotency_key : string;
  pgp_code : string;
  resource_id : option string;
  status : string;
  invoice_resource_id : option string;
  charge_resource_id : option string;
  payment_method_resource_id : string;
  customer_resource_id : option string;
  currency : string;
  amount : Z;
  amount_capturable : option Z;
  amount_received : option Z;
  application_fee_amount : option Z;
  payout_account_id : option string;
  capture_method : string;
  created_at : Z;
  updated_at : Z;
  captured_at : option Z;
  cancelled_at : option Z
}.

(** The assignment [self.amount = v], were it allowed. *)
Definition with_amount (v : Z) (r : t) : t :=
  mk (id r) (payment_intent_id r) (idempotency_key r) (pgp_code r) (resource_id r)
     (status r) (invoice_resource_id r) (charge_resource_id r)
     (payment_method_resource_id r) (customer_resource_id r) (currency r) v
     (amount_capturable r) (amount_received r) (application_fee_amount r)
     (payout_account_id r) (capture_method r) (created_at r) (updated_at r)
     (captured_at r) (cancelled_at r).
End PgpPaymentIntent.

(** [obj.attr = v] on an instance of a class: a frozen dataclass refuses
    the assignment with FrozenInstanceError and the instance stays as it
    is; any other class stores the new state. *)
Inductive ClassKind : Set := FrozenDataclass | MutableClass.

Definition assign_attribute {A} (kind : ClassKind) (assign : A -> A) (obj : A)
  : Result A :=
  match kind with
  | FrozenDataclass => Raise FrozenInstanceError
  | MutableClass => Ok (assign obj)
  end.

(* ===================================================================== *)
(** ** Observations on worlds and event lists *)
(* ===================================================================== *)

Definition run {A} (m : M A) (w : World) : Result A * World * list Event := m w.

Definition result_of {A} (x : Result A * World * list Event) : Result A := fst (fst x).
Definition world_of {A} (x : Result A * World * list Event) : World := snd (fst x).
Definition events_of {A} (x : Result A * World * list Event) : list Event := snd x.

(** Rows of [payers] that mirror the legacy customer [stripe_id]. *)
Definition mirrors_of (stripe_id : string) (w : World) : list PayerDbEntity.t :=
  List.filter (fun p => String.eqb (PayerDbEntity.legacy_stripe_customer_id p) stripe_id)
              (payers (payment_database w)).

(** Rows of [payers] for one dd_payer_id and payer_type. *)
Definition payers_of (dd_payer_id payer_type : string) (w : World)
  : list PayerDbEntity.t :=
  List.filter (fun p => String.eqb (PayerDbEntity.dd_payer_id p) dd_payer_id
                        && String.eqb (PayerDbEntity.payer_type p) payer_type)
              (payers (payment_database w)).

(** Every database write of the list comes after a gateway update call;
    [seen] tells whether such a call precedes the list. *)
Fixpoint gateway_before_writes (seen : bool) (evs : list Event) : bool :=
  match evs with
  | [] => true
  | GatewayUpdateCustomer :: rest => gateway_before_writes true rest
  | DbWrite _ :: rest => seen && gateway_before_writes seen rest
  | _ :: rest => gateway_before_writes seen rest
  end.

Definition no_db_write (evs : list Event) : bool := forallb (fun e => negb (is_db_write e)) evs.

Definition no_db_event (evs : list Event) : bool := forallb (fun e => negb (is_db_event e)) evs.

Definition no_gateway_event (evs : list Event) : bool :=
  forallb (fun e => negb (is_gateway_event e)) evs.

(** The id types for which the dispatch selects the current-schema
    strategy (an absent and an empty id type are both falsy), those for
    which it selects the legacy-schema strategy, and the payer types for
    which the legacy strategy does not look anything up. *)
Definition current_schema_id_types : list (option string) :=
  [None; Some ""; Some PayerIdType.DD_PAYMENT_PAYER_ID; Some PayerIdType.DD_CONSUMER_ID].

Definition legacy_schema_id_types : list (option string) :=
  [Some PayerIdType.STRIPE_CUSTOMER_ID; Some PayerIdType.STRIPE_CUSTOMER_SERIAL_ID].

Definition unspecified_or_marketplace : list (option string) :=
  [None; Some ""; Some PayerType.MARKETPLACE].

(** The tables of both databases, which is what a rollback restores and
    what "unchanged" means below. *)
Definition tables (w : World) : PaymentDb * MainDb :=
  (payment_database w, main_database w).

(** Primary key of the legacy table. *)
Definition stripe_customer_pk (w : World) : Prop :=
  List.NoDup (List.map StripeCustomerDbEntity.id (stripe_customer (main_database w))).

(** What leaves an [except DataError] clause when the statement it guards
    fails with [f]: the error the clause raises for a [DataError], the
    driver's exception otherwise. *)
Definition through_except_DataError (raised_by_clause : exn) (f : DbFault) : exn :=
  match f with
  | FaultDataError => raised_by_clause
  | FaultConnectionLost | FaultTimeout => exn_of_fault f
  end.

(** The aggregate stored at [raw_payer] once
    [PayerOps.update_payer_default_payment_method] has returned in world
    [w']: the entity that the method updated is the row read back from the
    table, the other attributes are those of [this]. *)
Definition PayerOps_updated_aggregate (this : RawPayer.t) (w' : World) : RawPayer.t :=
  match RawPayer.pgp_customer_entity this, RawPayer.stripe_customer_entity this with
  | Some pgp, _ =>
      RawPayer.set_pgp_customer_entity
        (List.find (fun c => String.eqb (PgpCustomerDbEntity.id c) (PgpCustomerDbEntity.id pgp))
                   (pgp_customers (payment_database w'))) this
  | None, Some sc =>
      RawPayer.set_stripe_customer_entity
        (List.find (fun c => Z.eqb (StripeCustomerDbEntity.id c) (StripeCustomerDbEntity.id sc))
                   (stripe_customer (main_database w'))) this
  | None, None => this
  end.

(** The same for [LegacyPayerOps.update_payer_default_payment_method]. *)
Definition LegacyPayerOps_updated_aggregate (this : RawPayer.t) (w' : World) : RawPayer.t :=
  match RawPayer.stripe_customer_entity this with
  | Some sc =>
      RawPayer.set_stripe_customer_entity
        (List.find (fun c => Z.eqb (StripeCustomerDbEntity.id c) (StripeCustomerDbEntity.id sc))
                   (stripe_customer (main_database w'))) this
  | None => this
  end.

(** A computation that issues no write and leaves the tables alone. *)
Definition quiet {A} (m : M A) : Prop :=
  forall w r w' evs,
    m w = (r, w', evs) -> tables w' = tables w /\ no_db_write evs = true.

(** A computation all of whose exceptions satisfy [P]. *)
Definition raises_only {A} (P : exn -> bool) (m : M A) : Prop :=
  forall w e w' evs, m w = (Raise e, w', evs) -> P e = true.



Definition has_gateway_update (evs : list Event) : bool :=
  existsb (fun e => match e with GatewayUpdateCustomer => true | _ => false end) evs.

(** Exceptions of the database layer and of the Python runtime. *)
Definition is_low_level (e : exn) : bool :=
  match e with
  | DataError | ConnectionLostError | QueryTimeoutError
  | ValueError | UnboundLocalError => true
  | _ => false
  end.

(** What the ordering rule asks of an operation: no write is issued before
    the gateway update call, and a PayerUpdateError leaves the tables as
    they were. *)
Definition guarded {A} (m : M A) : Prop :=
  forall w r w' evs,
    m w = (r, w', evs) ->
    gateway_before_writes false evs = true
    /\ (forall c b, r = Raise (PayerUpdateError c b) -> tables w' = tables w).

(** Resolving a payer and then updating its default payment method: the
    two calls of [update_payer_impl] that read and write the payer tables. *)
Definition resolve_and_update
    (payer_id pgp_default_payment_method_id : string)
    (payer_id_type payer_type : option string) : M ref :=
  raw_payer <- PayerClient.get_payer_raw_objects payer_id payer_id_type payer_type ;;
  PayerClient.update_payer_default_payment_method raw_payer
    pgp_default_payment_method_id payer_id payer_type payer_id_type None.

(** The input of the legacy lookup, as [LegacyPayerOps.get_payer_raw_objects]
    builds it. *)
Definition legacy_lookup_input (payer_id : string) (payer_id_type : option string)
  : GetStripeCustomerInput :=
  if Py.opt_str_eqb payer_id_type PayerIdType.STRIPE_CUSTOMER_ID
  then ByStripeId payer_id
  else BySerialId payer_id.

(** The row-wise effect of [update_stripe_customer]. *)
Definition set_card (pm : string) (where_id : Z) (c : StripeCustomerDbEntity.t) :=
  if Z.eqb (StripeCustomerDbEntity.id c) where_id
  then StripeCustomerDbEntity.with_default_card (Some pm) c
  else c.

(** ** Sample worlds *)

Definition empty_world : World :=
  mkWorld (mkPaymentDb [] [] [] []) (mkMainDb [] []) ∅ 0%nat 0%nat 1 [] [].

(** A legacy customer of a drive store, with no row in the current schema. *)
Definition legacy_customer : StripeCustomerDbEntity.t :=
  StripeCustomerDbEntity.mk 5 "cus_1" "US" "drive" 123 None.

Definition legacy_only_world : World :=
  set_serial_seed 6 (set_stripe_customer [legacy_customer] empty_world).

(** A payer of the current schema, resolved into an aggregate at address 0. *)
Definition current_payer : PayerDbEntity.t :=
  PayerDbEntity.mk "pay_0" "marketplace" "123" "cus_9" "US" None.

Definition current_pgp_customer : PgpCustomerDbEntity.t :=
  PgpCustomerDbEntity.mk "pgpcus_0" "pay_0" "stripe" "cus_9" None.

(** A stripe card, and a lookup of the payment method that always finds it. *)
Definition sample_card : StripeCardDbEntity.t :=
  StripeCardDbEntity.mk 11
    (InsertStripeCardDbEntity.mk "card_1" "fp" "4242" "" "12" "2030" "visa"
       None None None None None None true None None None None None None None).

Definition found_sample_card (payer_id payment_method_id : string)
    (payer_id_type payment_method_id_type : option string)
  : M (option PgpPaymentMethodDbEntity.t * StripeCardDbEntity.t) :=
  PaymentMethodRepository.get_stripe_card_by_stripe_id payment_method_id ;;;
  ret (None, sample_card).

(** [get_pgp_customer_id] of an aggregate: the gateway id of whichever
    customer entity is present. *)
Definition sample_get_pgp_customer_id (r : RawPayer.t) : Result string :=
  match RawPayer.pgp_customer_entity r, RawPayer.stripe_customer_entity r with
  | Some c, _ => Ok (PgpCustomerDbEntity.pgp_resource_id c)
  | None, Some c => Ok (StripeCustomerDbEntity.stripe_id c)
  | None, None => Raise UnboundLocalError
  end.

Definition resolved_current_world : World :=
  set_heap {[ 0%nat := RawPayer.mk (Some current_payer) (Some current_pgp_customer) None ]}
           1%nat
           (set_pgp_customers [current_pgp_customer]
              (set_payers [current_payer] empty_world)).

(* ===================================================================== *)
(** ** api/payer/v1/api.py: the routes that read and update a payer *)
(* ===================================================================== *)

Definition HTTP_400_BAD_REQUEST : Z := 400.
Definition HTTP_404_NOT_FOUND : Z := 404.

(** The body of the loop of [_verify_payment_method_id]: the state is the
    pair of local variables, unbound at first, and the count. *)
Definition count_payment_method_id
    (locals : option string * option string * Z) (field : string * option string)
  : option string * option string * Z :=
  let '(payment_method_id, payment_method_id_type, count) := locals in
  let '(key, value) := field in
  if Py.truthy_str value then (value, Some key, count + 1) else locals.

(** [for key, value in request.default_payment_method]: iterating a
    pydantic model yields its fields in declaration order, each with its
    name and value. *)
Definition scan_payment_method_ids (fields : list (string * option string))
  : option string * option string * Z :=
  List.fold_left count_payment_method_id fields (None, None, 0).

Definition _verify_payment_method_id
    (default_payment_method : list (string * option string)) : M (string * string) :=
  let '(payment_method_id, payment_method_id_type, count) :=
    scan_payment_method_ids default_payment_method in
  if negb (count =? 1) then
    raise (PaymentException HTTP_400_BAD_REQUEST
                            PAYMENT_METHOD_GET_INVALID_PAYMENT_METHOD_TYPE false)
  else
    payment_method_id <- read_local payment_method_id ;;
    payment_method_id_type <- read_local payment_method_id_type ;;
    ret (payment_method_id, payment_method_id_type).

Section Routes.

(** The class [PayerProcessor] is not part of the sources: its two methods
    are parameters, taking the keywords the routes call them with
    (payer_id, payer_type, force_update; and payer_id,
    default_payment_method_id, payment_method_id_type). *)
Variable Payer : Type.
Variable processor_get_payer : string -> option string -> bool -> M Payer.
Variable processor_update_payer : string -> string -> string -> M Payer.

Definition get_payer
    (payer_id : string) (payer_type : option string) (force_update : bool) : M Payer :=
  log_info "get_payer" ;;;
  try_except
    (payer <- processor_get_payer payer_id payer_type force_update ;;
     log_info "get_payer: retrieve_payer completed" ;;;
     ret payer)
    (except_PaymentError
       (fun error_code retryable =>
          raise (PaymentException
                   (if PayinErrorCode_eqb error_code PAYER_READ_NOT_FOUND
                       || PayinErrorCode_eqb error_code PAYER_READ_STRIPE_ERROR_NOT_FOUND
                    then HTTP_404_NOT_FOUND
                    else HTTP_500_INTERNAL_SERVER_ERROR)
                   error_code retryable))).

(** The clause compares [e.error_code] with the value of the member
    [PAYER_UPDATE_DB_ERROR_INVALID_DATA]; a member and its value are used
    interchangeably as keys of [payin_error_message_maps] (in
    [create_payer] and in [_verify_payment_method_id]), so they are equal. *)
Definition update_payer
    (payer_id : string) (default_payment_method : list (string * option string))
  : M Payer :=
  log_info "update_payer: received request" ;;;
  try_except
    ((* verify default_payment_method to ensure only one id is provided *)
     verified <- _verify_payment_method_id default_payment_method ;;
     let '(default_payment_method_id, payment_method_id_type) := verified in
     processor_update_payer payer_id default_payment_method_id payment_method_id_type)
    (except_PaymentError
       (fun error_code retryable =>
          let status :=
            if PayinErrorCode_eqb error_code PAYER_UPDATE_DB_ERROR_INVALID_DATA
            then HTTP_400_BAD_REQUEST
            else HTTP_500_INTERNAL_SERVER_ERROR in
          raise (PaymentException status error_code retryable))).

End Routes.

Arguments get_payer {Payer} processor_get_payer payer_id payer_type force_update.
Arguments update_payer {Payer} processor_update_payer payer_id default_payment_method.

(** The fields of a request that carry a value. *)
Definition given_ids (fields : list (string * option string))
  : list (string * option string) :=
  List.filter (fun field => Py.truthy_str (snd field)) fields.

(** What the GET route can fail with when the processor resolves the payer
    with [get_payer_impl]. *)
Definition get_payer_failure (e : exn) : bool :=
  match e with
  | PaymentException status PAYER_READ_NOT_FOUND false =>
      status =? HTTP_404_NOT_FOUND
  | PaymentException status PAYER_READ_DB_ERROR false
  | PaymentException status PAYER_READ_INVALID_DATA false =>
      status =? HTTP_500_INTERNAL_SERVER_ERROR
  | ConnectionLostError | QueryTimeoutError => true
  | _ => false
  end.

(** Neither the HTTP exception with status 400 nor a domain error with the
    code that the PATCH route answers with status 400. *)
Definition never_bad_request (e : exn) : bool :=
  match e with
  | PaymentException status _ _ => negb (status =? HTTP_400_BAD_REQUEST)
  | _ =>
      match as_PaymentError e with
      | Some (error_code, _) =>
          negb (PayinErrorCode_eqb error_code PAYER_UPDATE_DB_ERROR_INVALID_DATA)
      | None => true
      end
  end.

Definition never_bad_request_result {A} (r : Result A) : bool :=
  match r with
  | Ok _ => true
  | Raise e => never_bad_request e
  end.

(* ===================================================================== *)
(** ** payer/processor.py: what a creation writes *)
(* ===================================================================== *)

(** The rows that [PayerOps.create_payer_raw_objects] inserts in world
    [w], and the aggregate it builds from them. *)
Definition created_payer (w : World)
    (dd_payer_id payer_type country pgp_customer_id : string)
    (description : option string) : PayerDbEntity.t :=
  PayerDbEntity.mk ("pay_" ++ Py.str_of_nat (uuid_seed w)) payer_type dd_payer_id
    pgp_customer_id country description.

Definition created_pgp_customer (w : World)
    (pgp_code pgp_customer_id : string) (default_payment_method_id : option string)
  : PgpCustomerDbEntity.t :=
  PgpCustomerDbEntity.mk ("pgpcus_" ++ Py.str_of_nat (S (uuid_seed w)))
    ("pay_" ++ Py.str_of_nat (uuid_seed w)) pgp_code pgp_customer_id
    default_payment_method_id.

(** A world whose gateway replies once. *)
Definition gateway_replies_world : World :=
  set_gateway_script [GatewayOk "cus_77"] empty_world.

(** The payment database with another [payers] table. *)
Definition set_payers_of (d : PaymentDb) (l : list PayerDbEntity.t) : PaymentDb :=
  mkPaymentDb l (pgp_customers d) (pgp_payment_methods d) (payment_methods d).

(* ===================================================================== *)
(** ** payment_method/model.py: the payment method handed to clients *)
(* ===================================================================== *)

Module Wallet.
Record t : Set := mk {
  type : string;
  dynamic_last4 : string
}.
End Wallet.

Module Card.
Record t : Set := mk {
  last4 : string;
  exp_year : string;
  exp_month : string;
  fingerprint : string;
  active : bool;
  legacy_dd_stripe_card_id : Z;
  country : option string;
  brand : option string;
  payment_provider_card_id : option string;
  wallet : option Wallet.t
}.
End Card.

Module PaymentMethod.
Record t : Set := mk {
  payment_provider : string;
  card : Card.t;
  id : option string;
  payer_id : option string;
  type : option string;
  dd_consumer_id : option string;
  payment_provider_customer_id : option string;
  created_at : option Z;
  updated_at : option Z;
  deleted_at : option Z
}.
End PaymentMethod.

(** [str(x)] for an optional integer: [str(None)] is the string "None". *)
Definition str_of_optional_int (x : option Z) : string :=
  match x with
  | Some n => Py.str n
  | None => "None"
  end.

Section ToPaymentMethod.

(** membership in the [WalletType] enumeration
    (app/payin/core/payment_method/types.py), which the field [Wallet.type]
    is validated against; pydantic's [ValidationError] is a [ValueError] *)
Variable is_wallet_type : string -> bool.

(** [Wallet(type=.., dynamic_last4=..)] *)
Definition new_Wallet (type dynamic_last4 : string) : M Wallet.t :=
  if is_wallet_type type then ret (Wallet.mk type dynamic_last4) else raise ValueError.

(** [RawPaymentMethod.to_payment_method] *)
Definition to_payment_method (self : RawPaymentMethod.t) : M PaymentMethod.t :=
  match RawPaymentMethod.stripe_card_entity self with
  | None => raise (PaymentMethodReadError PAYMENT_METHOD_GET_NOT_FOUND false)
  | Some stripe_card_entity =>
      let columns := StripeCardDbEntity.columns stripe_card_entity in
      wallet <-
        match InsertStripeCardDbEntity.tokenization_method columns with
        | Some tokenization_method =>
            if negb (String.eqb tokenization_method "") then
              wallet <- new_Wallet tokenization_method
                          (InsertStripeCardDbEntity.dynamic_last4 columns) ;;
              ret (Some wallet)
            else ret None
        | None => ret None
        end ;;
      let card :=
        Card.mk (InsertStripeCardDbEntity.last4 columns)
                (InsertStripeCardDbEntity.exp_year columns)
                (InsertStripeCardDbEntity.exp_month columns)
                (InsertStripeCardDbEntity.fingerprint columns)
                (InsertStripeCardDbEntity.active columns)
                (StripeCardDbEntity.id stripe_card_entity)
                (InsertStripeCardDbEntity.country_of_origin columns)
                (Some (InsertStripeCardDbEntity.type columns))
                (Some (InsertStripeCardDbEntity.stripe_id columns))
                wallet in
      ret (match RawPaymentMethod.pgp_payment_method_entity self with
           | Some pgp_payment_method_entity =>
               PaymentMethod.mk
                 (PgpPaymentMethodDbEntity.pgp_code pgp_payment_method_entity)
                 card
                 (Some (PgpPaymentMethodDbEntity.id pgp_payment_method_entity))
                 (PgpPaymentMethodDbEntity.payer_id pgp_payment_method_entity)
                 (PgpPaymentMethodDbEntity.type pgp_payment_method_entity)
                 (PgpPaymentMethodDbEntity.legacy_consumer_id pgp_payment_method_entity)
                 None
                 (PgpPaymentMethodDbEntity.created_at pgp_payment_method_entity)
                 (PgpPaymentMethodDbEntity.updated_at pgp_payment_method_entity)
                 (PgpPaymentMethodDbEntity.deleted_at pgp_payment_method_entity)
           | None =>
               PaymentMethod.mk
                 "stripe"
                 card
                 None
                 None
                 (Some "card")
                 (Some (str_of_optional_int
                          (InsertStripeCardDbEntity.consumer_id columns)))
                 None
                 (InsertStripeCardDbEntity.created_at columns)
                 None
                 (InsertStripeCardDbEntity.removed_at columns)
           end)
  end.

End ToPaymentMethod.

(** The tokenization method of the card of an aggregate, when it is a
    non-empty string. *)
Definition tokenization_method_of (self : RawPaymentMethod.t) : option string :=
  match RawPaymentMethod.stripe_card_entity self with
  | Some c =>
      match InsertStripeCardDbEntity.tokenization_method (StripeCardDbEntity.columns c) with
      | Some "" | None => None
      | Some m => Some m
      end
  | None => None
  end.

(** What [to_payment_method] makes of the sample card on its own: the
    consumer id of the payment method is the string "None". *)
Definition sample_payment_method : PaymentMethod.t :=
  PaymentMethod.mk "stripe"
    (Card.mk "4242" "2030" "12" "fp" true 11 None (Some "visa") (Some "card_1") None)
    None None (Some "card") (Some "None") None None None None.

(* ===================================================================== *)
(** ** payment_method_repo.py: stripe cards that are deleted or looked up *)
(* ===================================================================== *)

(** The card that a soft delete makes of [c]. *)
Definition removed_card (removed_at : Z) (active : bool) (where_id : Z)
    (c : StripeCardDbEntity.t) : StripeCardDbEntity.t :=
  if Z.eqb (StripeCardDbEntity.id c) where_id
  then PaymentMethodRepository.with_removed removed_at active c
  else c.

(** The input of the duplicate lookup that describes a card. *)
Definition duplicate_input_of (c : InsertStripeCardDbEntity.t)
  : PaymentMethodRepository.GetDuplicateStripeCardInput :=
  PaymentMethodRepository.mkGetDuplicateStripeCardInput
    (InsertStripeCardDbEntity.fingerprint c)
    (InsertStripeCardDbEntity.dynamic_last4 c)
    (InsertStripeCardDbEntity.exp_year c)
    (InsertStripeCardDbEntity.exp_month c)
    (InsertStripeCardDbEntity.active c)
    (InsertStripeCardDbEntity.external_stripe_customer_id c)
    (InsertStripeCardDbEntity.consumer_id c)
    (InsertStripeCardDbEntity.stripe_customer_id c).

(** A world with the sample card and a second card. *)
Definition second_card : StripeCardDbEntity.t :=
  StripeCardDbEntity.mk 12
    (InsertStripeCardDbEntity.mk "card_2" "fp2" "1111" "" "01" "2031" "amex"
       None None None None None None true (Some 123) None None None None None None).

Definition two_cards_world : World :=
  set_serial_seed 13 (set_stripe_cards [sample_card; second_card] empty_world).

(* ===================================================================== *)
(** ** middleware/doordash_metrics.py *)
(* ===================================================================== *)

(** [NORMALIZATION_TABLE = str.maketrans("/", "|", "{}")]: a slash becomes
    a bar, braces are deleted ([None]), every other character is kept.
    Strings are sequences of bytes here; the three characters of the table
    are single bytes that occur in no multi-byte UTF-8 sequence, so the
    translation of the bytes is the translation of the characters. *)
Definition NORMALIZATION_TABLE (c : ascii) : option ascii :=
  if Ascii.eqb c "/" then Some "|"%char
  else if Ascii.eqb c "{" || Ascii.eqb c "}" then None
  else Some c.

(** [path.translate(NORMALIZATION_TABLE)] *)
Fixpoint normalize_path (path : string) : string :=
  match path with
  | EmptyString => EmptyString
  | String c rest =>
      match NORMALIZATION_TABLE c with
      | Some c' => String c' (normalize_path rest)
      | None => normalize_path rest
      end
  end.

Definition is_slash_or_brace (c : ascii) : bool :=
  Ascii.eqb c "/" || Ascii.eqb c "{" || Ascii.eqb c "}".

(** ["".join(breadcrumbs)] *)
Definition join_breadcrumbs (breadcrumbs : list string) : string :=
  List.fold_right String.append EmptyString breadcrumbs.

(** [f"{response.status_code // 100}XX"] *)
Definition status_type (status_code : Z) : string :=
  Py.str (status_code / 100) ++ "XX".

(* ===================================================================== *)
(** ** commons/providers/stripe/stripe_models.py *)
(* ===================================================================== *)

(** The exception of an index that is out of range. *)
Inductive IndexingError : Set :=
| IndexError.

Inductive Outcome (A : Type) : Type :=
| Returns (a : A)
| Throws (e : IndexingError).
Arguments Returns {A} a.
Arguments Throws {A} e.

(** [s.rsplit(sep, 1)] for a one-character separator: [None] stands for the
    one-element list (no separator in [s]), [Some (before, after)] for the
    two parts around the last occurrence. *)
Fixpoint rsplit1 (sep : ascii) (s : string) : option (string * string) :=
  match s with
  | EmptyString => None
  | String c rest =>
      match rsplit1 sep rest with
      | Some (before, after) => Some (String c before, after)
      | None => if Ascii.eqb c sep then Some (EmptyString, rest) else None
      end
  end.

(** [Event.event_type]: [self.type.rsplit(".", 1)[1]] *)
Definition event_type (type : string) : Outcome string :=
  match rsplit1 "." type with
  | Some (_, after) => Returns after
  | None => Throws IndexError
  end.

(** The characters of a string. *)
Definition chars (s : string) : list ascii := list_ascii_of_string s.

(* ===================================================================== *)
(** ** payout/core/transfer/processors/weekly_create_transfer.py *)
(* ===================================================================== *)

Module WeeklyCreateTransfer.

(** The JSON object of the runtime flag
    "payout/feature-flags/enable_list_transfers_v1.json".  Every key may be
    absent; a key that is present has the type the code uses it with. *)
Record EnableListTransfers : Set := mkEnableListTransfers {
  enable_all : option bool;
  white_list : option (list Z);
  bucket : option Z
}.

(** [d.get(key, default)] *)
Definition dict_get {A} (value : option A) (default : A) : A :=
  match value with
  | Some a => a
  | None => default
  end.

(** [account_id % 100] is Python's remainder, which has the sign of the
    divisor, as [Z.modulo] has. *)
Definition _is_enabled_for_payment_service_traffic
    (data : EnableListTransfers) (account_id : option Z) : bool :=
  (* Check if feature flag is turned on for all *)
  if dict_get (enable_all data) false then true
  else
    match account_id with
    | None => false
    | Some account_id =>
        (* Check if account id is in whitelist *)
        if List.existsb (Z.eqb account_id) (dict_get (white_list data) []) then true
        (* Check if account id is in enabled bucket *)
        else if account_id mod 100 <? dict_get (bucket data) 0 then true
        else false
    end.

Record WeeklyCreateTransferRequest : Set := mkRequest {
  payout_day : string;
  payout_countries : list string;
  end_time : Z;
  unpaid_txn_start_time : Z;
  whitelist_payment_account_ids : list Z;
  exclude_recently_updated_accounts : option bool
}.

(** What the operation reads and calls.  The runtime values are those in
    force while the operation runs; the two repository queries answer with
    a list or raise; [shuffle] is [random.shuffle]; the last two fields give
    the outcome of [CreateTransferTask.send] and of [CreateTransfer.execute]
    for the account processed at a given position. *)
Record Collaborators : Type := mkCollaborators {
  enable_list_transfers_v1 : EnableListTransfers;
  ENABLE_QUEUEING_MECHANISM_FOR_PAYOUT : bool;
  DASHER_ATO_PREVENTION_THRESHOLD_IN_HOURS : Z;
  utcnow : Z;
  get_payout_account_ids_for_unpaid_transactions_without_limit :
    Z -> Z -> Result (list Z);
  get_recent_bank_update_payment_account_ids : Z -> Result (list Z);
  shuffle : list Z -> list Z;
  send_create_transfer_task : nat -> Z -> Result unit;
  execute_create_transfer : nat -> Z -> Result unit
}.

Inductive PayoutEvent : Set :=
| QueriedUnpaidAccounts (start_time end_time : Z)
| QueriedRecentBankUpdates (last_bank_account_update_allowed_at : Z)
| ReadEnableListTransfers (account_id : Z)
| EnqueuedCreateTransfer (account_id : Z)
| ExecutedCreateTransfer (account_id : Z)
| WarnedFailure (account_id : Z) (error : exn)
| Finished (transfer_count : nat).

(** Seconds in [timedelta(hours=h)]. *)
Definition timedelta_hours (h : Z) : Z := 3600 * h.

(** The ids of the accounts blocked by the ATO rule, with the query issued,
    if any. *)
Definition get_payment_account_ids_blocked_by_ato (c : Collaborators)
  : Result (list Z) * list PayoutEvent :=
  let payout_blocks_in_hours := DASHER_ATO_PREVENTION_THRESHOLD_IN_HOURS c in
  if payout_blocks_in_hours =? 0 then (Ok [], [])
  else
    let last_bank_account_update_allowed_at :=
      utcnow c - timedelta_hours payout_blocks_in_hours in
    (get_recent_bank_update_payment_account_ids c last_bank_account_update_allowed_at,
     [QueriedRecentBankUpdates last_bank_account_update_allowed_at]).

(** [list(set(a) - set(b))]: the order of the result is that of the set. *)
Definition set_difference (a b : list Z) : list Z :=
  elements ((list_to_set a : gset Z) ∖ list_to_set b).

(** The list of accounts to process, before it is shuffled. *)
Definition payment_account_ids (c : Collaborators) (request : WeeklyCreateTransferRequest)
  : Result (list Z) * list PayoutEvent :=
  match whitelist_payment_account_ids request with
  | _ :: _ => (Ok (whitelist_payment_account_ids request), [])
  | [] =>
      let start_time := unpaid_txn_start_time request in
      let query := QueriedUnpaidAccounts start_time (end_time request) in
      match get_payout_account_ids_for_unpaid_transactions_without_limit c
              start_time (end_time request) with
      | Raise e => (Raise e, [query])
      | Ok unpaid_payment_account_ids =>
          let enabled :=
            List.filter
              (fun a => _is_enabled_for_payment_service_traffic
                          (enable_list_transfers_v1 c) (Some a))
              unpaid_payment_account_ids in
          let reads := List.map ReadEnableListTransfers unpaid_payment_account_ids in
          match exclude_recently_updated_accounts request with
          | Some true =>
              (* ATO prevention *)
              match get_payment_account_ids_blocked_by_ato c with
              | (Raise e, evs) => (Raise e, (query :: reads ++ evs)%list)
              | (Ok ids_blocked_by_ato, evs) =>
                  (Ok (set_difference unpaid_payment_account_ids ids_blocked_by_ato),
                   (query :: reads ++ evs)%list)
              end
          | _ => (Ok enabled, (query :: reads)%list)
          end
      end
  end.

(** The loop over the shuffled accounts: [position] counts the iterations
    done; an exception of the body is logged and the loop goes on. *)
Fixpoint create_transfers (c : Collaborators) (position : nat) (ids : list Z)
  : list PayoutEvent * nat :=
  match ids with
  | [] => ([], 0%nat)
  | account_id :: rest =>
      let '(attempt, outcome) :=
        if ENABLE_QUEUEING_MECHANISM_FOR_PAYOUT c
        then (EnqueuedCreateTransfer account_id,
              send_create_transfer_task c position account_id)
        else (ExecutedCreateTransfer account_id,
              execute_create_transfer c position account_id) in
      let '(events, transfer_count) := create_transfers c (S position) rest in
      match outcome with
      | Ok _ => (attempt :: events, S transfer_count)
      | Raise e => (attempt :: WarnedFailure account_id e :: events, transfer_count)
      end
  end.

(** What [_execute] leaves behind. *)
Record Execution : Type := mkExecution {
  response : Result unit;
  events : list PayoutEvent;
  (** the list held by the request, which the shuffle permutes in place
      when it is the list being processed *)
  request_whitelist : list Z
}.

Definition _execute (c : Collaborators) (request : WeeklyCreateTransferRequest)
  : Execution :=
  match payment_account_ids c request with
  | (Raise e, evs) => mkExecution (Raise e) evs (whitelist_payment_account_ids request)
  | (Ok ids, evs) =>
      let shuffled := shuffle c ids in
      let '(loop_events, transfer_count) := create_transfers c 0 shuffled in
      mkExecution (Ok tt)
        (evs ++ loop_events ++ [Finished transfer_count])%list
        (match whitelist_payment_account_ids request with
         | _ :: _ => shuffled
         | [] => []
         end)
  end.

(** The accounts for which a transfer was attempted, in order. *)
Definition attempted (evs : list PayoutEvent) : list Z :=
  List.flat_map (fun e => match e with
                          | EnqueuedCreateTransfer a | ExecutedCreateTransfer a => [a]
                          | _ => []
                          end) evs.

Definition warned (evs : list PayoutEvent) : list Z :=
  List.flat_map (fun e => match e with WarnedFailure a _ => [a] | _ => [] end) evs.

Definition is_query (e : PayoutEvent) : bool :=
  match e with
  | QueriedUnpaidAccounts _ _ | QueriedRecentBankUpdates _
  | ReadEnableListTransfers _ => true
  | _ => false
  end.

Definition finished_count (evs : list PayoutEvent) : list nat :=
  List.flat_map (fun e => match e with Finished n => [n] | _ => [] end) evs.

(** The ids of a block of a hundred consecutive accounts. *)
Definition hundred_from (first : Z) : list Z :=
  List.map (fun i => first + Z.of_nat i) (List.seq 0 100).

End WeeklyCreateTransfer.

(** *** Sample runs of the weekly creation of transfers *)

(** Five unpaid transactions of three accounts, one account blocked by the
    ATO rule, a white list in the feature flag, and a direct execution
    that fails for one account. *)

Definition sample_collaborators : WeeklyCreateTransfer.Collaborators :=
  WeeklyCreateTransfer.mkCollaborators
    (WeeklyCreateTransfer.mkEnableListTransfers None (Some [7]) None)
    false 24 1000000
    (fun _ _ => Ok [7; 250; 7; 103; 250])
    (fun _ => Ok [103])
    (fun l => rev l)
    (fun _ _ => Ok tt)
    (fun _ a => if a =? 250 then Raise QueryTimeoutError else Ok tt).

Definition sample_request (whitelist : list Z) (exclude : option bool)
  : WeeklyCreateTransfer.WeeklyCreateTransferRequest :=
  WeeklyCreateTransfer.mkRequest "monday" ["US"] 2000 1000 whitelist exclude.


(* ===================================================================== *)
(** * Properties *)
(* ===================================================================== *)

(** ** Inversion of runs *)

Lemma ret_inv {A} (a : A) w r w' evs :
  ret a w = (r, w', evs) -> r = Ok a /\ w' = w /\ evs = [].
Proof. unfold ret. intros H. injection H as <- <- <-. auto. Qed.

Lemma raise_inv {A} (e : exn) w (r : Result A) w' evs :
  raise e w = (r, w', evs) -> r = Raise e /\ w' = w /\ evs = [].
Proof. unfold raise. intros H. injection H as <- <- <-. auto. Qed.

Lemma bind_inv {A B} (m : M A) (k : A -> M B) w r w' evs :
  bind m k w = (r, w', evs) ->
  (exists a w1 e1 e2,
      m w = (Ok a, w1, e1) /\ k a w1 = (r, w', e2) /\ evs = (e1 ++ e2)%list)
  \/ (exists e, m w = (Raise e, w', evs) /\ r = Raise e).
Proof.
  unfold bind. destruct (m w) as [[[a|e] w1] e1].
  - destruct (k a w1) as [[r2 w2] e2] eqn:Hk. intros H. injection H as <- <- <-.
    left. exists a, w1, e1, e2. auto.
  - intros H. injection H as <- <- <-. right. eauto.
Qed.

Lemma try_except_inv {A} (body : M A) handler w r w' evs :
  try_except body handler w = (r, w', evs) ->
  (exists a, body w = (Ok a, w', evs) /\ r = Ok a)
  \/ (exists e, body w = (Raise e, w', evs) /\ handler e = None /\ r = Raise e)
  \/ (exists e h w1 e1 e2,
        body w = (Raise e, w1, e1) /\ handler e = Some h
        /\ h w1 = (r, w', e2) /\ evs = (e1 ++ e2)%list).
Proof.
  unfold try_except. destruct (body w) as [[[a|e] w1] e1].
  - intros H. injection H as <- <- <-. left. eauto.
  - destruct (handler e) as [h|] eqn:Hh.
    + destruct (h w1) as [[r2 w2] e2] eqn:Hk. intros H. injection H as <- <- <-.
      right. right. exists e, h, w1, e1, e2. auto.
    + intros H. injection H as <- <- <-. right. left. eauto.
Qed.

Lemma transaction_inv {A} d (body : M A) w r w' evs :
  transaction d body w = (r, w', evs) ->
  (exists a ev, body w = (Ok a, w', ev) /\ r = Ok a
                /\ evs = (TxBegin d :: ev ++ [TxCommit d])%list)
  \/ (exists e w1 ev, body w = (Raise e, w1, ev) /\ r = Raise e
                      /\ w' = rollback d w w1
                      /\ evs = (TxBegin d :: ev ++ [TxRollback d])%list).
Proof.
  unfold transaction. destruct (body w) as [[[a|e] w1] e1].
  - intros H. injection H as <- <- <-. left. eauto.
  - intros H. injection H as <- <- <-. right. exists e, w1, e1. auto.
Qed.

Lemma statement_inv ev w r w' evs :
  statement ev w = (r, w', evs) ->
  evs = [ev]
  /\ (exists rest, w' = set_db_faults rest w)
  /\ (r = Ok tt \/ exists f, r = Raise (exn_of_fault f)).
Proof.
  unfold statement. destruct (db_faults w) as [|[f|] rest] eqn:Hf;
    intros H; injection H as <- <- <-; repeat split; eauto.
  exists (db_faults w). destruct w; reflexivity.
Qed.

Lemma run_eq_inv {A} (r1 r2 : Result A) (w1 w2 : World) (e1 e2 : list Event) :
  (r1, w1, e1) = (r2, w2, e2) -> r1 = r2 /\ w1 = w2 /\ e1 = e2.
Proof. intros H. injection H as -> -> ->. auto. Qed.

Lemma statement_no_fault ev w :
  db_faults w = [] -> statement ev w = (Ok tt, w, [ev]).
Proof. unfold statement. now intros ->. Qed.

(** Projections of updated worlds, in the goal. *)
Ltac world_simpl_goal :=
  cbn [payment_database main_database heap next_ref uuid_seed serial_seed db_faults
       gateway_script set_payment_database set_main_database set_heap set_uuid_seed
       set_serial_seed set_db_faults set_gateway_script set_payers set_pgp_customers
       set_pgp_payment_methods set_payment_methods set_stripe_customer set_stripe_cards
       payers pgp_customers pgp_payment_methods payment_methods stripe_customer
       stripe_cards rollback].

Lemma gets_inv {A} (f : World -> A) w r w' evs :
  gets f w = (r, w', evs) -> r = Ok (f w) /\ w' = w /\ evs = [].
Proof. unfold gets. intros H. injection H as <- <- <-. auto. Qed.

Lemma modify_inv (f : World -> World) w r w' evs :
  modify f w = (r, w', evs) -> r = Ok tt /\ w' = f w /\ evs = [].
Proof. unfold modify. intros H. injection H as <- <- <-. auto. Qed.

Lemma emit_inv e w r w' evs :
  emit e w = (r, w', evs) -> r = Ok tt /\ w' = w /\ evs = [e].
Proof. unfold emit. intros H. injection H as <- <- <-. auto. Qed.

Lemma new_RawPayer_inv rp w r w' evs :
  new_RawPayer rp w = (r, w', evs) ->
  r = Ok (next_ref w)
  /\ w' = set_heap (<[next_ref w := rp]> (heap w)) (S (next_ref w)) w /\ evs = [].
Proof. unfold new_RawPayer. intros H. injection H as <- <- <-. auto. Qed.

Lemma deref_inv l w r w' evs :
  deref l w = (r, w', evs) ->
  w' = w /\ evs = []
  /\ ((exists rp, heap w !! l = Some rp /\ r = Ok rp)
      \/ (heap w !! l = None /\ r = Raise UnboundLocalError)).
Proof.
  unfold deref. destruct (heap w !! l) as [rp|] eqn:Hl;
    intros H; injection H as <- <- <-; repeat split; eauto.
Qed.

Lemma setattr_inv l f w r w' evs :
  setattr l f w = (r, w', evs) ->
  evs = []
  /\ ((exists rp, heap w !! l = Some rp /\ r = Ok tt
                  /\ w' = set_heap (<[l := f rp]> (heap w)) (next_ref w) w)
      \/ (heap w !! l = None /\ r = Raise UnboundLocalError /\ w' = w)).
Proof.
  unfold setattr. destruct (heap w !! l) as [rp|] eqn:Hl;
    intros H; injection H as <- <- <-; split; eauto.
Qed.

Lemma generate_object_uuid_inv p w r w' evs :
  generate_object_uuid p w = (r, w', evs) ->
  (exists id, r = Ok id) /\ w' = set_uuid_seed (S (uuid_seed w)) w /\ evs = [].
Proof. unfold generate_object_uuid. intros H. injection H as <- <- <-. eauto. Qed.

Lemma next_serial_inv w r w' evs :
  next_serial w = (r, w', evs) ->
  r = Ok (serial_seed w) /\ w' = set_serial_seed (serial_seed w + 1) w /\ evs = [].
Proof. unfold next_serial. intros H. injection H as <- <- <-. auto. Qed.

Lemma read_local_inv {A} (v : option A) w r w' evs :
  read_local v w = (r, w', evs) ->
  w' = w /\ evs = [] /\ r = match v with Some a => Ok a | None => Raise UnboundLocalError end.
Proof. destruct v; intros H; injection H as <- <- <-; auto. Qed.

Lemma int_of_str_inv s w r w' evs :
  int_of_str s w = (r, w', evs) ->
  w' = w /\ evs = [] /\ r = match Py.int s with Some n => Ok n | None => Raise ValueError end.
Proof. unfold int_of_str. destruct (Py.int s); intros H; injection H as <- <- <-; auto. Qed.

Lemma gateway_call_inv ev w r w' evs :
  gateway_call ev w = (r, w', evs) ->
  evs = [ev]
  /\ (exists g, w' = set_gateway_script g w)
  /\ ((exists id rest, gateway_script w = GatewayOk id :: rest /\ r = Ok id)
      \/ ((forall id rest, gateway_script w <> GatewayOk id :: rest) /\ r = Raise StripeError)).
Proof.
  unfold gateway_call. destruct (gateway_script w) as [|[id|] rest] eqn:Hg;
    intros H; injection H as <- <- <-; (split; [reflexivity|split]).
  all: try (right; split; [congruence|reflexivity]).
  all: try (left; eauto).
  all: try (eexists; reflexivity).
  exists (gateway_script w). destruct w; reflexivity.
Qed.

(** Inversion of one hypothesis about a run, by the shape of the computation. *)
Ltac invert_run_in H :=
  lazymatch type of H with
  | bind _ _ _ = _ =>
      let a := fresh "a" in let w1 := fresh "w" in
      let e1 := fresh "ev" in let e2 := fresh "ev" in
      let H1 := fresh "Hrun" in let H2 := fresh "Hrun" in
      let He := fresh "Hev" in let Hr := fresh "Hres" in
      let e := fresh "e" in
      apply bind_inv in H as [(a & w1 & e1 & e2 & H1 & H2 & He) | (e & H1 & Hr)]
  | try_except _ _ _ = _ =>
      let a := fresh "a" in let w1 := fresh "w" in
      let e1 := fresh "ev" in let e2 := fresh "ev" in
      let H1 := fresh "Hrun" in let H2 := fresh "Hrun" in
      let He := fresh "Hev" in let Hr := fresh "Hres" in
      let Hh := fresh "Hhandler" in
      let e := fresh "e" in let h := fresh "h" in
      apply try_except_inv in H
        as [(a & H1 & Hr) | [(e & H1 & Hh & Hr) | (e & h & w1 & e1 & e2 & H1 & Hh & H2 & He)]]
  | transaction _ _ _ = _ =>
      let a := fresh "a" in let w1 := fresh "w" in
      let e1 := fresh "ev" in
      let H1 := fresh "Hrun" in
      let He := fresh "Hev" in let Hr := fresh "Hres" in let Hw := fresh "Hworld" in
      let e := fresh "e" in
      apply transaction_inv in H
        as [(a & e1 & H1 & Hr & He) | (e & w1 & e1 & H1 & Hr & Hw & He)]
  | statement ?ev ?w = _ =>
      first
        [ rewrite (statement_no_fault ev w) in H by (world_simpl_goal; assumption);
          apply run_eq_inv in H as (? & ? & ?)
        | (* the world depends on the outcome of a run not yet inverted *)
          match goal with
          | Hbefore : _ = (_, ?v, _) |- _ =>
              is_var v; lazymatch w with context [v] => idtac end
          end;
          fail 1
        | let He := fresh "Hev" in let Hr := fresh "Hres" in
          let Hw := fresh "Hworld" in
          let rest := fresh "rest" in let f := fresh "f" in
          apply statement_inv in H as (He & (rest & Hw) & [Hr | (f & Hr)]) ]
  | ret _ _ = _ => apply ret_inv in H as (? & ? & ?)
  | raise _ _ = _ => apply raise_inv in H as (? & ? & ?)
  | gets _ _ = _ => apply gets_inv in H as (? & ? & ?)
  | modify _ _ = _ => apply modify_inv in H as (? & ? & ?)
  | emit _ _ = _ => apply emit_inv in H as (? & ? & ?)
  | log_info _ _ = _ => apply emit_inv in H as (? & ? & ?)
  | log_error _ _ = _ => apply emit_inv in H as (? & ? & ?)
  | new_RawPayer _ _ = _ => apply new_RawPayer_inv in H as (? & ? & ?)
  | next_serial _ = _ => apply next_serial_inv in H as (? & ? & ?)
  | read_local _ _ = _ => apply read_local_inv in H as (? & ? & ?)
  | int_of_str _ _ = _ => apply int_of_str_inv in H as (? & ? & ?)
  | generate_object_uuid _ _ = _ =>
      let id := fresh "id" in
      apply generate_object_uuid_inv in H as ((id & ?) & ? & ?)
  | deref _ _ = _ =>
      let rp := fresh "this" in let Hl := fresh "Hheap" in
      apply deref_inv in H as (? & ? & [(rp & Hl & ?) | (Hl & ?)])
  | setattr _ _ _ = _ =>
      let rp := fresh "this" in let Hl := fresh "Hheap" in
      apply setattr_inv in H as (? & [(rp & Hl & ? & ?) | (Hl & ? & ?)])
  | gateway_call _ _ = _ =>
      let g := fresh "g" in let id := fresh "id" in let rest := fresh "rest" in
      let Hg := fresh "Hgateway" in
      apply gateway_call_inv in H as (? & (g & ?) & [(id & rest & Hg & ?) | (Hg & ?)])
  end.

Ltac tidy_run :=
  repeat match goal with
  | H : ?x = ?x |- _ => clear H
  | H : Some _ = Some _ |- _ => injection H as H
  | H : Ok _ = Ok _ |- _ => injection H as H
  | H : Ok _ = Raise _ |- _ => discriminate H
  | H : Raise _ = Ok _ |- _ => discriminate H
  | H : Raise _ = Raise _ |- _ => injection H as H
  | H : Some _ = None |- _ => discriminate H
  | H : None = Some _ |- _ => discriminate H
  | H : (_, _) = (_, _) |- _ => injection H as ? ?
  | H : _ :: _ = _ :: _ |- _ => injection H as ? ?
  | H : GatewayOk _ = GatewayOk _ |- _ => injection H as H
  | H : ?x = _ |- _ => is_var x; subst x
  | H : _ = ?x |- _ => is_var x; subst x
  | H : _ = _ |- _ => discriminate H
  | H : forall id rest, ?g <> GatewayOk id :: rest, H' : ?g = GatewayOk _ :: _ |- _ =>
      exfalso; exact (H _ _ H')
  | H1 : gateway_script ?w = _, H2 : gateway_script ?w = _ |- _ => rewrite H1 in H2
  | H1 : heap ?w !! ?l = _, H2 : heap ?w !! ?l = _ |- _ => rewrite H1 in H2
  | H1 : List.find ?p ?l = _, H2 : List.find ?p ?l = _ |- _ => rewrite H1 in H2
  end.

Ltac invert_run :=
  repeat (tidy_run;
          match goal with
          | H : _ _ = (_, _, _) |- _ => progress (invert_run_in H)
          end);
  tidy_run.

(** Which clause an exception reaches. *)
Ltac case_fault :=
  repeat match goal with
  | H : except_DataError _ (exn_of_fault ?f) = _ |- _ => destruct f; simpl in H
  | H : except_DataError _ _ = _ |- _ => simpl in H
  | H : except_Exception _ _ = _ |- _ => unfold except_Exception in H
  end.


(** Projections of updated worlds. *)
Ltac world_simpl :=
  cbn [payment_database main_database heap next_ref uuid_seed serial_seed db_faults
       gateway_script set_payment_database set_main_database set_heap set_uuid_seed
       set_serial_seed set_db_faults set_gateway_script set_payers set_pgp_customers
       set_pgp_payment_methods set_payment_methods set_stripe_customer set_stripe_cards
       payers pgp_customers pgp_payment_methods payment_methods stripe_customer
       stripe_cards rollback tables] in *.

(** Inversion through the handlers and the case distinctions of the code. *)
Ltac crunch_step :=
  match goal with
  | Hx : List.find ?p ?l = _, H : context [List.find ?p ?l] |- _ =>
      lazymatch type of H with
      | List.find p l = _ => fail
      | _ => rewrite Hx in H; cbn [Py.truthy negb andb] in H
      end
  | H : _ = match Py.int ?s with Some _ => _ | None => _ end |- _ =>
      destruct (Py.int s) eqn:?
  | H : (match ?x with Some _ => _ | None => _ end) _ = _ |- _ =>
      destruct x eqn:?
  | H : (if ?c then _ else _) _ = (_, _, _) |- _ =>
      destruct c eqn:?
  | H : (<[?l := _]> _) !! ?l = _ |- _ => rewrite lookup_insert_eq in H
  | H : negb (Py.truthy ?x) = _ |- _ => destruct x eqn:?; cbn [Py.truthy negb] in H
  | H : Py.truthy ?x = _ |- _ => destruct x eqn:?; cbn [Py.truthy] in H
  end.

Ltac crunch_run :=
  repeat (invert_run; case_fault; unfold create_payer_DataError_handler in *;
          world_simpl; try crunch_step).

(** ** Strings and id types *)

Lemma opt_str_eqb_true o c : Py.opt_str_eqb o c = true <-> o = Some c.
Proof.
  destruct o as [s|]; simpl.
  - rewrite String.eqb_eq. split; congruence.
  - split; discriminate.
Qed.

Lemma opt_str_eqb_false o c : Py.opt_str_eqb o c = false <-> o <> Some c.
Proof.
  rewrite <- opt_str_eqb_true. destruct (Py.opt_str_eqb o c); split; congruence.
Qed.

Lemma opt_str_in_true o cs : Py.opt_str_in o cs = true <-> exists c, In c cs /\ o = Some c.
Proof.
  unfold Py.opt_str_in. rewrite existsb_exists.
  split; intros [c [Hin Hc]]; exists c; split; auto; now apply opt_str_eqb_true.
Qed.

Lemma opt_str_in_false o cs :
  Py.opt_str_in o cs = false <-> forall c, In c cs -> o <> Some c.
Proof.
  split.
  - intros H c Hin Heq.
    assert (Py.opt_str_in o cs = true) by (apply opt_str_in_true; eauto).
    congruence.
  - intros H. destruct (Py.opt_str_in o cs) eqn:E; auto.
    apply opt_str_in_true in E as [c [Hin Hc]]. now apply H in Hin.
Qed.

Lemma truthy_str_false o : Py.truthy_str o = false <-> o = None \/ o = Some "".
Proof.
  destruct o as [s|]; simpl.
  - rewrite negb_false_iff, String.eqb_eq. split.
    + intros ->. now right.
    + intros [H|H]; congruence.
  - split; auto.
Qed.

Lemma select_current t :
  In t current_schema_id_types -> select_payer_interface t = Some UsePayerOps.
Proof.
  unfold current_schema_id_types. simpl.
  intros [<-|[<-|[<-|[<-|[]]]]]; reflexivity.
Qed.

Lemma select_legacy t :
  In t legacy_schema_id_types -> select_payer_interface t = Some UseLegacyPayerOps.
Proof.
  unfold legacy_schema_id_types. simpl.
  intros [<-|[<-|[]]]; reflexivity.
Qed.

Lemma select_other t :
  ~ In t current_schema_id_types -> ~ In t legacy_schema_id_types ->
  select_payer_interface t = None.
Proof.
  intros Hc Hl. unfold select_payer_interface.
  assert (Ht : Py.truthy_str t = true).
  { destruct (Py.truthy_str t) eqn:E; auto.
    apply truthy_str_false in E. exfalso. apply Hc.
    unfold current_schema_id_types. simpl. destruct E as [->| ->]; auto 10. }
  rewrite Ht. simpl negb. rewrite orb_false_l.
  assert (H1 : Py.opt_str_in t
                 [PayerIdType.DD_PAYMENT_PAYER_ID; PayerIdType.DD_CONSUMER_ID] = false).
  { apply opt_str_in_false. intros c Hin ->. apply Hc.
    unfold current_schema_id_types. simpl in *. destruct Hin as [<-|[<-|[]]]; auto 10. }
  assert (H2 : Py.opt_str_in t
                 [PayerIdType.STRIPE_CUSTOMER_SERIAL_ID; PayerIdType.STRIPE_CUSTOMER_ID] = false).
  { apply opt_str_in_false. intros c Hin ->. apply Hl.
    unfold legacy_schema_id_types. simpl in *. destruct Hin as [<-|[<-|[]]]; auto 10. }
  now rewrite H1, H2.
Qed.

(** C4: [PayerClient.get_payer_raw_objects] runs the current-schema strategy
    when the id type is unspecified (absent or empty), dd_payer_id or
    dd_consumer_id; it runs the legacy-schema strategy for
    stripe_customer_id and stripe_customer_serial_id; for every other id
    type it raises PayerReadError(PAYER_READ_INVALID_DATA, retryable=False)
    having issued no database statement and changed nothing. *)
Theorem C4_strategy_selected_by_id_type :
  forall (payer_id : string) (payer_id_type payer_type : option string),
    (In payer_id_type current_schema_id_types ->
       PayerClient.get_payer_raw_objects payer_id payer_id_type payer_type
       = PayerOps.get_payer_raw_objects payer_id payer_id_type payer_type)
    /\ (In payer_id_type legacy_schema_id_types ->
       PayerClient.get_payer_raw_objects payer_id payer_id_type payer_type
       = LegacyPayerOps.get_payer_raw_objects payer_id payer_id_type payer_type)
    /\ (~ In payer_id_type current_schema_id_types ->
        ~ In payer_id_type legacy_schema_id_types ->
        forall w,
          exists evs,
            run (PayerClient.get_payer_raw_objects payer_id payer_id_type payer_type) w
            = (Raise (PayerReadError PAYER_READ_INVALID_DATA false), w, evs)
            /\ no_db_event evs = true).
Proof.
  intros payer_id t payer_type. unfold PayerClient.get_payer_raw_objects.
  split; [|split].
  - intros H. now rewrite (select_current _ H).
  - intros H. now rewrite (select_legacy _ H).
  - intros Hc Hl w. rewrite (select_other _ Hc Hl).
    eexists. split; reflexivity.
Qed.

Lemma C4_strategy_selected_by_id_type_witness :
  PayerClient.get_payer_raw_objects "7" (Some "dd_consumer_id") None
  = PayerOps.get_payer_raw_objects "7" (Some "dd_consumer_id") None
  /\ PayerClient.get_payer_raw_objects "cus_1" (Some "stripe_customer_id") (Some "drive")
     = LegacyPayerOps.get_payer_raw_objects "cus_1" (Some "stripe_customer_id") (Some "drive")
  /\ forall w, exists evs,
       run (PayerClient.get_payer_raw_objects "7" (Some "email") None) w
       = (Raise (PayerReadError PAYER_READ_INVALID_DATA false), w, evs)
       /\ no_db_event evs = true.
Proof.
  split; [|split].
  - apply (C4_strategy_selected_by_id_type "7" (Some "dd_consumer_id") None).
    unfold current_schema_id_types. simpl. auto 10.
  - apply (C4_strategy_selected_by_id_type "cus_1" (Some "stripe_customer_id") (Some "drive")).
    unfold legacy_schema_id_types. simpl. auto 10.
  - apply (C4_strategy_selected_by_id_type "7" (Some "email") None).
    + unfold current_schema_id_types. simpl. intuition discriminate.
    + unfold legacy_schema_id_types. simpl. intuition discriminate.
Defined.

(** ** RawPaymentMethod *)

(** C10: [RawPaymentMethod.pgp_payment_method_id] returns the gateway id
    when at least one of the two entities is present (the pgp entity has
    precedence); with both absent the result variable is never assigned and
    the call raises UnboundLocalError, which is not a typed domain error. *)
Theorem C10_pgp_payment_method_id_needs_an_entity :
  forall (w : World),
    run (pgp_payment_method_id (RawPaymentMethod.mk None None)) w
    = (Raise UnboundLocalError, w, [])
    /\ is_typed_error UnboundLocalError = false
    /\ (forall e sc,
          run (pgp_payment_method_id (RawPaymentMethod.mk (Some e) sc)) w
          = (Ok (PgpPaymentMethodDbEntity.pgp_resource_id e), w, []))
    /\ (forall c,
          run (pgp_payment_method_id (RawPaymentMethod.mk None (Some c))) w
          = (Ok (StripeCardDbEntity.stripe_id c), w, [])).
Proof.
  intros w. repeat split; reflexivity.
Qed.

(** ** The legacy strategy and the payer type *)

Lemma legacy_lookup_skipped payer_type :
  In payer_type unspecified_or_marketplace ->
  Py.truthy_str payer_type && negb (Py.opt_str_eqb payer_type PayerType.MARKETPLACE) = false.
Proof.
  unfold unspecified_or_marketplace. simpl.
  intros [<-|[<-|[<-|[]]]]; reflexivity.
Qed.

Lemma legacy_lookup_attempted payer_type :
  Py.truthy_str payer_type && negb (Py.opt_str_eqb payer_type PayerType.MARKETPLACE) = true ->
  exists pt, payer_type = Some pt /\ pt <> "" /\ pt <> PayerType.MARKETPLACE.
Proof.
  destruct payer_type as [pt|]; simpl; [|discriminate].
  rewrite andb_true_iff, !negb_true_iff, !String.eqb_neq. intros [H1 H2]. eauto.
Qed.

(** C8: with id type stripe_customer_id or stripe_customer_serial_id and a
    payer type that is absent, empty or "marketplace", the lookup raises
    PayerReadError(PAYER_READ_NOT_FOUND, retryable=False) in every world,
    whatever rows exist, without a database statement.  A legacy lookup
    that returns was given a non-marketplace payer type and found a
    stripe_customer row, which is in the aggregate it returns. *)
Theorem C8_legacy_lookup_needs_payer_type :
  forall (payer_id : string) (payer_id_type payer_type : option string),
    In payer_id_type legacy_schema_id_types ->
    (In payer_type unspecified_or_marketplace ->
       forall w, exists evs,
         run (PayerClient.get_payer_raw_objects payer_id payer_id_type payer_type) w
         = (Raise (PayerReadError PAYER_READ_NOT_FOUND false), w, evs)
         /\ no_db_event evs = true)
    /\ (forall w r w' evs,
         run (PayerClient.get_payer_raw_objects payer_id payer_id_type payer_type) w
         = (Ok r, w', evs) ->
         exists pt sc pe,
           payer_type = Some pt /\ pt <> "" /\ pt <> PayerType.MARKETPLACE
           /\ List.find
                (stripe_customer_matches
                   (if Py.opt_str_eqb payer_id_type PayerIdType.STRIPE_CUSTOMER_ID
                    then ByStripeId payer_id else BySerialId payer_id))
                (stripe_customer (main_database w)) = Some sc
           /\ heap w' !! r = Some (RawPayer.mk pe None (Some sc))).
Proof.
  intros payer_id t payer_type Ht.
  unfold PayerClient.get_payer_raw_objects. rewrite (select_legacy _ Ht).
  unfold LegacyPayerOps.get_payer_raw_objects. split.
  - intros Hpt w. rewrite (legacy_lookup_skipped _ Hpt).
    eexists. split; reflexivity.
  - intros w r w' evs H. unfold run in H.
    destruct (Py.truthy_str payer_type
              && negb (Py.opt_str_eqb payer_type PayerType.MARKETPLACE)) eqn:Hc.
    + destruct (legacy_lookup_attempted _ Hc) as (pt & -> & Hne & Hnm).
      unfold get_stripe_customer, get_payer_by_id in H.
      crunch_run.
      all: exists pt; do 2 eexists; repeat split; eauto.
      all: apply lookup_insert_eq.
    + crunch_run.
Qed.

Lemma C8_legacy_lookup_needs_payer_type_witness :
  (exists evs,
      run (PayerClient.get_payer_raw_objects "cus_1" (Some "stripe_customer_id")
             (Some "marketplace")) legacy_only_world
      = (Raise (PayerReadError PAYER_READ_NOT_FOUND false), legacy_only_world, evs)
      /\ no_db_event evs = true)
  /\ (exists pt sc pe,
        Some "drive" = Some pt /\ pt <> "" /\ pt <> PayerType.MARKETPLACE
        /\ List.find (stripe_customer_matches (ByStripeId "cus_1"))
             (stripe_customer (main_database legacy_only_world)) = Some sc
        /\ heap (world_of (run (PayerClient.get_payer_raw_objects "cus_1"
                                  (Some "stripe_customer_id") (Some "drive"))
                               legacy_only_world)) !! 0%nat
           = Some (RawPayer.mk pe None (Some sc))).
Proof.
  assert (Hlegacy : In (Some "stripe_customer_id") legacy_schema_id_types)
    by (unfold legacy_schema_id_types; simpl; auto).
  split.
  - apply (C8_legacy_lookup_needs_payer_type "cus_1" (Some "stripe_customer_id")
             (Some "marketplace") Hlegacy).
    unfold unspecified_or_marketplace. simpl. auto.
  - apply (proj2 (C8_legacy_lookup_needs_payer_type "cus_1" (Some "stripe_customer_id")
                    (Some "drive") Hlegacy)
             legacy_only_world 0%nat _
             (events_of (run (PayerClient.get_payer_raw_objects "cus_1"
                                (Some "stripe_customer_id") (Some "drive"))
                             legacy_only_world))).
    vm_compute. reflexivity.
Defined.

(** ** The create_payer route *)

(** [Py.int] where a reader of ASCII alone would go wrong: digits of other
    scripts (Arabic-Indic, fullwidth) and white space beyond ASCII (U+00A0,
    U+0085) are accepted; the separators 28 to 31, which [str.strip] takes
    as white space, are not; neither is a string of more than 4300
    digits. *)
Example Py_int_beyond_ascii :
  Py.int (string_of_list_ascii
            (List.map ascii_of_nat [217; 161; 217; 162; 217; 163]%nat)) = Some 123
  /\ Py.int (string_of_list_ascii
               (List.map ascii_of_nat [239; 188; 145; 239; 188; 146]%nat)) = Some 12
  /\ Py.int (string_of_list_ascii (List.map ascii_of_nat [194; 160; 53]%nat)) = Some 5
  /\ Py.int (string_of_list_ascii (List.map ascii_of_nat [194; 133; 53]%nat)) = Some 5
  /\ Py.int (string_of_list_ascii (List.map ascii_of_nat [28; 53]%nat)) = None
  /\ Py.int (string_of_list_ascii (List.map ascii_of_nat [53; 31]%nat)) = None
  /\ Py.int " -1_000 " = Some (-1000)
  /\ Py.int "1__0" = None
  /\ Py.int "" = None
  /\ Py.int (string_of_list_ascii (List.repeat "9"%char 4301)) = None
  /\ Py.int (string_of_list_ascii (List.repeat "0"%char 4300)) = Some 0.
Proof. vm_compute. repeat split. Qed.


(** C7: a create_payer request whose dd_payer_id is not empty and does not
    read as an integer is rejected with error code PAYER_CREATE_INVALID_DATA
    and retryable=False (HTTP 422); the world is unchanged and no database
    statement or gateway call was issued.  A dd_payer_id that reads as an
    integer passes the check. *)
Theorem C7_non_numeric_dd_payer_id_rejected :
  forall (is_country_code : string -> bool) (Payer : Type)
         (to_payer : RawPayer.t -> Payer) (req_body : CreatePayerRequest) (w : World),
    req_dd_payer_id req_body <> "" ->
    (Py.int (req_dd_payer_id req_body) = None ->
       exists evs,
         run (create_payer is_country_code Payer to_payer req_body) w
         = (Raise (PaymentException HTTP_422_UNPROCESSABLE_ENTITY
                                    PAYER_CREATE_INVALID_DATA false), w, evs)
         /\ no_db_event evs = true /\ no_gateway_event evs = true)
    /\ (forall n, Py.int (req_dd_payer_id req_body) = Some n ->
          run (verify_dd_payer_id (req_dd_payer_id req_body)) w = (Ok tt, w, [])).
Proof.
  intros icc Payer to_payer req w Hne.
  apply String.eqb_neq in Hne.
  split.
  - intros Hint. unfold create_payer, verify_dd_payer_id, run.
    rewrite Hne. simpl negb. cbv iota.
    unfold bind at 1. simpl (log_info _ w).
    unfold bind at 1, try_except at 1, bind at 1, int_of_str.
    rewrite Hint. simpl.
    eexists. split; [reflexivity|]. split; reflexivity.
  - intros n Hint. unfold verify_dd_payer_id, run.
    rewrite Hne. simpl negb. cbv iota.
    unfold try_except, bind, int_of_str. rewrite Hint. reflexivity.
Qed.

Lemma C7_non_numeric_dd_payer_id_rejected_witness :
  (exists evs,
      run (create_payer (fun _ => true) RawPayer.t (fun r => r)
             (mkCreatePayerRequest "abc" "marketplace" "a@b.c" "US" "x")) empty_world
      = (Raise (PaymentException HTTP_422_UNPROCESSABLE_ENTITY
                                 PAYER_CREATE_INVALID_DATA false), empty_world, evs)
      /\ no_db_event evs = true /\ no_gateway_event evs = true)
  /\ run (verify_dd_payer_id "123") empty_world = (Ok tt, empty_world, []).
Proof.
  split.
  - apply (C7_non_numeric_dd_payer_id_rejected (fun _ => true) RawPayer.t (fun r => r)
             (mkCreatePayerRequest "abc" "marketplace" "a@b.c" "US" "x") empty_world).
    + simpl. discriminate.
    + reflexivity.
  - apply (proj2 (C7_non_numeric_dd_payer_id_rejected (fun _ => true) RawPayer.t (fun r => r)
             (mkCreatePayerRequest "123" "marketplace" "a@b.c" "US" "x") empty_world
             ltac:(simpl; discriminate)) 123).
    reflexivity.
Defined.

(** ** Database failures at the payer boundary *)

(** C5, as the code has it: a DataError is re-raised with a flag fixed per
    call site, namely PayerCreationError(PAYER_READ_DB_ERROR,
    retryable=True) in has_existing_payer,
    PayerReadError(PAYER_READ_DB_ERROR, retryable=False) in both
    get_payer_raw_objects, and PayerCreationError(PAYER_CREATE_INVALID_DATA,
    retryable=True) in the legacy create_payer_raw_objects once the Payer
    row is inserted; a connectivity or timeout failure is not caught and
    leaves the operation as the driver raised it. *)
Theorem C5_data_error_flag_fixed_per_site :
  forall (f : DbFault) (rest : list (option DbFault)) (w : World),
    db_faults w = Some f :: rest ->
    (forall dd_payer_id payer_type,
        result_of (run (PayerClient.has_existing_payer dd_payer_id payer_type) w)
        = Raise (through_except_DataError
                   (PayerCreationError PAYER_READ_DB_ERROR true) f))
    /\ (forall payer_id payer_id_type payer_type,
          result_of (run (PayerOps.get_payer_raw_objects payer_id payer_id_type payer_type) w)
          = Raise (through_except_DataError
                     (PayerReadError PAYER_READ_DB_ERROR false) f))
    /\ (forall payer_id payer_id_type payer_type,
          Py.truthy_str payer_type
          && negb (Py.opt_str_eqb payer_type PayerType.MARKETPLACE) = true ->
          result_of (run (LegacyPayerOps.get_payer_raw_objects payer_id payer_id_type
                            payer_type) w)
          = Raise (through_except_DataError
                     (PayerReadError PAYER_READ_DB_ERROR false) f))
    /\ (forall dd_payer_id payer_type country pgp_customer_id pgp_code description
               default_payment_method_id,
          result_of (run (LegacyPayerOps.create_payer_raw_objects dd_payer_id payer_type
                            country pgp_customer_id pgp_code description
                            default_payment_method_id)
                         (set_db_faults (None :: db_faults w) w))
          = Raise (through_except_DataError
                     (PayerCreationError PAYER_CREATE_INVALID_DATA true) f)).
Proof.
  intros f rest w Hf. repeat split.
  - intros. unfold run, result_of, PayerClient.has_existing_payer,
      get_payer_by_dd_payer_id_and_payer_type, try_except, bind, statement.
    rewrite Hf. destruct f; reflexivity.
  - intros. unfold run, result_of, PayerOps.get_payer_raw_objects,
      get_payer_and_pgp_customer_by_id, get_payer_by_id, try_except, bind, statement.
    rewrite Hf. destruct f; reflexivity.
  - intros payer_id t pt Hc. unfold run, result_of, LegacyPayerOps.get_payer_raw_objects.
    rewrite Hc. unfold get_stripe_customer, try_except, bind, statement.
    rewrite Hf. destruct f; reflexivity.
  - intros. rewrite Hf.
    unfold run, result_of, LegacyPayerOps.create_payer_raw_objects, insert_payer,
      append_payer, get_stripe_customer, transaction, try_except, bind, statement,
      generate_object_uuid, modify, ret, log_info, emit.
    simpl. destruct f; reflexivity.
Qed.

Lemma C5_data_error_flag_fixed_per_site_witness :
  result_of (run (PayerClient.has_existing_payer "123" "marketplace")
                 (set_db_faults [Some FaultTimeout] legacy_only_world))
  = Raise QueryTimeoutError
  /\ result_of (run (LegacyPayerOps.get_payer_raw_objects "cus_1"
                       (Some "stripe_customer_id") (Some "drive"))
                    (set_db_faults [Some FaultDataError] legacy_only_world))
     = Raise (PayerReadError PAYER_READ_DB_ERROR false).
Proof.
  split.
  - apply (C5_data_error_flag_fixed_per_site FaultTimeout []
             (set_db_faults [Some FaultTimeout] legacy_only_world)).
    reflexivity.
  - apply (C5_data_error_flag_fixed_per_site FaultDataError []
             (set_db_faults [Some FaultDataError] legacy_only_world)).
    + reflexivity.
    + reflexivity.
Defined.

(** In [PayerOps.create_payer_raw_objects] the insert is the only statement
    of the [try] block that can raise a DataError, and the handler's log
    line reads [payer_entity] before any assignment to it. *)
Example PayerOps_create_DataError_reads_unbound_local :
  result_of (run (PayerOps.create_payer_raw_objects "123" "marketplace" "US" "cus_1"
                    "stripe" None None)
                 (set_db_faults [Some FaultDataError] empty_world))
  = Raise UnboundLocalError.
Proof. reflexivity. Qed.

(** C5, as the specification states it, fails: a DataError met by
    has_existing_payer is re-raised with retryable=True, and a lost
    connection met by get_payer_raw_objects is not re-raised as a domain
    error at all. *)
Lemma C5_counterexample :
  result_of (run (PayerClient.has_existing_payer "123" "marketplace")
                 (set_db_faults [Some FaultDataError] empty_world))
  = Raise (PayerCreationError PAYER_READ_DB_ERROR true)
  /\ result_of (run (PayerOps.get_payer_raw_objects "pay_0" None None)
                    (set_db_faults [Some FaultConnectionLost] empty_world))
     = Raise ConnectionLostError
  /\ as_PaymentError ConnectionLostError = None.
Proof. repeat split. Qed.

(** ** Aggregates are updated in place *)

Lemma PayerOps_update_in_place raw_payer pm pid pt t w r w' evs :
  run (PayerOps.update_payer_default_payment_method raw_payer pm pid pt t) w
  = (Ok r, w', evs) ->
  r = raw_payer /\ next_ref w' = next_ref w
  /\ (forall l, l <> raw_payer -> heap w' !! l = heap w !! l)
  /\ exists this, heap w !! raw_payer = Some this
       /\ heap w' !! raw_payer = Some (PayerOps_updated_aggregate this w').
Proof.
  intros H. unfold run, PayerOps.update_payer_default_payment_method in H.
  unfold PayerOps_updated_aggregate.
  invert_run.
  all: destruct (RawPayer.pgp_customer_entity this) as [pgp|] eqn:Hpgp;
    [|destruct (RawPayer.stripe_customer_entity this) as [sc|] eqn:Hsc].
  all: unfold update_pgp_customer, update_stripe_customer in *; invert_run; world_simpl.
  all: try (rewrite Hheap in Hheap0; injection Hheap0 as <-).
  all: repeat split; auto.
  all: try (intros l Hl; now rewrite lookup_insert_ne).
  all: exists this; split; auto; rewrite ?Hpgp, ?Hsc; cbv iota.
  all: first [apply lookup_insert_eq | assumption].
Qed.

Lemma LegacyPayerOps_update_in_place raw_payer pm pid pt t w r w' evs :
  run (LegacyPayerOps.update_payer_default_payment_method raw_payer pm pid pt t) w
  = (Ok r, w', evs) ->
  r = raw_payer /\ next_ref w' = next_ref w
  /\ (forall l, l <> raw_payer -> heap w' !! l = heap w !! l)
  /\ exists this, heap w !! raw_payer = Some this
       /\ heap w' !! raw_payer = Some (LegacyPayerOps_updated_aggregate this w').
Proof.
  intros H. unfold run, LegacyPayerOps.update_payer_default_payment_method in H.
  unfold LegacyPayerOps_updated_aggregate.
  invert_run.
  all: destruct (RawPayer.stripe_customer_entity this) as [sc|] eqn:Hsc.
  all: unfold update_stripe_customer in *; invert_run; world_simpl.
  all: try (rewrite Hheap in Hheap0; injection Hheap0 as <-).
  all: repeat split; auto.
  all: try (intros l Hl; now rewrite lookup_insert_ne).
  all: exists this; split; auto; rewrite ?Hsc; cbv iota.
  all: first [apply lookup_insert_eq | assumption].
Qed.

(** C9, as the code has it: entity snapshots are replaced, never edited,
    but the RawPayer aggregate is a mutable holder.  When
    update_payer_default_payment_method of either strategy returns, it
    returns the reference it was given; no aggregate was allocated; the
    object at that reference now holds the row read back from the table in
    place of the entity it held; every other object is as before. *)
Theorem C9_update_assigns_to_the_aggregate_passed_in :
  forall (raw_payer : ref) (pm payer_id : string) (payer_type payer_id_type : option string)
         (w : World) (r : ref) (w' : World) (evs : list Event),
    (run (PayerOps.update_payer_default_payment_method raw_payer pm payer_id
            payer_type payer_id_type) w = (Ok r, w', evs) ->
     r = raw_payer /\ next_ref w' = next_ref w
     /\ (forall l, l <> raw_payer -> heap w' !! l = heap w !! l)
     /\ exists this, heap w !! raw_payer = Some this
          /\ heap w' !! raw_payer = Some (PayerOps_updated_aggregate this w'))
    /\ (run (LegacyPayerOps.update_payer_default_payment_method raw_payer pm payer_id
               payer_type payer_id_type) w = (Ok r, w', evs) ->
        r = raw_payer /\ next_ref w' = next_ref w
        /\ (forall l, l <> raw_payer -> heap w' !! l = heap w !! l)
        /\ exists this, heap w !! raw_payer = Some this
             /\ heap w' !! raw_payer = Some (LegacyPayerOps_updated_aggregate this w')).
Proof.
  intros. split.
  - apply PayerOps_update_in_place.
  - apply LegacyPayerOps_update_in_place.
Qed.

Lemma C9_update_assigns_to_the_aggregate_passed_in_witness :
  let x := run (PayerOps.update_payer_default_payment_method 0%nat "pm_1" "pay_0" None None)
               resolved_current_world in
  0%nat = 0%nat /\ next_ref (world_of x) = next_ref resolved_current_world
  /\ (forall l, l <> 0%nat -> heap (world_of x) !! l = heap resolved_current_world !! l)
  /\ exists this, heap resolved_current_world !! 0%nat = Some this
       /\ heap (world_of x) !! 0%nat = Some (PayerOps_updated_aggregate this (world_of x)).
Proof.
  intros x.
  apply (proj1 (C9_update_assigns_to_the_aggregate_passed_in 0%nat "pm_1" "pay_0" None None
                  resolved_current_world 0%nat (world_of x) (events_of x))).
  vm_compute. reflexivity.
Defined.

(** The frozen dataclasses of cart_payment/model.py refuse assignment. *)
Example PgpPaymentIntent_is_frozen (intent : PgpPaymentIntent.t) (v : Z) :
  assign_attribute FrozenDataclass (PgpPaymentIntent.with_amount v) intent
  = Raise FrozenInstanceError.
Proof. reflexivity. Qed.

(** C9, as the specification states it, fails: after the update the object
    that the caller passed in (address 0) has a different
    pgp_customer_entity, and the method returned that same address. *)
Lemma C9_counterexample :
  let x := run (PayerOps.update_payer_default_payment_method 0%nat "pm_1" "pay_0" None None)
               resolved_current_world in
  result_of x = Ok 0%nat
  /\ heap resolved_current_world !! 0%nat
     = Some (RawPayer.mk (Some current_payer) (Some current_pgp_customer) None)
  /\ heap (world_of x) !! 0%nat
     = Some (RawPayer.mk (Some current_payer)
               (Some (PgpCustomerDbEntity.with_default_payment_method_id (Some "pm_1")
                        current_pgp_customer)) None)
  /\ heap (world_of x) !! 0%nat <> heap resolved_current_world !! 0%nat.
Proof.
  vm_compute. repeat split; discriminate.
Qed.

(** ** Transactions *)

Lemma insert_pgp_payment_method_atomic pm w :
  match run (PaymentMethodRepository.insert_pgp_payment_method pm) w with
  | (Ok row, w', evs) =>
      row = pm
      /\ pgp_payment_methods (payment_database w')
         = (pgp_payment_methods (payment_database w) ++ [pm])%list
      /\ evs = [TxBegin PaymentDatabase; DbWrite T_pgp_payment_methods;
                TxCommit PaymentDatabase]
  | (Raise e, w', evs) =>
      tables w' = tables w
      /\ evs = [TxBegin PaymentDatabase; DbWrite T_pgp_payment_methods;
                TxRollback PaymentDatabase]
  end.
Proof.
  destruct (run _ w) as [[[r|e] w'] evs] eqn:H;
    unfold run, PaymentMethodRepository.insert_pgp_payment_method in H;
    invert_run; world_simpl; auto.
Qed.

Lemma insert_stripe_card_atomic sc w :
  match run (PaymentMethodRepository.insert_stripe_card sc) w with
  | (Ok row, w', evs) =>
      StripeCardDbEntity.columns row = sc
      /\ stripe_cards (main_database w') = (stripe_cards (main_database w) ++ [row])%list
      /\ evs = [TxBegin MainDatabase; DbWrite T_stripe_cards; TxCommit MainDatabase]
  | (Raise e, w', evs) =>
      tables w' = tables w
      /\ evs = [TxBegin MainDatabase; DbWrite T_stripe_cards; TxRollback MainDatabase]
  end.
Proof.
  destruct (run _ w) as [[[r|e] w'] evs] eqn:H;
    unfold run, PaymentMethodRepository.insert_stripe_card in H;
    invert_run; world_simpl; auto.
Qed.

Lemma insert_payment_method_single_statement pm w :
  match run (PaymentMethodRepository.insert_payment_method pm) w with
  | (Ok row, w', evs) =>
      row = pm
      /\ payment_methods (payment_database w')
         = (payment_methods (payment_database w) ++ [pm])%list
      /\ evs = [DbWrite T_payment_methods]
  | (Raise e, w', evs) => tables w' = tables w /\ evs = [DbWrite T_payment_methods]
  end.
Proof.
  destruct (run _ w) as [[[r|e] w'] evs] eqn:H;
    unfold run, PaymentMethodRepository.insert_payment_method in H;
    invert_run; world_simpl; auto.
Qed.

Lemma PayerOps_create_atomic dd pt country cid code desc dpm w :
  match run (PayerOps.create_payer_raw_objects dd pt country cid code desc dpm) w with
  | (Ok r, w', evs) =>
      exists p c,
        payers (payment_database w') = (payers (payment_database w) ++ [p])%list
        /\ pgp_customers (payment_database w')
           = (pgp_customers (payment_database w) ++ [c])%list
        /\ PgpCustomerDbEntity.payer_id c = PayerDbEntity.id p
        /\ main_database w' = main_database w
        /\ evs = [TxBegin PaymentDatabase; DbWrite T_payers; DbWrite T_pgp_customers;
                  TxCommit PaymentDatabase;
                  LogInfo "create_payer_impl: create payer/pgp_customer completed"]
  | (Raise e, w', evs) => tables w' = tables w
  end.
Proof.
  destruct (run _ w) as [[[r|e] w'] evs] eqn:H;
    unfold run, PayerOps.create_payer_raw_objects, insert_payer_and_pgp_customer,
      append_payer, append_pgp_customer in H;
    repeat (invert_run; case_fault; unfold create_payer_DataError_handler in * );
    world_simpl; try reflexivity.
  do 2 eexists. repeat split.
Qed.

Lemma LegacyPayerOps_create_two_transactions dd pt country cid code desc dpm w :
  match run (LegacyPayerOps.create_payer_raw_objects dd pt country cid code desc dpm) w with
  | (Ok r, w', evs) =>
      exists p,
        payers (payment_database w') = (payers (payment_database w) ++ [p])%list
        /\ (stripe_customer (main_database w') = stripe_customer (main_database w)
            \/ exists c, stripe_customer (main_database w')
                         = (stripe_customer (main_database w) ++ [c])%list)
  | (Raise e, w', evs) =>
      main_database w' = main_database w
      /\ (payment_database w' = payment_database w
          \/ exists p evs',
               payers (payment_database w') = (payers (payment_database w) ++ [p])%list
               /\ evs = ([TxBegin PaymentDatabase; DbWrite T_payers;
                          TxCommit PaymentDatabase] ++ evs')%list)
  end.
Proof.
  destruct (run _ w) as [[[r|e] w'] evs] eqn:H;
    unfold run, LegacyPayerOps.create_payer_raw_objects, insert_payer, append_payer,
      get_stripe_customer, insert_stripe_customer in H.
  - crunch_run; world_simpl.
    all: eexists; split; [reflexivity|]; eauto.
  - crunch_run; world_simpl.
    all: split; [reflexivity|]; auto.
    all: right; do 2 eexists; split; [reflexivity|]; simpl; reflexivity.
Qed.

(** C3, as the code has it: insert_pgp_payment_method and
    insert_stripe_card are each one transaction on one database, rolled
    back when it raises; insert_payment_method is a single statement
    without a transaction block; none of them leaves a row behind when it
    raises.  A Payer
    and its PgpCustomer are inserted by one transaction spanning both
    inserts, so that a failure of create_payer_raw_objects leaves every
    table as it was; in the legacy strategy the Payer and the
    StripeCustomer are written by two independent transactions, one per
    database, so that a failure either leaves every table as it was or comes
    after the Payer row was committed and then leaves that row in place. *)
Theorem C3_transactions_per_database :
  forall (w : World),
    (forall pm,
        match run (PaymentMethodRepository.insert_pgp_payment_method pm) w with
        | (Ok row, w', evs) =>
            row = pm
            /\ pgp_payment_methods (payment_database w')
               = (pgp_payment_methods (payment_database w) ++ [pm])%list
            /\ evs = [TxBegin PaymentDatabase; DbWrite T_pgp_payment_methods;
                      TxCommit PaymentDatabase]
        | (Raise e, w', evs) =>
            tables w' = tables w
            /\ evs = [TxBegin PaymentDatabase; DbWrite T_pgp_payment_methods;
                      TxRollback PaymentDatabase]
        end)
    /\ (forall sc,
          match run (PaymentMethodRepository.insert_stripe_card sc) w with
          | (Ok row, w', evs) =>
              StripeCardDbEntity.columns row = sc
              /\ stripe_cards (main_database w')
                 = (stripe_cards (main_database w) ++ [row])%list
              /\ evs = [TxBegin MainDatabase; DbWrite T_stripe_cards;
                        TxCommit MainDatabase]
          | (Raise e, w', evs) =>
              tables w' = tables w
              /\ evs = [TxBegin MainDatabase; DbWrite T_stripe_cards;
                        TxRollback MainDatabase]
          end)
    /\ (forall pm,
          match run (PaymentMethodRepository.insert_payment_method pm) w with
          | (Ok row, w', evs) =>
              row = pm
              /\ payment_methods (payment_database w')
                 = (payment_methods (payment_database w) ++ [pm])%list
              /\ evs = [DbWrite T_payment_methods]
          | (Raise e, w', evs) =>
              tables w' = tables w /\ evs = [DbWrite T_payment_methods]
          end)
    /\ (forall dd pt country cid code desc dpm,
          match run (PayerOps.create_payer_raw_objects dd pt country cid code desc dpm) w with
          | (Ok r, w', evs) =>
              exists p c,
                payers (payment_database w') = (payers (payment_database w) ++ [p])%list
                /\ pgp_customers (payment_database w')
                   = (pgp_customers (payment_database w) ++ [c])%list
                /\ PgpCustomerDbEntity.payer_id c = PayerDbEntity.id p
                /\ main_database w' = main_database w
                /\ evs = [TxBegin PaymentDatabase; DbWrite T_payers;
                          DbWrite T_pgp_customers; TxCommit PaymentDatabase;
                          LogInfo "create_payer_impl: create payer/pgp_customer completed"]
          | (Raise e, w', evs) => tables w' = tables w
          end)
    /\ (forall dd pt country cid code desc dpm,
          match run (LegacyPayerOps.create_payer_raw_objects dd pt country cid code desc dpm) w
          with
          | (Ok r, w', evs) =>
              exists p,
                payers (payment_database w') = (payers (payment_database w) ++ [p])%list
                /\ (stripe_customer (main_database w') = stripe_customer (main_database w)
                    \/ exists c, stripe_customer (main_database w')
                                 = (stripe_customer (main_database w) ++ [c])%list)
          | (Raise e, w', evs) =>
              main_database w' = main_database w
              /\ (payment_database w' = payment_database w
                  \/ exists p evs',
                       payers (payment_database w')
                       = (payers (payment_database w) ++ [p])%list
                       /\ evs = ([TxBegin PaymentDatabase; DbWrite T_payers;
                                  TxCommit PaymentDatabase] ++ evs')%list)
          end).
Proof.
  intros w. split; [|split; [|split; [|split]]]; intros.
  - apply insert_pgp_payment_method_atomic.
  - apply insert_stripe_card_atomic.
  - apply insert_payment_method_single_statement.
  - apply PayerOps_create_atomic.
  - apply LegacyPayerOps_create_two_transactions.
Qed.

(** C3, as the specification states it, fails: in the legacy strategy the
    insert of the StripeCustomer fails after the Payer row was committed by
    its own transaction; the operation raises and the Payer row stays
    without a companion. *)
Lemma C3_counterexample :
  let x := run (LegacyPayerOps.create_payer_raw_objects "123" "drive" "US" "cus_7"
                  "stripe" None None)
               (set_db_faults [None; None; Some FaultDataError] empty_world) in
  result_of x = Raise (PayerCreationError PAYER_CREATE_INVALID_DATA true)
  /\ payers (payment_database (world_of x))
     = [PayerDbEntity.mk "pay_0" "drive" "123" "cus_7" "US" None]
  /\ stripe_customer (main_database (world_of x)) = []
  /\ events_of x
     = [TxBegin PaymentDatabase; DbWrite T_payers; TxCommit PaymentDatabase;
        LogInfo "create_payer_impl: create payer completed";
        DbRead T_stripe_customer;
        TxBegin MainDatabase; DbWrite T_stripe_customer; TxRollback MainDatabase;
        LogError "create_payer_impl: DataError when writing into db"].
Proof. vm_compute. repeat split. Qed.

(** ** Duplicate payers *)

Lemma find_some_filter_length {A} (f : A -> bool) l x :
  List.find f l = Some x -> (1 <= length (List.filter f l))%nat.
Proof.
  intros H. apply find_some in H as [Hin Hf].
  assert (Hx : In x (List.filter f l)) by (apply filter_In; auto).
  destruct (List.filter f l); [contradiction|simpl; lia].
Qed.

Lemma create_payer_impl_duplicate
    icc Payer (to_payer : RawPayer.t -> Payer) dd pt email country desc w existing cid rest :
  List.find (fun p => String.eqb (PayerDbEntity.dd_payer_id p) dd
                      && String.eqb (PayerDbEntity.payer_type p) pt)
            (payers (payment_database w)) = Some existing ->
  db_faults w = [] -> gateway_script w = GatewayOk cid :: rest -> icc country = true ->
  let x := run (create_payer_impl icc Payer to_payer dd pt email country desc) w in
  In (LogError "create_payer_impl: payer already exists") (events_of x)
  /\ (forall b, result_of x
                <> Raise (PayerCreationError PAYER_CREATE_PAYER_ALREADY_EXIST b))
  /\ (exists p, payers (payment_database (world_of x))
                = (payers (payment_database w) ++ [p])%list
                /\ PayerDbEntity.dd_payer_id p = dd /\ PayerDbEntity.payer_type p = pt
                /\ PayerDbEntity.legacy_stripe_customer_id p = cid)
  /\ (pt = PayerType.MARKETPLACE -> exists payer, result_of x = Ok payer).
Proof.
  intros Hex Hf Hg Hc x.
  destruct x as [[r w'] evs] eqn:H. subst x.
  unfold create_payer_impl, PayerClient.has_existing_payer, pgp_create_customer,
    CountryCode, PayerClient.create_payer_raw_objects, run, events_of, world_of in *.
  rewrite Hc in H. unfold get_payer_by_dd_payer_id_and_payer_type in H.
  unfold PayerOps.create_payer_raw_objects, LegacyPayerOps.create_payer_raw_objects,
    insert_payer_and_pgp_customer, insert_payer, append_payer, append_pgp_customer,
    get_stripe_customer, insert_stripe_customer in H.
  crunch_run.
  all: unfold events_of, world_of, result_of; cbn [fst snd]; world_simpl.
  all: split; [cbn; auto 20|].
  all: split; [intros b; discriminate|].
  all: split; [eexists; split; [reflexivity|]; cbn; auto|].
  all: try (intros _; eexists; reflexivity).
  all: intros ->; discriminate.
Qed.

(** C6: when a payer with the given dd_payer_id and payer_type exists (and
    the database and the gateway answer), create_payer_impl logs the
    duplicate, does not raise PAYER_CREATE_PAYER_ALREADY_EXIST, and appends
    one more payers row with the same dd_payer_id and payer_type, so that at
    least two such rows exist afterwards; for a marketplace payer the
    operation returns. *)
Theorem C6_duplicate_payer_logged_not_rejected :
  forall (is_country_code : string -> bool) (Payer : Type) (to_payer : RawPayer.t -> Payer)
         (dd_payer_id payer_type email country description : string)
         (w : World) (existing : PayerDbEntity.t) (cid : string) (rest : list GatewayReply),
    List.find (fun p => String.eqb (PayerDbEntity.dd_payer_id p) dd_payer_id
                        && String.eqb (PayerDbEntity.payer_type p) payer_type)
              (payers (payment_database w)) = Some existing ->
    db_faults w = [] ->
    gateway_script w = GatewayOk cid :: rest ->
    is_country_code country = true ->
    let x := run (create_payer_impl is_country_code Payer to_payer dd_payer_id payer_type
                    email country description) w in
    In (LogError "create_payer_impl: payer already exists") (events_of x)
    /\ (forall b, result_of x
                  <> Raise (PayerCreationError PAYER_CREATE_PAYER_ALREADY_EXIST b))
    /\ (exists p, payers (payment_database (world_of x))
                  = (payers (payment_database w) ++ [p])%list
                  /\ PayerDbEntity.dd_payer_id p = dd_payer_id
                  /\ PayerDbEntity.payer_type p = payer_type)
    /\ (2 <= length (payers_of dd_payer_id payer_type (world_of x)))%nat
    /\ (payer_type = PayerType.MARKETPLACE -> exists payer, result_of x = Ok payer).
Proof.
  intros icc Payer to_payer dd pt email country desc w existing cid rest Hex Hf Hg Hc x.
  destruct (create_payer_impl_duplicate icc Payer to_payer dd pt email country desc
              w existing cid rest Hex Hf Hg Hc)
    as (Hlog & Hno & (p & Hp & Hdd & Hpt & _) & Hok).
  fold x in Hlog, Hno, Hp, Hok.
  split; [exact Hlog|]. split; [exact Hno|].
  split; [exists p; auto|]. split; [|exact Hok].
  unfold payers_of. rewrite Hp, List.filter_app, List.length_app.
  apply find_some_filter_length in Hex.
  cbn [List.filter]. rewrite Hdd, Hpt, !String.eqb_refl. simpl. lia.
Qed.

Lemma C6_duplicate_payer_logged_not_rejected_witness :
  let w := set_gateway_script [GatewayOk "cus_10"] resolved_current_world in
  let x := run (create_payer_impl (fun _ => true) RawPayer.t (fun r => r)
                  "123" "marketplace" "a@b.c" "US" "again") w in
  In (LogError "create_payer_impl: payer already exists") (events_of x)
  /\ (forall b, result_of x
                <> Raise (PayerCreationError PAYER_CREATE_PAYER_ALREADY_EXIST b))
  /\ (exists p, payers (payment_database (world_of x))
                = (payers (payment_database w) ++ [p])%list
                /\ PayerDbEntity.dd_payer_id p = "123"
                /\ PayerDbEntity.payer_type p = "marketplace")
  /\ (2 <= length (payers_of "123" "marketplace" (world_of x)))%nat
  /\ ("marketplace" = PayerType.MARKETPLACE -> exists payer, result_of x = Ok payer).
Proof.
  intros w.
  apply (C6_duplicate_payer_logged_not_rejected (fun _ => true) RawPayer.t (fun r => r)
           "123" "marketplace" "a@b.c" "US" "again" w current_payer "cus_10" []);
    reflexivity.
Defined.

(** ** Computations that do not write *)

Lemma no_db_write_app a b :
  no_db_write (a ++ b) = no_db_write a && no_db_write b.
Proof. apply forallb_app. Qed.

Lemma quiet_ret {A} (a : A) : quiet (ret a).
Proof. intros w r w' evs H. invert_run. auto. Qed.

Lemma quiet_raise {A} e : quiet (@raise A e).
Proof. intros w r w' evs H. invert_run. auto. Qed.

Lemma quiet_bind {A B} (m : M A) (k : A -> M B) :
  quiet m -> (forall a, quiet (k a)) -> quiet (bind m k).
Proof.
  intros Hm Hk w r w' evs H.
  apply bind_inv in H as [(a & w1 & e1 & e2 & H1 & H2 & ->) | (e & H1 & ->)].
  - apply Hm in H1 as [T1 N1]. apply Hk in H2 as [T2 N2].
    rewrite no_db_write_app, N1, N2. split; [congruence|reflexivity].
  - now apply Hm in H1.
Qed.

Lemma quiet_try_except {A} (body : M A) handler :
  quiet body -> (forall e h, handler e = Some h -> quiet h) ->
  quiet (try_except body handler).
Proof.
  intros Hb Hh w r w' evs H.
  apply try_except_inv in H
    as [(a & H1 & ->) | [(e & H1 & _ & ->) | (e & h & w1 & e1 & e2 & H1 & Hhe & H2 & ->)]].
  - now apply Hb in H1.
  - now apply Hb in H1.
  - apply Hb in H1 as [T1 N1]. apply (Hh _ _ Hhe) in H2 as [T2 N2].
    rewrite no_db_write_app, N1, N2. split; [congruence|reflexivity].
Qed.

Lemma quiet_statement_read t : quiet (statement (DbRead t)).
Proof.
  intros w r w' evs H. apply statement_inv in H as (-> & (rest & ->) & _).
  split; reflexivity.
Qed.

Lemma quiet_gets {A} (f : World -> A) : quiet (gets f).
Proof. intros w r w' evs H. invert_run. auto. Qed.

Lemma quiet_log_info s : quiet (log_info s).
Proof. intros w r w' evs H. invert_run. auto. Qed.

Lemma quiet_log_error s : quiet (log_error s).
Proof. intros w r w' evs H. invert_run. auto. Qed.

Lemma quiet_new_RawPayer rp : quiet (new_RawPayer rp).
Proof. intros w r w' evs H. invert_run. auto. Qed.

Lemma quiet_deref l : quiet (deref l).
Proof. intros w r w' evs H. invert_run; auto. Qed.

Lemma quiet_gateway_call : quiet (gateway_call GatewayUpdateCustomer).
Proof.
  intros w r w' evs H. apply gateway_call_inv in H as (-> & (g & ->) & _).
  split; reflexivity.
Qed.

Lemma quiet_lift_result {A} (r : Result A) : quiet (lift_result r).
Proof. destruct r; [apply quiet_ret | apply quiet_raise]. Qed.

Ltac quiet_tac :=
  repeat first
    [ apply quiet_ret | apply quiet_raise | apply quiet_gets | apply quiet_log_info
    | apply quiet_log_error | apply quiet_new_RawPayer | apply quiet_deref
    | apply quiet_statement_read | apply quiet_gateway_call | apply quiet_lift_result
    | apply quiet_bind; [|intros ?]
    | apply quiet_try_except; [|intros ? ? ?]
    | match goal with
      | H : except_DataError _ ?e = Some _ |- _ =>
          destruct e; simpl in H; try discriminate; injection H as <-
      | H : except_Exception _ _ = Some _ |- _ => injection H as <-
      | |- quiet (match ?x with _ => _ end) => destruct x
      | |- quiet (let '(_, _) := ?x in _) => destruct x
      end ].

Lemma quiet_get_payer_raw_objects payer_id t pt :
  quiet (PayerClient.get_payer_raw_objects payer_id t pt).
Proof.
  unfold PayerClient.get_payer_raw_objects, PayerOps.get_payer_raw_objects,
    LegacyPayerOps.get_payer_raw_objects, get_payer_and_pgp_customer_by_id,
    get_payer_by_id, get_stripe_customer.
  quiet_tac.
Qed.

(** ** Which exceptions a computation raises *)

Section RaisesOnly.
Variable P : exn -> bool.

Lemma raises_only_ret {A} (a : A) : raises_only P (ret a).
Proof. intros w e w' evs H. invert_run. Qed.

Lemma raises_only_raise {A} e : P e = true -> raises_only P (@raise A e).
Proof. intros He w e' w' evs H. invert_run. exact He. Qed.

Lemma raises_only_bind {A B} (m : M A) (k : A -> M B) :
  raises_only P m -> (forall a, raises_only P (k a)) -> raises_only P (bind m k).
Proof.
  intros Hm Hk w e w' evs H.
  apply bind_inv in H as [(a & w1 & e1 & e2 & H1 & H2 & ->) | (e' & H1 & [= ->])].
  - eapply Hk; eauto.
  - eapply Hm; eauto.
Qed.

(** The body may raise anything that the clause catches. *)
Lemma raises_only_try_except {A} (body : M A) handler (Q : exn -> bool) :
  raises_only Q body ->
  (forall e, Q e = true ->
             match handler e with
             | Some h => raises_only P h
             | None => P e = true
             end) ->
  raises_only P (try_except body handler).
Proof.
  intros Hb Hh w e w' evs H.
  apply try_except_inv in H
    as [(a & H1 & [=]) | [(e' & H1 & Hn & [= ->]) | (e' & h & w1 & e1 & e2 & H1 & Hs & H2 & ->)]].
  - apply Hb in H1. specialize (Hh _ H1). now rewrite Hn in Hh.
  - apply Hb in H1. specialize (Hh _ H1). rewrite Hs in Hh. eapply Hh; eauto.
Qed.

Lemma raises_only_transaction {A} d (body : M A) :
  raises_only P body -> raises_only P (transaction d body).
Proof.
  intros Hb w e w' evs H.
  apply transaction_inv in H
    as [(a & ev & H1 & [=] & _) | (e' & w1 & ev & H1 & [= ->] & _)].
  eapply Hb; eauto.
Qed.

Lemma raises_only_statement ev :
  (forall f, P (exn_of_fault f) = true) -> raises_only P (statement ev).
Proof.
  intros Hf w e w' evs H.
  apply statement_inv in H as (_ & _ & [[=] | (f & [= ->])]). apply Hf.
Qed.

Lemma raises_only_gets {A} (f : World -> A) : raises_only P (gets f).
Proof. intros w e w' evs H. invert_run. Qed.

Lemma raises_only_modify f : raises_only P (modify f).
Proof. intros w e w' evs H. invert_run. Qed.

Lemma raises_only_emit ev : raises_only P (emit ev).
Proof. intros w e w' evs H. invert_run. Qed.

Lemma raises_only_new_RawPayer rp : raises_only P (new_RawPayer rp).
Proof. intros w e w' evs H. invert_run. Qed.

Lemma raises_only_next_serial : raises_only P next_serial.
Proof. intros w e w' evs H. invert_run. Qed.

Lemma raises_only_generate_object_uuid p : raises_only P (generate_object_uuid p).
Proof. intros w e w' evs H. invert_run. Qed.

Lemma raises_only_deref l : P UnboundLocalError = true -> raises_only P (deref l).
Proof. intros HP w e w' evs H. invert_run. exact HP. Qed.

Lemma raises_only_setattr l f :
  P UnboundLocalError = true -> raises_only P (setattr l f).
Proof. intros HP w e w' evs H. invert_run. exact HP. Qed.

Lemma raises_only_read_local {A} (v : option A) :
  P UnboundLocalError = true -> raises_only P (read_local v).
Proof. intros HP w e w' evs H. destruct v; invert_run. exact HP. Qed.

Lemma raises_only_int_of_str s : P ValueError = true -> raises_only P (int_of_str s).
Proof.
  intros HP w e w' evs H. invert_run. destruct (Py.int s); invert_run. exact HP.
Qed.
End RaisesOnly.

Ltac raises_tac :=
  repeat first
    [ apply raises_only_ret | apply raises_only_gets | apply raises_only_modify
    | apply raises_only_emit | apply raises_only_new_RawPayer
    | apply raises_only_next_serial | apply raises_only_generate_object_uuid
    | apply raises_only_raise; reflexivity
    | apply raises_only_deref; reflexivity
    | apply raises_only_setattr; reflexivity
    | apply raises_only_read_local; reflexivity
    | apply raises_only_int_of_str; reflexivity
    | apply raises_only_statement; intros []; reflexivity
    | apply raises_only_transaction
    | apply raises_only_bind; [|intros ?]
    | apply raises_only_try_except with (Q := is_low_level);
      [|intros [] ?; try discriminate; cbn; try reflexivity]
    | match goal with
      | |- raises_only _ (match ?x with _ => _ end) => destruct x
      | |- raises_only _ (if ?x then _ else _) => destruct x
      | |- raises_only _ (let '(_, _) := ?x in _) => destruct x
      | |- raises_only _ (log_info _) => unfold log_info
      | |- raises_only _ (log_error _) => unfold log_error
      | |- raises_only _ (create_payer_DataError_handler _) =>
          unfold create_payer_DataError_handler
      end ].


(** ** The gateway call comes first *)


Lemma gateway_before_writes_quiet seen a b :
  no_db_write a = true ->
  gateway_before_writes seen (a ++ b)
  = gateway_before_writes (seen || has_gateway_update a) b.
Proof.
  revert seen. induction a as [|e a IH]; intros seen Ha; simpl in *.
  - now rewrite orb_false_r.
  - apply andb_true_iff in Ha as [He Ha].
    destruct e; simpl in *; try discriminate; rewrite IH by assumption;
      rewrite ?orb_true_r, ?orb_true_l, ?orb_false_r; auto.
Qed.


Lemma guarded_of_quiet {A} (m : M A) : quiet m -> guarded m.
Proof.
  intros Hq w r w' evs H. apply Hq in H as [T N]. split; auto.
  rewrite <- (app_nil_r evs), gateway_before_writes_quiet by assumption. reflexivity.
Qed.








(** The two outcomes of the gateway call on a resolved payer. *)
Example update_payer_impl_gateway_failure :
  let w := set_gateway_script [GatewayRaises] resolved_current_world in
  let x := run (update_payer_impl (fun _ => true) RawPayer.t (fun r => r)
                  sample_get_pgp_customer_id found_sample_card
                  "pay_0" "card_1" "US" None None None) w in
  result_of x = Raise (PayerUpdateError PAYER_UPDATE_STRIPE_ERROR false)
  /\ tables (world_of x) = tables w
  /\ events_of x
     = [DbRead T_payers; DbRead T_pgp_customers; DbRead T_stripe_cards;
        GatewayUpdateCustomer;
        LogError "pgp_update_customer_default_payment_method: error while updating stripe customer"].
Proof. vm_compute. repeat split. Qed.

Example update_payer_impl_gateway_success :
  let w := set_gateway_script [GatewayOk "cus_9"] resolved_current_world in
  let x := run (update_payer_impl (fun _ => true) RawPayer.t (fun r => r)
                  sample_get_pgp_customer_id found_sample_card
                  "pay_0" "card_1" "US" None None None) w in
  pgp_customers (payment_database (world_of x))
  = [PgpCustomerDbEntity.with_default_payment_method_id (Some "card_1")
       current_pgp_customer]
  /\ events_of x
     = [DbRead T_payers; DbRead T_pgp_customers; DbRead T_stripe_cards;
        GatewayUpdateCustomer;
        LogInfo "update_payer_impl: PGP update default_payment_method completed";
        TxBegin PaymentDatabase; DbWrite T_pgp_customers; TxCommit PaymentDatabase;
        LogInfo "update_payer_default_payment_method: pgp_customers update completed"].
Proof. vm_compute. repeat split. Qed.

(** ** Lists as tables *)

Lemma find_none_iff_filter_nil {A} (f : A -> bool) l :
  List.find f l = None <-> List.filter f l = [].
Proof.
  induction l as [|x l IH]; simpl; [tauto|].
  destruct (f x); [split; discriminate|exact IH].
Qed.

Lemma find_map_commute {A} (p : A -> bool) (f : A -> A) l :
  (forall x, p (f x) = p x) ->
  List.find p (List.map f l) = option_map f (List.find p l).
Proof.
  intros Hp. induction l as [|x l IH]; simpl; auto.
  rewrite Hp. destruct (p x); auto.
Qed.

Lemma find_in_some {A} (p : A -> bool) l x :
  In x l -> p x = true -> exists y, List.find p l = Some y.
Proof.
  intros Hin Hp. destruct (List.find p l) eqn:E; eauto.
  exfalso. eapply find_none in E; eauto. congruence.
Qed.

Lemma find_by_key {A} (key : A -> Z) l x :
  List.NoDup (List.map key l) -> In x l ->
  List.find (fun c => Z.eqb (key c) (key x)) l = Some x.
Proof.
  induction l as [|y l IH]; simpl; intros Hnd Hin; [contradiction|].
  apply NoDup_cons_iff in Hnd as [Hy Hnd].
  destruct Hin as [->|Hin].
  - now rewrite Z.eqb_refl.
  - destruct (Z.eqb (key y) (key x)) eqn:E; auto.
    apply Z.eqb_eq in E. exfalso. apply Hy. rewrite E. now apply in_map.
Qed.

Lemma find_app_last {A} (f : A -> bool) l x :
  List.find f l = None -> f x = true -> List.find f (l ++ [x]) = Some x.
Proof.
  induction l as [|y l IH]; simpl; intros Hn Hx.
  - now rewrite Hx.
  - destruct (f y); [discriminate|auto].
Qed.

(** ** Lazy creation of the mirror *)

Ltac entity_simpl :=
  cbn [RawPayer.payer_entity RawPayer.pgp_customer_entity RawPayer.stripe_customer_entity
       RawPayer.set_pgp_customer_entity RawPayer.set_stripe_customer_entity
       StripeCustomerDbEntity.id StripeCustomerDbEntity.stripe_id
       StripeCustomerDbEntity.country_shortname StripeCustomerDbEntity.owner_type
       StripeCustomerDbEntity.owner_id StripeCustomerDbEntity.default_card
       StripeCustomerDbEntity.with_default_card fst snd] in *.


(** One resolve-and-update through a legacy id type, with a database that
    answers: the legacy row gets its default card, and the mirror is created
    exactly when no payers row refers to the customer yet. *)
Lemma resolve_and_update_run payer_id pm t pt w sc :
  In t legacy_schema_id_types ->
  pt <> "" -> pt <> PayerType.MARKETPLACE ->
  db_faults w = [] ->
  stripe_customer_pk w ->
  List.find (stripe_customer_matches (legacy_lookup_input payer_id t))
            (stripe_customer (main_database w)) = Some sc ->
  exists r w' evs,
    run (resolve_and_update payer_id pm t (Some pt)) w = (Ok r, w', evs)
    /\ db_faults w' = []
    /\ stripe_customer (main_database w')
       = List.map (set_card pm (StripeCustomerDbEntity.id sc))
                  (stripe_customer (main_database w))
    /\ match List.find (payer_matches
                          (ByLegacyStripeCustomerId (StripeCustomerDbEntity.stripe_id sc)))
                       (payers (payment_database w)) with
       | Some _ => payment_database w' = payment_database w
       | None =>
           exists p,
             payers (payment_database w') = (payers (payment_database w) ++ [p])%list
             /\ PayerDbEntity.legacy_stripe_customer_id p = StripeCustomerDbEntity.stripe_id sc
             /\ length (pgp_customers (payment_database w'))
                = (length (pgp_customers (payment_database w))
                   + (if String.eqb (StripeCustomerDbEntity.owner_type sc) PayerType.MARKETPLACE
                      then 1 else 0))%nat
       end.
Proof.
  intros Ht Hne Hnm Hf Hpk Hfind.
  pose proof (find_some _ _ Hfind) as [Hin Hmatch].
  assert (Hupd : List.find (fun c => Z.eqb (StripeCustomerDbEntity.id c) (StripeCustomerDbEntity.id sc))
                   (List.map (fun c => if Z.eqb (StripeCustomerDbEntity.id c) (StripeCustomerDbEntity.id sc)
                                       then StripeCustomerDbEntity.with_default_card (Some pm) c else c)
                             (stripe_customer (main_database w)))
                 = Some (StripeCustomerDbEntity.with_default_card (Some pm) sc)).
  { rewrite find_map_commute.
    - rewrite (find_by_key StripeCustomerDbEntity.id) by assumption. simpl.
      now rewrite Z.eqb_refl.
    - intros x. destruct (Z.eqb (StripeCustomerDbEntity.id x) (StripeCustomerDbEntity.id sc)) eqn:E;
        simpl; auto. }
  assert (Hfs : exists y,
             List.find (stripe_customer_matches
                          (ByStripeId (StripeCustomerDbEntity.stripe_id sc)))
               (List.map (fun c => if Z.eqb (StripeCustomerDbEntity.id c) (StripeCustomerDbEntity.id sc)
                                   then StripeCustomerDbEntity.with_default_card (Some pm) c else c)
                         (stripe_customer (main_database w))) = Some y).
  { rewrite find_map_commute.
    - destruct (find_in_some
                  (stripe_customer_matches (ByStripeId (StripeCustomerDbEntity.stripe_id sc)))
                  _ sc Hin) as [y Hy]; [simpl; apply String.eqb_refl|].
      rewrite Hy. simpl. eauto.
    - intros x. destruct (Z.eqb (StripeCustomerDbEntity.id x) (StripeCustomerDbEntity.id sc));
        reflexivity. }
  destruct Hfs as [y Hfs].
  destruct (run (resolve_and_update payer_id pm t (Some pt)) w) as [[r w'] evs] eqn:H.
  unfold run, resolve_and_update, PayerClient.get_payer_raw_objects in H.
  rewrite (select_legacy _ Ht) in H.
  unfold LegacyPayerOps.get_payer_raw_objects in H.
  assert (Hc : Py.truthy_str (Some pt) && negb (Py.opt_str_eqb (Some pt) PayerType.MARKETPLACE) = true).
  { simpl. apply String.eqb_neq in Hne, Hnm. now rewrite Hne, Hnm. }
  rewrite Hc in H. fold (legacy_lookup_input payer_id t) in H.
  unfold PayerClient.update_payer_default_payment_method in H.
  rewrite (select_legacy _ Ht) in H.
  unfold LegacyPayerOps.update_payer_default_payment_method, PayerClient.lazy_create_payer,
    PayerClient.create_payer_raw_objects, get_stripe_customer, get_payer_by_id, update_stripe_customer in H.
  unfold PayerOps.create_payer_raw_objects, LegacyPayerOps.create_payer_raw_objects,
    insert_payer_and_pgp_customer, insert_payer, append_payer, append_pgp_customer,
    get_stripe_customer, insert_stripe_customer in H.
  crunch_run; repeat (progress entity_simpl; crunch_run).
  all: do 3 eexists; split; [reflexivity|]; world_simpl.
  all: split; [assumption|]; split; [reflexivity|].
  all: match goal with
       | Hx : List.find ?p ?l = _ |- context [List.find ?p ?l] => rewrite Hx
       end.
  all: try reflexivity.
  all: eexists; split; [reflexivity|]; split; [reflexivity|].
  all: match goal with
       | Hx : String.eqb _ PayerType.MARKETPLACE = _ |- _ => rewrite Hx
       end.
  all: rewrite ?List.length_app; simpl; lia.
Qed.

Lemma set_card_id pm k c :
  StripeCustomerDbEntity.id (set_card pm k c) = StripeCustomerDbEntity.id c.
Proof. unfold set_card. destruct (Z.eqb _ _); reflexivity. Qed.

Lemma set_card_stripe_id pm k c :
  StripeCustomerDbEntity.stripe_id (set_card pm k c) = StripeCustomerDbEntity.stripe_id c.
Proof. unfold set_card. destruct (Z.eqb _ _); reflexivity. Qed.

Lemma set_card_owner_type pm k c :
  StripeCustomerDbEntity.owner_type (set_card pm k c) = StripeCustomerDbEntity.owner_type c.
Proof. unfold set_card. destruct (Z.eqb _ _); reflexivity. Qed.

Lemma set_card_matches i pm k c :
  stripe_customer_matches i (set_card pm k c) = stripe_customer_matches i c.
Proof.
  destruct i; simpl; [now rewrite set_card_stripe_id|].
  destruct (Py.int id); auto. now rewrite set_card_id.
Qed.

Lemma mirrors_of_nil_find cid w :
  mirrors_of cid w = [] ->
  List.find (payer_matches (ByLegacyStripeCustomerId cid)) (payers (payment_database w)) = None.
Proof. intros H. now apply find_none_iff_filter_nil. Qed.

(** C1, as the code has it: lazy creation belongs to the legacy id types.
    For a customer that exists only in the legacy schema, resolved by
    stripe_customer_id or stripe_customer_serial_id with a non-marketplace
    payer type, the first resolve-and-update returns and leaves exactly one
    payers row mirroring the customer (with a pgp_customers row only when
    the customer's owner_type is marketplace); the retry returns, finds that
    row and leaves the payment database as the first call left it. *)
Theorem C1_mirror_created_once_through_legacy_id_types :
  forall (payer_id pm : string) (payer_id_type : option string) (payer_type : string)
         (w : World) (sc : StripeCustomerDbEntity.t),
    In payer_id_type legacy_schema_id_types ->
    payer_type <> "" -> payer_type <> PayerType.MARKETPLACE ->
    db_faults w = [] ->
    stripe_customer_pk w ->
    List.find (stripe_customer_matches (legacy_lookup_input payer_id payer_id_type))
              (stripe_customer (main_database w)) = Some sc ->
    mirrors_of (StripeCustomerDbEntity.stripe_id sc) w = [] ->
    let update := resolve_and_update payer_id pm payer_id_type (Some payer_type) in
    let first := run update w in
    let retry := run update (world_of first) in
    (exists r, result_of first = Ok r)
    /\ length (mirrors_of (StripeCustomerDbEntity.stripe_id sc) (world_of first)) = 1%nat
    /\ length (pgp_customers (payment_database (world_of first)))
       = (length (pgp_customers (payment_database w))
          + (if String.eqb (StripeCustomerDbEntity.owner_type sc) PayerType.MARKETPLACE
             then 1 else 0))%nat
    /\ (exists r, result_of retry = Ok r)
    /\ payment_database (world_of retry) = payment_database (world_of first).
Proof.
  intros payer_id pm t pt w sc Ht Hne Hnm Hf Hpk Hfind Hmir update first retry.
  destruct (resolve_and_update_run payer_id pm t pt w sc Ht Hne Hnm Hf Hpk Hfind)
    as (r1 & w1 & e1 & Hrun1 & Hf1 & Hsc1 & Hcase1).
  rewrite (mirrors_of_nil_find _ _ Hmir) in Hcase1.
  destruct Hcase1 as (p & Hp & Hleg & Hpgp).
  assert (Hfirst : first = (Ok r1, w1, e1)) by exact Hrun1.
  assert (Hpk1 : stripe_customer_pk w1).
  { unfold stripe_customer_pk in *. rewrite Hsc1, List.map_map.
    erewrite List.map_ext; [exact Hpk|]. intros c. apply set_card_id. }
  assert (Hfind1 :
            List.find (stripe_customer_matches (legacy_lookup_input payer_id t))
                      (stripe_customer (main_database w1))
            = Some (set_card pm (StripeCustomerDbEntity.id sc) sc)).
  { rewrite Hsc1, find_map_commute, Hfind; [reflexivity|].
    intros c. apply set_card_matches. }
  destruct (resolve_and_update_run payer_id pm t pt w1 _ Ht Hne Hnm Hf1 Hpk1 Hfind1)
    as (r2 & w2 & e2 & Hrun2 & Hf2 & Hsc2 & Hcase2).
  rewrite set_card_stripe_id in Hcase2.
  rewrite Hp, (find_app_last _ _ p (mirrors_of_nil_find _ _ Hmir)) in Hcase2
    by (simpl; rewrite Hleg; apply String.eqb_refl).
  assert (Hretry : retry = (Ok r2, w2, e2)).
  { unfold retry. rewrite Hfirst. exact Hrun2. }
  rewrite Hretry, Hfirst. unfold result_of, world_of. cbn [fst snd].
  split; [eauto|]. split.
  - unfold mirrors_of in *. rewrite Hp, List.filter_app, Hmir. simpl.
    rewrite Hleg, String.eqb_refl. reflexivity.
  - split; [exact Hpgp|]. split; [eauto|exact Hcase2].
Qed.

Lemma C1_mirror_created_once_through_legacy_id_types_witness :
  let update := resolve_and_update "cus_1" "card_1" (Some "stripe_customer_id") (Some "drive") in
  let first := run update legacy_only_world in
  let retry := run update (world_of first) in
  (exists r, result_of first = Ok r)
  /\ length (mirrors_of "cus_1" (world_of first)) = 1%nat
  /\ length (pgp_customers (payment_database (world_of first)))
     = (length (pgp_customers (payment_database legacy_only_world)) + 0)%nat
  /\ (exists r, result_of retry = Ok r)
  /\ payment_database (world_of retry) = payment_database (world_of first).
Proof.
  apply (C1_mirror_created_once_through_legacy_id_types "cus_1" "card_1"
           (Some "stripe_customer_id") "drive" legacy_only_world legacy_customer).
  - unfold legacy_schema_id_types. simpl. auto.
  - discriminate.
  - discriminate.
  - reflexivity.
  - unfold stripe_customer_pk. simpl. repeat constructor. simpl. tauto.
  - reflexivity.
  - reflexivity.
Defined.

(** C1, as the specification states it, fails: resolved by dd_consumer_id,
    the legacy-only customer is not found and nothing is created; and an
    update dispatched by dd_consumer_id on the aggregate of that customer
    runs the current-schema strategy, which never creates the mirror. *)
Lemma C1_counterexample :
  let by_consumer_id :=
    run (resolve_and_update "123" "card_1" (Some "dd_consumer_id") (Some "drive"))
        legacy_only_world in
  let resolved_by_stripe_id_updated_by_consumer_id :=
    run (raw_payer <- PayerClient.get_payer_raw_objects "cus_1"
                        (Some "stripe_customer_id") (Some "drive") ;;
         PayerClient.update_payer_default_payment_method raw_payer "card_1" "123"
           (Some "drive") (Some "dd_consumer_id") None)
        legacy_only_world in
  mirrors_of "cus_1" legacy_only_world = []
  /\ result_of by_consumer_id = Raise (PayerReadError PAYER_READ_NOT_FOUND false)
  /\ payers (payment_database (world_of by_consumer_id)) = []
  /\ result_of resolved_by_stripe_id_updated_by_consumer_id = Ok 0%nat
  /\ payers (payment_database (world_of resolved_by_stripe_id_updated_by_consumer_id)) = []
  /\ pgp_customers (payment_database (world_of resolved_by_stripe_id_updated_by_consumer_id))
     = [].
Proof. vm_compute. repeat split. Qed.

(** ** The routes that read and update a payer *)

Lemma scan_count fields locals :
  snd (List.fold_left count_payment_method_id fields locals)
  = snd locals + Z.of_nat (length (given_ids fields)).
Proof.
  revert locals. induction fields as [|[key value] fields IH]; intros [[pm ty] count].
  - cbn. lia.
  - cbn [List.fold_left given_ids List.filter snd count_payment_method_id].
    fold (given_ids fields). rewrite IH.
    destruct (Py.truthy_str value); cbn [snd length]; lia.
Qed.

Lemma scan_nothing_given fields locals :
  given_ids fields = [] ->
  List.fold_left count_payment_method_id fields locals = locals.
Proof.
  revert locals. induction fields as [|[key value] fields IH]; intros [[pm ty] count];
    [reflexivity|].
  cbn [List.fold_left given_ids List.filter snd count_payment_method_id].
  fold (given_ids fields).
  destruct (Py.truthy_str value); [discriminate|]. apply IH.
Qed.

Lemma scan_one_given fields locals key value :
  given_ids fields = [(key, value)] ->
  fst (List.fold_left count_payment_method_id fields locals) = (value, Some key).
Proof.
  revert locals. induction fields as [|[k v] fields IH]; intros [[pm ty] count];
    [discriminate|].
  cbn [List.fold_left given_ids List.filter snd count_payment_method_id].
  fold (given_ids fields).
  destruct (Py.truthy_str v).
  - intros [= -> -> Hrest]. now rewrite scan_nothing_given.
  - apply IH.
Qed.

Lemma verify_run fields w :
  _verify_payment_method_id fields w
  = (match given_ids fields with
     | [(key, Some value)] => Ok (value, key)
     | _ => Raise (PaymentException HTTP_400_BAD_REQUEST
                     PAYMENT_METHOD_GET_INVALID_PAYMENT_METHOD_TYPE false)
     end, w, []).
Proof.
  unfold _verify_payment_method_id, scan_payment_method_ids.
  pose proof (scan_count fields (None, None, 0)) as Hcount.
  pose proof (scan_one_given fields (None, None, 0)) as Hone.
  assert (Htruthy : Forall (fun f => Py.truthy_str (snd f) = true) (given_ids fields)).
  { apply List.Forall_forall. intros f Hf. apply List.filter_In in Hf. tauto. }
  destruct (List.fold_left count_payment_method_id fields (None, None, 0))
    as [[pm ty] count].
  cbn [fst snd] in *.
  destruct (given_ids fields) as [|[key value] [|g rest]]; cbn [length] in Hcount.
  - subst count. reflexivity.
  - subst count. specialize (Hone key value eq_refl). injection Hone as -> ->.
    apply List.Forall_inv in Htruthy. cbn [snd] in Htruthy.
    destruct value as [value|]; [|discriminate]. reflexivity.
  - replace (count =? 1) with false by (symmetry; apply Z.eqb_neq; lia).
    destruct value; reflexivity.
Qed.

(** X1: The verification wants exactly one id: with exactly one field that
    carries a value it returns that value with the name of its field;
    with none or several it raises the HTTP exception with status 400 and
    the code for an invalid payment method type.  It never reads an
    unbound variable and does nothing else. *)
Theorem X1_verify_payment_method_id_wants_exactly_one_id :
  forall (fields : list (string * option string)) (w : World),
    run (_verify_payment_method_id fields) w
    = (match given_ids fields with
       | [(key, Some value)] => Ok (value, key)
       | _ => Raise (PaymentException HTTP_400_BAD_REQUEST
                       PAYMENT_METHOD_GET_INVALID_PAYMENT_METHOD_TYPE false)
       end, w, []).
Proof.
  intros fields w. apply verify_run.
Qed.

Lemma quiet_get_payer_impl Payer (to_payer : RawPayer.t -> Payer) payer_id t pt :
  quiet (get_payer_impl Payer to_payer payer_id t pt).
Proof.
  unfold get_payer_impl. quiet_tac. apply quiet_get_payer_raw_objects.
Qed.

Lemma get_payer_impl_failures Payer (to_payer : RawPayer.t -> Payer) payer_id t pt
    w e w' evs :
  get_payer_impl Payer to_payer payer_id t pt w = (Raise e, w', evs) ->
  e = PayerReadError PAYER_READ_NOT_FOUND false
  \/ e = PayerReadError PAYER_READ_DB_ERROR false
  \/ e = PayerReadError PAYER_READ_INVALID_DATA false
  \/ e = ConnectionLostError \/ e = QueryTimeoutError.
Proof.
  unfold get_payer_impl, PayerClient.get_payer_raw_objects,
    PayerOps.get_payer_raw_objects, LegacyPayerOps.get_payer_raw_objects,
    get_payer_and_pgp_customer_by_id, get_payer_by_id, get_stripe_customer.
  intros H.
  destruct (select_payer_interface t) as [[|]|]; crunch_run; auto 10.
Qed.

(** X2: Reading a payer through the GET route, with a processor that resolves
    it by [get_payer_impl] under any id type: nothing is written; the
    route fails with status 404 and PAYER_READ_NOT_FOUND, with status 500
    and PAYER_READ_DB_ERROR or PAYER_READ_INVALID_DATA (an unknown id type
    is answered as a server error), or with the driver's exception for a
    lost connection or a timeout, and with nothing else. *)
Theorem X2_get_payer_route_outcomes :
  forall (Payer : Type) (to_payer : RawPayer.t -> Payer)
         (payer_id : string) (payer_id_type payer_type : option string)
         (force_update : bool) (w : World),
    tables (world_of (run (get_payer
                             (fun payer_id payer_type _ =>
                                get_payer_impl Payer to_payer payer_id payer_id_type payer_type)
                             payer_id payer_type force_update) w))
    = tables w
    /\ no_db_write (events_of (run (get_payer
                             (fun payer_id payer_type _ =>
                                get_payer_impl Payer to_payer payer_id payer_id_type payer_type)
                             payer_id payer_type force_update) w))
       = true
    /\ match result_of (run (get_payer
                             (fun payer_id payer_type _ =>
                                get_payer_impl Payer to_payer payer_id payer_id_type payer_type)
                             payer_id payer_type force_update) w)
       with
       | Ok _ => True
       | Raise e => get_payer_failure e = true
       end.
Proof.
  intros Payer to_payer payer_id t pt force_update w.
  destruct (run _ w) as [[r w'] evs] eqn:H. unfold run in H.
  cbn [world_of result_of events_of fst snd].
  assert (Hq : quiet (get_payer
                        (fun payer_id payer_type (_ : bool) =>
                           get_payer_impl Payer to_payer payer_id t payer_type)
                        payer_id pt force_update)).
  { unfold get_payer. quiet_tac.
    all: try apply quiet_get_payer_raw_objects.
    unfold except_PaymentError in *.
    match goal with
    | Hh : match as_PaymentError ?e with _ => _ end = Some _ |- _ =>
        destruct (as_PaymentError e) as [[c b]|]; [injection Hh as <-|discriminate]
    end.
    apply quiet_raise. }
  destruct (Hq _ _ _ _ H) as [HT HN]. split; [exact HT|]. split; [exact HN|].
  destruct r as [p|e]; [exact I|].
  unfold get_payer in H.
  apply bind_inv in H as [(a & w1 & e1 & e2 & H1 & H2 & ->) | (e' & H1 & _)];
    [|apply emit_inv in H1 as ([=] & _)].
  apply try_except_inv in H2
    as [(p & _ & [=]) | [(e' & H2 & Hh & [= ->]) | (e' & h & w2 & e3 & e4 & H2 & Hh & H3 & ->)]].
  - apply bind_inv in H2 as [(p & w2 & e3 & e4 & H2 & H3 & ->) | (e'' & H2 & [= ->])].
    + apply bind_inv in H3 as [(? & ? & ? & ? & _ & H3 & _) | (e'' & H3 & _)];
        [apply ret_inv in H3 as ([=] & _)|apply emit_inv in H3 as ([=] & _)].
    + apply get_payer_impl_failures in H2.
      destruct H2 as [->|[->|[->|[->| ->]]]]; try discriminate; reflexivity.
  - apply bind_inv in H2 as [(p & w3 & e5 & e6 & H2 & H4 & ->) | (e'' & H2 & [= ->])].
    + apply bind_inv in H4 as [(? & ? & ? & ? & _ & H4 & _) | (e'' & H4 & _)];
        [apply ret_inv in H4 as ([=] & _)|apply emit_inv in H4 as ([=] & _)].
    + apply get_payer_impl_failures in H2.
      destruct H2 as [->|[->|[->|[->| ->]]]]; cbn in Hh; try discriminate;
        injection Hh as <-; apply raise_inv in H3 as ([= ->] & _); reflexivity.
Qed.

Lemma raises_only_catch_all {A} (P : exn -> bool) (body h : M A) :
  raises_only P h -> raises_only P (try_except body (except_Exception h)).
Proof.
  intros Hh w e w' evs H.
  apply try_except_inv in H
    as [(a & _ & [=]) | [(e' & _ & [=] & _) | (e' & h' & w1 & e1 & e2 & _ & [= <-] & H2 & _)]].
  eapply Hh; eauto.
Qed.

Lemma get_payer_raw_objects_never_bad_request payer_id t pt :
  raises_only never_bad_request (PayerClient.get_payer_raw_objects payer_id t pt).
Proof.
  unfold PayerClient.get_payer_raw_objects, PayerOps.get_payer_raw_objects,
    LegacyPayerOps.get_payer_raw_objects, get_payer_and_pgp_customer_by_id,
    get_payer_by_id, get_stripe_customer.
  raises_tac.
Qed.

Lemma update_default_payment_method_never_bad_request raw_payer pm payer_id pt t desc :
  raises_only never_bad_request
    (PayerClient.update_payer_default_payment_method raw_payer pm payer_id pt t desc).
Proof.
  unfold PayerClient.update_payer_default_payment_method,
    PayerOps.update_payer_default_payment_method,
    LegacyPayerOps.update_payer_default_payment_method,
    PayerClient.lazy_create_payer, PayerClient.create_payer_raw_objects,
    PayerOps.create_payer_raw_objects, LegacyPayerOps.create_payer_raw_objects,
    update_pgp_customer, update_stripe_customer, get_payer_by_id,
    insert_payer_and_pgp_customer, insert_payer, append_payer, append_pgp_customer,
    get_stripe_customer, insert_stripe_customer.
  raises_tac.
Qed.

Lemma update_payer_impl_never_bad_request
    icc Payer (to_payer : RawPayer.t -> Payer) get_pgp_customer_id get_payment_method
    payer_id pm country t pt pmt :
  (forall a b c d, raises_only never_bad_request (get_payment_method a b c d)) ->
  (forall rp e, get_pgp_customer_id rp = Raise e -> never_bad_request e = true) ->
  raises_only never_bad_request
    (update_payer_impl icc Payer to_payer get_pgp_customer_id get_payment_method
       payer_id pm country t pt pmt).
Proof.
  intros Hpm Hcid. unfold update_payer_impl.
  apply raises_only_bind; [apply get_payer_raw_objects_never_bad_request|intros raw_payer].
  apply raises_only_bind; [apply Hpm|intros found].
  apply raises_only_bind; [raises_tac|intros this].
  apply raises_only_bind.
  { destruct (get_pgp_customer_id this) as [cid|e] eqn:E; cbn [lift_result].
    - apply raises_only_ret.
    - apply raises_only_raise. eapply Hcid; eauto. }
  intros cid.
  apply raises_only_bind.
  { unfold pgp_update_customer_default_payment_method.
    apply raises_only_catch_all. raises_tac. }
  intros stripe_customer.
  apply raises_only_bind; [raises_tac|intros _].
  apply raises_only_bind.
  { apply update_default_payment_method_never_bad_request. }
  intros updated. raises_tac.
Qed.

(** X3: The PATCH route answers with status 400 exactly when the request does
    not name exactly one payment method id, and then it has done nothing
    but log: with one id, no failure of [update_payer_impl] is answered
    with status 400, whatever it is called with, as long as the lookup of
    the payment method and of the gateway customer id raise no error of
    that kind themselves (the code PAYER_UPDATE_DB_ERROR_INVALID_DATA is
    raised nowhere in the payer module). *)
Theorem X3_update_payer_route_bad_request_is_the_id_count :
  forall (icc : string -> bool) (Payer : Type) (to_payer : RawPayer.t -> Payer)
         (get_pgp_customer_id : RawPayer.t -> Result string)
         (get_payment_method :
            string -> string -> option string -> option string ->
            M (option PgpPaymentMethodDbEntity.t * StripeCardDbEntity.t))
         (country payer_id : string) (payer_id_type payer_type : option string)
         (fields : list (string * option string)) (w : World),
    (forall a b c d, raises_only never_bad_request (get_payment_method a b c d)) ->
    (forall rp e, get_pgp_customer_id rp = Raise e -> never_bad_request e = true) ->
    (length (given_ids fields) <> 1%nat ->
     run (update_payer
            (fun payer_id default_payment_method_id payment_method_id_type =>
               update_payer_impl icc Payer to_payer get_pgp_customer_id
                 get_payment_method payer_id default_payment_method_id country
                 payer_id_type payer_type (Some payment_method_id_type))
            payer_id fields) w
     = (Raise (PaymentException HTTP_400_BAD_REQUEST
                 PAYMENT_METHOD_GET_INVALID_PAYMENT_METHOD_TYPE false),
        w, [LogInfo "update_payer: received request"]))
    /\ (length (given_ids fields) = 1%nat ->
        never_bad_request_result
          (result_of
             (run (update_payer
                     (fun payer_id default_payment_method_id payment_method_id_type =>
                        update_payer_impl icc Payer to_payer get_pgp_customer_id
                          get_payment_method payer_id default_payment_method_id country
                          payer_id_type payer_type (Some payment_method_id_type))
                     payer_id fields) w))
        = true).
Proof.
  intros icc Payer to_payer get_pgp_customer_id get_payment_method country payer_id
    t pt fields w Hpm Hcid.
  pose proof (verify_run fields w) as Hverify.
  assert (Htruthy : Forall (fun f => Py.truthy_str (snd f) = true) (given_ids fields)).
  { apply List.Forall_forall. intros f Hf. apply List.filter_In in Hf. tauto. }
  split; intros Hlen.
  - unfold run, update_payer, bind, try_except, log_info, emit. rewrite Hverify.
    destruct (given_ids fields) as [|[key [value|]] [|g rest]]; cbn in Hlen |- *;
      try reflexivity; try contradiction.
  - destruct (run _ w) as [[r w'] evs] eqn:H. cbn [result_of fst].
    destruct r as [p|e]; [reflexivity|]. cbn [never_bad_request_result].
    unfold run, update_payer in H.
    apply bind_inv in H as [(a & w1 & ev1 & ev2 & H1 & H2 & ->) | (e' & H1 & _)];
      [|apply emit_inv in H1 as ([=] & _)].
    apply emit_inv in H1 as (_ & -> & _).
    assert (Hbody : forall ex wx evx,
               bind (_verify_payment_method_id fields)
                 (fun verified =>
                    let '(default_payment_method_id, payment_method_id_type) := verified in
                    update_payer_impl icc Payer to_payer get_pgp_customer_id
                      get_payment_method payer_id default_payment_method_id country
                      t pt (Some payment_method_id_type)) w
               = (Raise ex, wx, evx) -> never_bad_request ex = true).
    { intros ex wx evx Hb.
      apply bind_inv in Hb as [([v k] & w2 & ev3 & ev4 & Hb1 & Hb2 & ->) | (e'' & Hb1 & _)].
      - eapply update_payer_impl_never_bad_request; eauto.
      - rewrite Hverify in Hb1.
        destruct (given_ids fields) as [|[key value] [|g rest]]; try discriminate.
        apply List.Forall_inv in Htruthy. cbn [snd] in Htruthy.
        destruct value; discriminate. }
    apply try_except_inv in H2
      as [(p & _ & [=]) | [(e' & H2 & Hh & [= ->]) | (e' & h & w2 & ev3 & ev4 & H2 & Hh & H3 & ->)]].
    + eapply Hbody; eauto.
    + apply Hbody in H2. unfold except_PaymentError in Hh.
      destruct e'; cbn in Hh, H2; try discriminate; injection Hh as <-;
        apply raise_inv in H3 as ([= ->] & _); cbn;
        apply negb_true_iff in H2; rewrite H2; reflexivity.
Qed.

Lemma X3_update_payer_route_bad_request_is_the_id_count_witness :
  run (update_payer
         (fun payer_id default_payment_method_id payment_method_id_type =>
            update_payer_impl (String.eqb "US") RawPayer.t (fun r => r)
              sample_get_pgp_customer_id found_sample_card payer_id
              default_payment_method_id "US" None None (Some payment_method_id_type))
         "pay_0" [("payment_method_id", Some "pm_1"); ("dd_stripe_card_id", Some "11")])
      resolved_current_world
  = (Raise (PaymentException HTTP_400_BAD_REQUEST
              PAYMENT_METHOD_GET_INVALID_PAYMENT_METHOD_TYPE false),
     resolved_current_world, [LogInfo "update_payer: received request"])
  /\ never_bad_request_result
       (result_of
          (run (update_payer
                  (fun payer_id default_payment_method_id payment_method_id_type =>
                     update_payer_impl (String.eqb "US") RawPayer.t (fun r => r)
                       sample_get_pgp_customer_id found_sample_card payer_id
                       default_payment_method_id "US" None None
                       (Some payment_method_id_type))
                  "pay_0" [("payment_method_id", None); ("dd_stripe_card_id", Some "11")])
             resolved_current_world))
     = true.
Proof.
  assert (Hpm : forall a b c d, raises_only never_bad_request (found_sample_card a b c d)).
  { intros a b c d.
    unfold found_sample_card, PaymentMethodRepository.get_stripe_card_by_stripe_id.
    raises_tac. }
  assert (Hcid : forall rp e,
             sample_get_pgp_customer_id rp = Raise e -> never_bad_request e = true).
  { intros rp e. unfold sample_get_pgp_customer_id.
    destruct (RawPayer.pgp_customer_entity rp), (RawPayer.stripe_customer_entity rp);
      intros [= <-]; reflexivity. }
  split.
  - apply (X3_update_payer_route_bad_request_is_the_id_count
             (String.eqb "US") RawPayer.t (fun r => r) sample_get_pgp_customer_id
             found_sample_card "US" "pay_0" None None
             [("payment_method_id", Some "pm_1"); ("dd_stripe_card_id", Some "11")]
             resolved_current_world Hpm Hcid).
    simpl. lia.
  - apply (X3_update_payer_route_bad_request_is_the_id_count
             (String.eqb "US") RawPayer.t (fun r => r) sample_get_pgp_customer_id
             found_sample_card "US" "pay_0" None None
             [("payment_method_id", None); ("dd_stripe_card_id", Some "11")]
             resolved_current_world Hpm Hcid).
    reflexivity.
Defined.

(** ** Creating a payer: the gateway customer and the empty dd_payer_id *)

(** X4: [pgp_create_customer] touches no table and issues no database
    statement.  It returns exactly the id that the gateway replied with;
    every failure, of the gateway or of the conversion of the country,
    leaves as PayerCreationError(PAYER_CREATE_STRIPE_ERROR, not
    retryable); and for a country that is no country code the gateway is
    not called at all. *)
Theorem X4_pgp_create_customer_outcomes :
  forall (is_country_code : string -> bool) (country email description : string)
         (w : World),
    tables (world_of (run (pgp_create_customer is_country_code country email description) w))
    = tables w
    /\ no_db_event
         (events_of (run (pgp_create_customer is_country_code country email description) w))
       = true
    /\ match result_of (run (pgp_create_customer is_country_code country email description) w)
       with
       | Ok id =>
           is_country_code country = true
           /\ exists rest, gateway_script w = GatewayOk id :: rest
       | Raise e => e = PayerCreationError PAYER_CREATE_STRIPE_ERROR false
       end
    /\ (is_country_code country = false ->
        run (pgp_create_customer is_country_code country email description) w
        = (Raise (PayerCreationError PAYER_CREATE_STRIPE_ERROR false), w,
           [LogError "pgp_create_customer: error while creating stripe customer"])).
Proof.
  intros icc country email description w.
  unfold run, pgp_create_customer, CountryCode, try_except, bind.
  destruct (icc country); cbn.
  - unfold gateway_call. destruct (gateway_script w) as [|[id|] rest] eqn:G; cbn;
      repeat split; eauto; discriminate.
  - repeat split; auto.
Qed.

(** X5: A request without dd_payer_id passes the numeric check.  For a payer
    type other than marketplace whose gateway customer has no legacy row
    yet, creation then fails on [int("")] with a ValueError that no
    clause translates, after the customer was created at the gateway and
    the payers row was committed: the row stays, with an empty
    dd_payer_id, and no stripe_customer row is written. *)
Theorem X5_create_payer_without_dd_payer_id_leaves_a_payer_behind :
  forall (is_country_code : string -> bool) (Payer : Type)
         (to_payer : RawPayer.t -> Payer)
         (payer_type email country description : string)
         (w : World) (pgp_customer_id : string) (rest : list GatewayReply),
    payer_type <> PayerType.MARKETPLACE ->
    is_country_code country = true ->
    db_faults w = [] ->
    gateway_script w = GatewayOk pgp_customer_id :: rest ->
    List.find (stripe_customer_matches (ByStripeId pgp_customer_id))
              (stripe_customer (main_database w)) = None ->
    result_of (run (create_payer is_country_code Payer to_payer
                      (mkCreatePayerRequest "" payer_type email country description)) w)
    = Raise ValueError
    /\ payers (payment_database
         (world_of (run (create_payer is_country_code Payer to_payer
                           (mkCreatePayerRequest "" payer_type email country description)) w)))
       = (payers (payment_database w)
          ++ [PayerDbEntity.mk ("pay_" ++ Py.str_of_nat (uuid_seed w)) payer_type ""
                pgp_customer_id country (Some description)])%list
    /\ main_database
         (world_of (run (create_payer is_country_code Payer to_payer
                           (mkCreatePayerRequest "" payer_type email country description)) w))
       = main_database w
    /\ gateway_script
         (world_of (run (create_payer is_country_code Payer to_payer
                           (mkCreatePayerRequest "" payer_type email country description)) w))
       = rest.
Proof.
  intros icc Payer to_payer pt email country description w cid rest Hpt Hicc Hf Hg Hfind.
  apply String.eqb_neq in Hpt.
  unfold run, create_payer, verify_dd_payer_id, create_payer_impl,
    PayerClient.has_existing_payer, get_payer_by_dd_payer_id_and_payer_type,
    pgp_create_customer, CountryCode, PayerClient.create_payer_raw_objects.
  cbn [req_dd_payer_id req_payer_type req_email req_country req_description
       String.eqb negb].
  rewrite Hpt, Hicc.
  unfold LegacyPayerOps.create_payer_raw_objects, insert_payer, append_payer,
    get_stripe_customer, insert_stripe_customer.
  unfold bind, try_except, transaction, statement, gateway_call, log_info, log_error,
    emit, ret, raise, modify, gets, generate_object_uuid, int_of_str.
  rewrite Hf. cbv beta iota.
  destruct (List.find _ (payers (payment_database w))) as [existing|];
    repeat first [ rewrite Hf | rewrite Hg | rewrite Hfind
                 | progress world_simpl_goal
                 | progress cbv beta iota
                 | progress cbn [Py.truthy except_DataError except_Exception
                                 except_ValueError except_PaymentError as_PaymentError] ];
    cbn; repeat split.
Qed.

Lemma X5_create_payer_without_dd_payer_id_leaves_a_payer_behind_witness :
  result_of (run (create_payer (fun _ => true) RawPayer.t (fun r => r)
                    (mkCreatePayerRequest "" "drive" "a@b.c" "US" "a store"))
               gateway_replies_world)
  = Raise ValueError
  /\ payers (payment_database
       (world_of (run (create_payer (fun _ => true) RawPayer.t (fun r => r)
                         (mkCreatePayerRequest "" "drive" "a@b.c" "US" "a store"))
                    gateway_replies_world)))
     = [PayerDbEntity.mk "pay_0" "drive" "" "cus_77" "US" (Some "a store")]
  /\ main_database
       (world_of (run (create_payer (fun _ => true) RawPayer.t (fun r => r)
                         (mkCreatePayerRequest "" "drive" "a@b.c" "US" "a store"))
                    gateway_replies_world))
     = main_database gateway_replies_world
  /\ gateway_script
       (world_of (run (create_payer (fun _ => true) RawPayer.t (fun r => r)
                         (mkCreatePayerRequest "" "drive" "a@b.c" "US" "a store"))
                    gateway_replies_world))
     = [].
Proof.
  apply (X5_create_payer_without_dd_payer_id_leaves_a_payer_behind
           (fun _ => true) RawPayer.t (fun r => r) "drive" "a@b.c" "US" "a store"
           gateway_replies_world "cus_77" []).
  - simpl. discriminate.
  - reflexivity.
  - reflexivity.
  - reflexivity.
  - reflexivity.
Defined.

(** ** Creating a payer and resolving it *)

(** X6: A payer created through the current-schema strategy is resolved by its
    new id: with a database that answers and ids that are new to both
    tables, resolving the id (with no id type, or with dd_payer_id) after
    the creation returns an aggregate with the same two entities as the
    one created, held in an object of its own, and writes nothing. *)
Theorem X6_created_payer_is_resolved_by_its_id :
  forall (dd_payer_id payer_type country pgp_customer_id pgp_code : string)
         (description default_payment_method_id payer_id_type resolve_payer_type
            : option string)
         (w : World),
    db_faults w = [] ->
    In payer_id_type [None; Some PayerIdType.DD_PAYMENT_PAYER_ID] ->
    List.find (payer_matches (ById ("pay_" ++ Py.str_of_nat (uuid_seed w))))
              (payers (payment_database w)) = None ->
    List.find (fun c => String.eqb (PgpCustomerDbEntity.payer_id c)
                                   ("pay_" ++ Py.str_of_nat (uuid_seed w)))
              (pgp_customers (payment_database w)) = None ->
    exists w1 evs1 w2 evs2,
      run (PayerOps.create_payer_raw_objects dd_payer_id payer_type country
             pgp_customer_id pgp_code description default_payment_method_id) w
      = (Ok (next_ref w), w1, evs1)
      /\ run (PayerClient.get_payer_raw_objects
                ("pay_" ++ Py.str_of_nat (uuid_seed w)) payer_id_type resolve_payer_type) w1
         = (Ok (S (next_ref w)), w2, evs2)
      /\ heap w2 !! next_ref w
         = Some (RawPayer.mk
                   (Some (created_payer w dd_payer_id payer_type country pgp_customer_id
                            description))
                   (Some (created_pgp_customer w pgp_code pgp_customer_id
                            default_payment_method_id))
                   None)
      /\ heap w2 !! S (next_ref w) = heap w2 !! next_ref w
      /\ tables w2 = tables w1
      /\ no_db_write evs2 = true.
Proof.
  intros dd pt country cid code description dpm t rpt w Hf Ht Hfresh1 Hfresh2.
  assert (Hsel : select_payer_interface t = Some UsePayerOps
                 /\ Py.opt_str_eqb t PayerIdType.DD_CONSUMER_ID = false).
  { destruct Ht as [<-|[<-|[]]]; split; reflexivity. }
  destruct Hsel as [Hsel Hnot].
  unfold run, PayerClient.get_payer_raw_objects. rewrite Hsel.
  unfold PayerOps.create_payer_raw_objects, PayerOps.get_payer_raw_objects,
    insert_payer_and_pgp_customer, append_payer, append_pgp_customer,
    get_payer_and_pgp_customer_by_id, get_payer_by_id.
  rewrite Hnot.
  unfold bind, try_except, transaction, statement, log_info, log_error,
    emit, ret, raise, modify, gets, generate_object_uuid, new_RawPayer.
  repeat first [ rewrite Hf
               | progress world_simpl_goal
               | progress cbv beta iota
               | progress cbn [fst snd] ].
  do 4 eexists. split; [reflexivity|].
  repeat first [ rewrite Hf
               | progress world_simpl_goal
               | progress cbv beta iota
               | progress cbn [fst snd] ].
  rewrite (find_app_last _ _ _ Hfresh1)
    by (cbn [payer_matches PayerDbEntity.id]; apply String.eqb_refl).
  cbv beta iota.
  repeat first [ rewrite Hf
               | progress world_simpl_goal
               | progress cbv beta iota
               | progress cbn [fst snd PayerDbEntity.id] ].
  rewrite (find_app_last _ _ _ Hfresh2)
    by (cbn [PgpCustomerDbEntity.payer_id]; apply String.eqb_refl).
  cbn [Py.truthy andb negb]. cbv beta iota.
  world_simpl_goal.
  split; [reflexivity|]. world_simpl_goal.
  unfold created_payer, created_pgp_customer.
  rewrite lookup_insert_ne by lia. rewrite !lookup_insert_eq.
  repeat split.
Qed.

Lemma X6_created_payer_is_resolved_by_its_id_witness :
  exists w1 evs1 w2 evs2,
    run (PayerOps.create_payer_raw_objects "123" "marketplace" "US" "cus_77" "stripe"
           (Some "a consumer") None) empty_world
    = (Ok 0%nat, w1, evs1)
    /\ run (PayerClient.get_payer_raw_objects "pay_0" None None) w1
       = (Ok 1%nat, w2, evs2)
    /\ heap w2 !! 0%nat
       = Some (RawPayer.mk
                 (Some (created_payer empty_world "123" "marketplace" "US" "cus_77"
                          (Some "a consumer")))
                 (Some (created_pgp_customer empty_world "stripe" "cus_77" None))
                 None)
    /\ heap w2 !! 1%nat = heap w2 !! 0%nat
    /\ tables w2 = tables w1
    /\ no_db_write evs2 = true.
Proof.
  apply (X6_created_payer_is_resolved_by_its_id "123" "marketplace" "US" "cus_77" "stripe"
           (Some "a consumer") None None None empty_world).
  - reflexivity.
  - simpl. auto.
  - reflexivity.
  - reflexivity.
Defined.

(** ** Creating a payer: which customer row is written *)

(** Evaluation of a run in a world whose database answers. *)
Ltac eval_run Hf :=
  repeat first [ rewrite Hf
               | progress world_simpl_goal
               | progress cbv beta iota
               | progress cbn [fst snd result_of world_of events_of]
               | progress unfold ret, raise ].

(** X7: The legacy strategy writes a stripe_customer row only when none has
    the gateway id yet.  With a database that answers, the payers row is
    appended in every case.  If a row with the gateway id exists it is
    reused as it is: nothing is written to the main database and the
    dd_payer_id is not converted, so it need not be numeric.  If none
    exists, the dd_payer_id is converted: when it reads as an integer one
    row is appended with that integer as owner and the next serial id,
    and otherwise the ValueError of the conversion leaves the method. *)
Theorem X7_legacy_create_reuses_the_stripe_customer :
  forall (dd_payer_id payer_type country pgp_customer_id pgp_code : string)
         (description default_payment_method_id : option string) (w : World),
    db_faults w = [] ->
    payment_database
      (world_of (run (LegacyPayerOps.create_payer_raw_objects dd_payer_id payer_type
                        country pgp_customer_id pgp_code description
                        default_payment_method_id) w))
    = set_payers_of (payment_database w)
        (payers (payment_database w)
         ++ [created_payer w dd_payer_id payer_type country pgp_customer_id
               description])%list
    /\ match List.find (stripe_customer_matches (ByStripeId pgp_customer_id))
                       (stripe_customer (main_database w)),
             Py.int dd_payer_id with
       | Some sc, _ =>
           result_of (run (LegacyPayerOps.create_payer_raw_objects dd_payer_id payer_type
                             country pgp_customer_id pgp_code description
                             default_payment_method_id) w)
           = Ok (next_ref w)
           /\ main_database
                (world_of (run (LegacyPayerOps.create_payer_raw_objects dd_payer_id
                                  payer_type country pgp_customer_id pgp_code description
                                  default_payment_method_id) w))
              = main_database w
           /\ heap (world_of (run (LegacyPayerOps.create_payer_raw_objects dd_payer_id
                                     payer_type country pgp_customer_id pgp_code
                                     description default_payment_method_id) w))
                !! next_ref w
              = Some (RawPayer.mk
                        (Some (created_payer w dd_payer_id payer_type country
                                 pgp_customer_id description))
                        None (Some sc))
       | None, Some owner_id =>
           result_of (run (LegacyPayerOps.create_payer_raw_objects dd_payer_id payer_type
                             country pgp_customer_id pgp_code description
                             default_payment_method_id) w)
           = Ok (next_ref w)
           /\ main_database
                (world_of (run (LegacyPayerOps.create_payer_raw_objects dd_payer_id
                                  payer_type country pgp_customer_id pgp_code description
                                  default_payment_method_id) w))
              = mkMainDb
                  (stripe_customer (main_database w)
                   ++ [StripeCustomerDbEntity.mk (serial_seed w) pgp_customer_id country
                         payer_type owner_id default_payment_method_id])%list
                  (stripe_cards (main_database w))
       | None, None =>
           result_of (run (LegacyPayerOps.create_payer_raw_objects dd_payer_id payer_type
                             country pgp_customer_id pgp_code description
                             default_payment_method_id) w)
           = Raise ValueError
           /\ main_database
                (world_of (run (LegacyPayerOps.create_payer_raw_objects dd_payer_id
                                  payer_type country pgp_customer_id pgp_code description
                                  default_payment_method_id) w))
              = main_database w
       end.
Proof.
  intros dd pt country cid code description dpm w Hf.
  unfold run, LegacyPayerOps.create_payer_raw_objects, insert_payer, append_payer,
    get_stripe_customer, insert_stripe_customer, created_payer, set_payers_of.
  unfold bind, try_except, transaction, statement, log_info, log_error,
    emit, modify, gets, generate_object_uuid, new_RawPayer, next_serial, int_of_str.
  eval_run Hf.
  destruct (List.find _ (stripe_customer (main_database w))) as [sc|] eqn:Hfind;
    [|destruct (Py.int dd) as [owner_id|] eqn:Hint];
    eval_run Hf; cbn [except_DataError]; eval_run Hf.
  - split; [reflexivity|]. split; [reflexivity|]. split; [reflexivity|].
    apply lookup_insert_eq.
  - split; [reflexivity|]. split; reflexivity.
  - split; [reflexivity|]. split; reflexivity.
Qed.

Lemma X7_legacy_create_reuses_the_stripe_customer_witness :
  payment_database
    (world_of (run (LegacyPayerOps.create_payer_raw_objects "not a number" "drive"
                      "US" "cus_1" "stripe" None None) legacy_only_world))
  = set_payers_of (payment_database legacy_only_world)
      [created_payer legacy_only_world "not a number" "drive" "US" "cus_1" None]
  /\ (result_of (run (LegacyPayerOps.create_payer_raw_objects "not a number" "drive"
                        "US" "cus_1" "stripe" None None) legacy_only_world)
      = Ok 0%nat
      /\ main_database
           (world_of (run (LegacyPayerOps.create_payer_raw_objects "not a number" "drive"
                             "US" "cus_1" "stripe" None None) legacy_only_world))
         = main_database legacy_only_world
      /\ heap (world_of (run (LegacyPayerOps.create_payer_raw_objects "not a number"
                                "drive" "US" "cus_1" "stripe" None None)
                           legacy_only_world))
           !! 0%nat
         = Some (RawPayer.mk
                   (Some (created_payer legacy_only_world "not a number" "drive" "US"
                            "cus_1" None))
                   None (Some legacy_customer))).
Proof.
  apply (X7_legacy_create_reuses_the_stripe_customer "not a number" "drive" "US" "cus_1"
           "stripe" None None legacy_only_world).
  reflexivity.
Defined.

(** X8: Whatever the database does, an aggregate that
    [create_payer_raw_objects] returns holds the payers row that was
    written, of the payer type asked for, and exactly one customer entity:
    the pgp customer for a marketplace payer, the legacy stripe customer
    for every other payer type. *)
Theorem X8_created_aggregate_has_one_customer_entity :
  forall (dd_payer_id payer_type country pgp_customer_id pgp_code : string)
         (description default_payment_method_id : option string)
         (w w' : World) (raw_payer : ref) (evs : list Event),
    run (PayerClient.create_payer_raw_objects dd_payer_id payer_type country
           pgp_customer_id pgp_code description default_payment_method_id) w
    = (Ok raw_payer, w', evs) ->
    exists this payer,
      heap w' !! raw_payer = Some this
      /\ RawPayer.payer_entity this = Some payer
      /\ PayerDbEntity.payer_type payer = payer_type
      /\ PayerDbEntity.dd_payer_id payer = dd_payer_id
      /\ In payer (payers (payment_database w'))
      /\ Py.truthy (RawPayer.pgp_customer_entity this)
         = String.eqb payer_type PayerType.MARKETPLACE
      /\ Py.truthy (RawPayer.stripe_customer_entity this)
         = negb (String.eqb payer_type PayerType.MARKETPLACE).
Proof.
  intros dd pt country cid code description dpm w w' l evs H.
  unfold run, PayerClient.create_payer_raw_objects in H.
  destruct (String.eqb pt PayerType.MARKETPLACE) eqn:Hpt.
  - unfold PayerOps.create_payer_raw_objects, insert_payer_and_pgp_customer,
      append_payer, append_pgp_customer in H.
    crunch_run.
    all: do 2 eexists; world_simpl_goal;
      (split; [apply lookup_insert_eq|]); cbn;
      repeat split; try reflexivity; apply in_or_app; right; left; reflexivity.
  - unfold LegacyPayerOps.create_payer_raw_objects, insert_payer, append_payer,
      get_stripe_customer, insert_stripe_customer in H.
    crunch_run.
    all: do 2 eexists; world_simpl_goal;
      (split; [apply lookup_insert_eq|]); cbn;
      repeat split; try reflexivity; apply in_or_app; right; left; reflexivity.
Qed.

Lemma X8_created_aggregate_has_one_customer_entity_witness :
  exists this payer,
    heap (world_of (run (PayerClient.create_payer_raw_objects "123" "store" "US" "cus_5"
                           "stripe" None None) empty_world)) !! 0%nat
    = Some this
    /\ RawPayer.payer_entity this = Some payer
    /\ PayerDbEntity.payer_type payer = "store"
    /\ PayerDbEntity.dd_payer_id payer = "123"
    /\ In payer (payers (payment_database
                           (world_of (run (PayerClient.create_payer_raw_objects "123"
                                             "store" "US" "cus_5" "stripe" None None)
                                        empty_world))))
    /\ Py.truthy (RawPayer.pgp_customer_entity this)
       = String.eqb "store" PayerType.MARKETPLACE
    /\ Py.truthy (RawPayer.stripe_customer_entity this)
       = negb (String.eqb "store" PayerType.MARKETPLACE).
Proof.
  apply (X8_created_aggregate_has_one_customer_entity "123" "store" "US" "cus_5" "stripe"
           None None empty_world _ 0%nat
           (events_of (run (PayerClient.create_payer_raw_objects "123" "store" "US"
                              "cus_5" "stripe" None None) empty_world))).
  vm_compute. reflexivity.
Defined.

(** ** The payment method handed to clients *)

Lemma tokenization_method_cases (o : option string) :
  match o with Some "" | None => None | Some m => Some m end
  = match o with
    | Some m => if negb (String.eqb m "") then Some m else None
    | None => None
    end.
Proof. destruct o as [[|c s]|]; reflexivity. Qed.

(** X9: [to_payment_method] fails in exactly two ways and does nothing else:
    with PaymentMethodReadError(PAYMENT_METHOD_GET_NOT_FOUND, not
    retryable) exactly when the aggregate has no stripe card, whether or
    not it has a pgp payment method; with a ValueError exactly when the
    card has a non-empty tokenization method that is not a wallet type. *)
Theorem X9_to_payment_method_failures :
  forall (is_wallet_type : string -> bool) (self : RawPaymentMethod.t) (w : World),
    world_of (run (to_payment_method is_wallet_type self) w) = w
    /\ events_of (run (to_payment_method is_wallet_type self) w) = []
    /\ (result_of (run (to_payment_method is_wallet_type self) w)
        = Raise (PaymentMethodReadError PAYMENT_METHOD_GET_NOT_FOUND false)
        <-> RawPaymentMethod.stripe_card_entity self = None)
    /\ (result_of (run (to_payment_method is_wallet_type self) w) = Raise ValueError
        <-> exists m, tokenization_method_of self = Some m /\ is_wallet_type m = false)
    /\ (RawPaymentMethod.stripe_card_entity self <> None ->
        (forall m, tokenization_method_of self = Some m -> is_wallet_type m = true) ->
        exists pm, result_of (run (to_payment_method is_wallet_type self) w) = Ok pm).
Proof.
  intros icc [pgp [sc|]] w; unfold tokenization_method_of, to_payment_method, run;
    cbn [RawPaymentMethod.stripe_card_entity RawPaymentMethod.pgp_payment_method_entity].
  2:{ cbn. split; [reflexivity|]. split; [reflexivity|]. split; [tauto|]. split.
      - split; [discriminate|]. intros (m & Hm & _). discriminate.
      - intros H. contradiction. }
  rewrite tokenization_method_cases.
  assert (Hsome : Some sc = None <-> False) by (split; [discriminate|tauto]).
  destruct (InsertStripeCardDbEntity.tokenization_method (StripeCardDbEntity.columns sc))
    as [m|]; [destruct (negb (String.eqb m "")); [unfold new_Wallet; destruct (icc m) eqn:E|]|];
    cbn; (split; [reflexivity|]); (split; [reflexivity|]);
    (split; [split; [discriminate|intros [=]]|]).
  - split; [split; [discriminate|intros (m' & [= <-] & Hm); congruence]|eauto].
  - split; [split; [eauto|reflexivity]|].
    intros _ H. specialize (H m eq_refl). congruence.
  - split; [split; [discriminate|intros (m' & [=] & _)]|eauto].
  - split; [split; [discriminate|intros (m' & [=] & _)]|eauto].
Qed.

(** X10: Whenever [to_payment_method] returns, the accessors of the aggregate
    agree with what it returned: [pgp_payment_method_id] returns an id
    (which is the card's gateway id for a card without pgp payment
    method), [legacy_dd_stripe_card_id] is the legacy id of the card as a
    string, [payer_id] is the payer of the payment method, and the
    payment method carries a wallet exactly when the card has a non-empty
    tokenization method.  A card without pgp payment method is reported
    with provider "stripe", type "card" and the consumer id as a string,
    which is "None" for a card without consumer. *)
Theorem X10_to_payment_method_agrees_with_the_accessors :
  forall (is_wallet_type : string -> bool) (self : RawPaymentMethod.t) (w : World)
         (pm : PaymentMethod.t),
    result_of (run (to_payment_method is_wallet_type self) w) = Ok pm ->
    (exists id, run (pgp_payment_method_id self) w = (Ok id, w, [])
                /\ (RawPaymentMethod.pgp_payment_method_entity self = None ->
                    Card.payment_provider_card_id (PaymentMethod.card pm) = Some id))
    /\ legacy_dd_stripe_card_id self
       = Some (Py.str (Card.legacy_dd_stripe_card_id (PaymentMethod.card pm)))
    /\ RawPaymentMethod_payer_id self = PaymentMethod.payer_id pm
    /\ option_map Wallet.type (Card.wallet (PaymentMethod.card pm))
       = tokenization_method_of self
    /\ (RawPaymentMethod.pgp_payment_method_entity self = None ->
        PaymentMethod.payment_provider pm = "stripe"
        /\ PaymentMethod.type pm = Some "card"
        /\ PaymentMethod.id pm = None
        /\ exists sc,
             RawPaymentMethod.stripe_card_entity self = Some sc
             /\ PaymentMethod.dd_consumer_id pm
                = Some (str_of_optional_int
                          (InsertStripeCardDbEntity.consumer_id
                             (StripeCardDbEntity.columns sc)))).
Proof.
  intros icc [pgp [sc|]] w pm;
    unfold tokenization_method_of, to_payment_method, run, pgp_payment_method_id,
      legacy_dd_stripe_card_id, RawPaymentMethod_payer_id;
    cbn [RawPaymentMethod.stripe_card_entity RawPaymentMethod.pgp_payment_method_entity];
    [|discriminate].
  rewrite tokenization_method_cases.
  destruct (InsertStripeCardDbEntity.tokenization_method (StripeCardDbEntity.columns sc))
    as [m|]; [destruct (negb (String.eqb m "")); [unfold new_Wallet; destruct (icc m)|]|];
    cbn; try discriminate; intros [= <-];
    (destruct pgp as [pgp|]; cbn;
     [ repeat split; eauto; try discriminate
     | repeat split; eauto ]).
  all: eexists; split; [reflexivity|discriminate].
Qed.

Lemma X10_to_payment_method_agrees_with_the_accessors_witness :
  (exists id, run (pgp_payment_method_id (RawPaymentMethod.mk None (Some sample_card)))
                empty_world = (Ok id, empty_world, [])
              /\ (RawPaymentMethod.pgp_payment_method_entity
                    (RawPaymentMethod.mk None (Some sample_card)) = None ->
                  Card.payment_provider_card_id (PaymentMethod.card sample_payment_method)
                  = Some id))
  /\ legacy_dd_stripe_card_id (RawPaymentMethod.mk None (Some sample_card))
     = Some (Py.str (Card.legacy_dd_stripe_card_id
                       (PaymentMethod.card sample_payment_method)))
  /\ RawPaymentMethod_payer_id (RawPaymentMethod.mk None (Some sample_card))
     = PaymentMethod.payer_id sample_payment_method
  /\ option_map Wallet.type (Card.wallet (PaymentMethod.card sample_payment_method))
     = tokenization_method_of (RawPaymentMethod.mk None (Some sample_card))
  /\ (RawPaymentMethod.pgp_payment_method_entity
        (RawPaymentMethod.mk None (Some sample_card)) = None ->
      PaymentMethod.payment_provider sample_payment_method = "stripe"
      /\ PaymentMethod.type sample_payment_method = Some "card"
      /\ PaymentMethod.id sample_payment_method = None
      /\ exists sc,
           RawPaymentMethod.stripe_card_entity
             (RawPaymentMethod.mk None (Some sample_card)) = Some sc
           /\ PaymentMethod.dd_consumer_id sample_payment_method
              = Some (str_of_optional_int
                        (InsertStripeCardDbEntity.consumer_id
                           (StripeCardDbEntity.columns sc)))).
Proof.
  apply (X10_to_payment_method_agrees_with_the_accessors
           (fun _ => false) (RawPaymentMethod.mk None (Some sample_card)) empty_world
           sample_payment_method).
  reflexivity.
Defined.

(** ** Stripe cards: soft delete, duplicates, insertion and lookup *)

Lemma find_app_first {A} (f : A -> bool) l l' x :
  List.find f l = Some x -> List.find f (l ++ l') = Some x.
Proof.
  induction l as [|y l IH]; simpl; [discriminate|].
  destruct (f y); auto.
Qed.

Lemma removed_card_id t a k c :
  StripeCardDbEntity.id (removed_card t a k c) = StripeCardDbEntity.id c.
Proof. unfold removed_card. now destruct (_ =? _). Qed.

Lemma set_stripe_cards_same w :
  set_stripe_cards (stripe_cards (main_database w)) w = w.
Proof. destruct w as [p [sc cards] h n u s f g]. reflexivity. Qed.

Lemma delete_stripe_card_by_id_run t a k w :
  db_faults w = [] ->
  PaymentMethodRepository.delete_stripe_card_by_id t a k w
  = (Ok (option_map (removed_card t a k)
           (List.find (fun c => Z.eqb (StripeCardDbEntity.id c) k)
                      (stripe_cards (main_database w)))),
     set_stripe_cards (List.map (removed_card t a k) (stripe_cards (main_database w))) w,
     [DbWrite T_stripe_cards]).
Proof.
  intros Hf. unfold PaymentMethodRepository.delete_stripe_card_by_id, bind.
  rewrite (statement_no_fault _ _ Hf). unfold modify, gets. world_simpl_goal.
  cbn [app]. f_equal. f_equal. f_equal.
  fold (removed_card t a k).
  apply (find_map_commute (fun c => Z.eqb (StripeCardDbEntity.id c) k)).
  intros c. now rewrite removed_card_id.
Qed.

(** X11: Deleting a stripe card never removes a row: with a database that
    answers, the table keeps its rows in order and their ids; a row with
    another id is untouched; the rows with the given id keep their other
    columns and get the new [removed_at] and [active]; the first of them is
    returned; the payment database is untouched.  When no row has the id
    the result is [None] and the world is unchanged. *)
Theorem X11_delete_stripe_card_by_id_is_a_soft_delete :
  forall (removed_at : Z) (active : bool) (where_id : Z) (w : World),
    db_faults w = [] ->
    stripe_cards (main_database
                    (world_of (run (PaymentMethodRepository.delete_stripe_card_by_id removed_at active where_id) w)))
    = List.map (removed_card removed_at active where_id) (stripe_cards (main_database w))
    /\ List.map StripeCardDbEntity.id
         (stripe_cards (main_database
            (world_of (run (PaymentMethodRepository.delete_stripe_card_by_id removed_at active where_id) w))))
       = List.map StripeCardDbEntity.id (stripe_cards (main_database w))
    /\ payment_database
         (world_of (run (PaymentMethodRepository.delete_stripe_card_by_id removed_at active where_id) w))
       = payment_database w
    /\ result_of (run (PaymentMethodRepository.delete_stripe_card_by_id removed_at active where_id) w)
       = Ok (option_map (removed_card removed_at active where_id)
               (List.find (fun c => Z.eqb (StripeCardDbEntity.id c) where_id)
                          (stripe_cards (main_database w))))
    /\ (List.find (fun c => Z.eqb (StripeCardDbEntity.id c) where_id)
                  (stripe_cards (main_database w)) = None ->
        world_of (run (PaymentMethodRepository.delete_stripe_card_by_id removed_at active where_id) w) = w).
Proof.
  intros t a k w Hf. unfold run. rewrite (delete_stripe_card_by_id_run t a k w Hf).
  cbn [world_of result_of fst snd]. world_simpl_goal.
  split; [reflexivity|]. split.
  { rewrite List.map_map. apply List.map_ext. intros c. apply removed_card_id. }
  split; [reflexivity|]. split; [reflexivity|].
  intros Hnone.
  assert (Hsame : List.map (removed_card t a k) (stripe_cards (main_database w))
                  = stripe_cards (main_database w)).
  { rewrite <- (List.map_id (stripe_cards (main_database w))) at 2.
    apply List.map_ext_in. intros c Hc. unfold removed_card.
    destruct (StripeCardDbEntity.id c =? k) eqn:E; [|reflexivity].
    exfalso. eapply List.find_none in Hnone; eauto. cbv beta in Hnone. congruence. }
  rewrite Hsame. apply set_stripe_cards_same.
Qed.

Lemma X11_delete_stripe_card_by_id_is_a_soft_delete_witness :
  stripe_cards (main_database
                  (world_of (run (PaymentMethodRepository.delete_stripe_card_by_id 1700000000 false 11)
                               two_cards_world)))
  = List.map (removed_card 1700000000 false 11) [sample_card; second_card]
  /\ List.map StripeCardDbEntity.id
       (stripe_cards (main_database
          (world_of (run (PaymentMethodRepository.delete_stripe_card_by_id 1700000000 false 11)
                       two_cards_world))))
     = [11; 12]
  /\ payment_database
       (world_of (run (PaymentMethodRepository.delete_stripe_card_by_id 1700000000 false 11) two_cards_world))
     = payment_database two_cards_world
  /\ result_of (run (PaymentMethodRepository.delete_stripe_card_by_id 1700000000 false 11) two_cards_world)
     = Ok (Some (PaymentMethodRepository.with_removed 1700000000 false sample_card))
  /\ (List.find (fun c => Z.eqb (StripeCardDbEntity.id c) 11) [sample_card; second_card]
      = None ->
      world_of (run (PaymentMethodRepository.delete_stripe_card_by_id 1700000000 false 11) two_cards_world)
      = two_cards_world).
Proof.
  apply (X11_delete_stripe_card_by_id_is_a_soft_delete 1700000000 false 11 two_cards_world).
  reflexivity.
Defined.



(** X13: Insertion and lookup of a stripe card: with a database that answers
    and a sequence that has not handed out the id of an existing row, the
    inserted row is the one that the lookup by its id returns, it is found
    as the duplicate of its own description unless an older row matches
    it, and no other row of the table changes. *)
Theorem X13_inserted_stripe_card_is_found :
  forall (sc_input : InsertStripeCardDbEntity.t) (payer_type : string) (w : World),
    db_faults w = [] ->
    (forall c, In c (stripe_cards (main_database w)) ->
               StripeCardDbEntity.id c <> serial_seed w) ->
    result_of (run (row <- PaymentMethodRepository.insert_stripe_card sc_input ;;
                    PaymentMethodRepository.get_stripe_card_by_id
                      (StripeCardDbEntity.id row)) w)
    = Ok (Some (StripeCardDbEntity.mk (serial_seed w) sc_input))
    /\ stripe_cards (main_database
         (world_of (run (PaymentMethodRepository.insert_stripe_card sc_input) w)))
       = (stripe_cards (main_database w)
          ++ [StripeCardDbEntity.mk (serial_seed w) sc_input])%list
    /\ result_of (run (PaymentMethodRepository.insert_stripe_card sc_input ;;;
                       PaymentMethodRepository.get_duplicate_stripe_card payer_type
                         (duplicate_input_of sc_input)) w)
       = Ok (Some (match List.find (PaymentMethodRepository.duplicates payer_type (duplicate_input_of sc_input))
                                   (stripe_cards (main_database w)) with
                   | Some older => older
                   | None => StripeCardDbEntity.mk (serial_seed w) sc_input
                   end)).
Proof.
  intros sc pt w Hf Hfresh.
  assert (Hins : PaymentMethodRepository.insert_stripe_card sc w
                 = (Ok (StripeCardDbEntity.mk (serial_seed w) sc),
                    set_stripe_cards
                      (stripe_cards (main_database w)
                       ++ [StripeCardDbEntity.mk (serial_seed w) sc])%list
                      (set_serial_seed (serial_seed w + 1) w),
                    [TxBegin MainDatabase; DbWrite T_stripe_cards; TxCommit MainDatabase])).
  { unfold PaymentMethodRepository.insert_stripe_card, transaction, bind.
    rewrite (statement_no_fault _ _ Hf). unfold next_serial, modify, ret.
    world_simpl_goal. reflexivity. }
  assert (Hdup_self : PaymentMethodRepository.duplicates pt (duplicate_input_of sc)
                        (StripeCardDbEntity.mk (serial_seed w) sc) = true).
  { unfold PaymentMethodRepository.duplicates, duplicate_input_of.
    cbn [StripeCardDbEntity.columns PaymentMethodRepository.dup_fingerprint PaymentMethodRepository.dup_dynamic_last4
         PaymentMethodRepository.dup_exp_year PaymentMethodRepository.dup_exp_month PaymentMethodRepository.dup_active PaymentMethodRepository.dup_consumer_id
         PaymentMethodRepository.dup_stripe_customer_id].
    rewrite !String.eqb_refl, Bool.eqb_reflx. cbn [andb].
    rewrite andb_true_r.
    destruct (String.eqb pt PayerType.MARKETPLACE);
      [destruct (InsertStripeCardDbEntity.consumer_id sc)
      |destruct (InsertStripeCardDbEntity.stripe_customer_id sc)];
      cbn [PaymentMethodRepository.nullable_int_eqb]; auto using Z.eqb_refl. }
  unfold run. split; [|split].
  - unfold bind at 1. rewrite Hins.
    unfold PaymentMethodRepository.get_stripe_card_by_id, bind.
    rewrite statement_no_fault by (world_simpl_goal; exact Hf).
    unfold gets. cbn [result_of fst StripeCardDbEntity.id]. world_simpl_goal.
    f_equal. apply find_app_last.
    + destruct (List.find _ _) as [c|] eqn:E; [|reflexivity].
      apply List.find_some in E as [Hin E]. apply Z.eqb_eq in E.
      exfalso. exact (Hfresh c Hin E).
    + cbn [StripeCardDbEntity.id]. apply Z.eqb_refl.
  - rewrite Hins. cbn [world_of fst snd]. world_simpl_goal. reflexivity.
  - unfold bind at 1. rewrite Hins.
    unfold PaymentMethodRepository.get_duplicate_stripe_card, bind.
    rewrite statement_no_fault by (world_simpl_goal; exact Hf).
    unfold gets. cbn [result_of fst]. world_simpl_goal. f_equal.
    destruct (List.find (PaymentMethodRepository.duplicates pt (duplicate_input_of sc))
                        (stripe_cards (main_database w))) as [older|] eqn:E.
    + now apply find_app_first.
    + now apply find_app_last.
Qed.

Lemma X13_inserted_stripe_card_is_found_witness :
  result_of (run (row <- PaymentMethodRepository.insert_stripe_card
                           (StripeCardDbEntity.columns second_card) ;;
                  PaymentMethodRepository.get_stripe_card_by_id
                    (StripeCardDbEntity.id row)) two_cards_world)
  = Ok (Some (StripeCardDbEntity.mk 13 (StripeCardDbEntity.columns second_card)))
  /\ stripe_cards (main_database
       (world_of (run (PaymentMethodRepository.insert_stripe_card
                         (StripeCardDbEntity.columns second_card)) two_cards_world)))
     = [sample_card; second_card;
        StripeCardDbEntity.mk 13 (StripeCardDbEntity.columns second_card)]
  /\ result_of (run (PaymentMethodRepository.insert_stripe_card
                       (StripeCardDbEntity.columns second_card) ;;;
                     PaymentMethodRepository.get_duplicate_stripe_card "marketplace"
                       (duplicate_input_of (StripeCardDbEntity.columns second_card)))
                  two_cards_world)
     = Ok (Some second_card).
Proof.
  apply (X13_inserted_stripe_card_is_found (StripeCardDbEntity.columns second_card)
           "marketplace" two_cards_world).
  - reflexivity.
  - simpl. intros c [<-|[<-|[]]]; discriminate.
Defined.

(** ** Request metrics *)

Lemma chars_cons c s : chars (String c s) = c :: chars s.
Proof. reflexivity. Qed.

(** X14: The endpoint tag never contains a slash or a brace. *)
Theorem X14_normalize_path_has_no_slash_or_brace :
  forall (path : string),
    List.existsb is_slash_or_brace (chars (normalize_path path)) = false.
Proof.
  induction path as [|a rest IH]; cbn [normalize_path]; [reflexivity|].
  destruct (NORMALIZATION_TABLE a) as [a'|] eqn:E; [|exact IH].
  rewrite chars_cons. cbn [List.existsb]. rewrite IH, orb_false_r.
  unfold NORMALIZATION_TABLE in E. unfold is_slash_or_brace.
  destruct (Ascii.eqb a "/") eqn:E1.
  - injection E as <-. reflexivity.
  - destruct (Ascii.eqb a "{") eqn:E2; [discriminate|].
    destruct (Ascii.eqb a "}") eqn:E3; [discriminate|].
    injection E as <-. now rewrite E1, E2, E3.
Qed.

Lemma normalize_path_app a b :
  normalize_path (a ++ b) = normalize_path a ++ normalize_path b.
Proof.
  induction a as [|c a IH]; simpl; auto.
  destruct (NORMALIZATION_TABLE c); simpl; now rewrite IH.
Qed.

(** X15: Normalising the joined breadcrumbs is joining the normalised
    breadcrumbs: the endpoint tag of a request is made of the tags of the
    routers it went through. *)
Theorem X15_normalize_path_of_joined_breadcrumbs :
  forall (breadcrumbs : list string),
    normalize_path (join_breadcrumbs breadcrumbs)
    = join_breadcrumbs (List.map normalize_path breadcrumbs).
Proof.
  induction breadcrumbs as [|b l IH]; simpl; auto.
  now rewrite normalize_path_app, IH.
Qed.

(** X16: Normalising twice changes nothing, and normalising never lengthens. *)
Theorem X16_normalize_path_idempotent :
  forall (path : string),
    normalize_path (normalize_path path) = normalize_path path
    /\ (String.length (normalize_path path) <= String.length path)%nat.
Proof.
  induction path as [|c rest [IH1 IH2]]; cbn [normalize_path String.length];
    [auto|].
  destruct (NORMALIZATION_TABLE c) as [c'|] eqn:E; [|split; [auto|lia]].
  cbn [normalize_path String.length].
  assert (E' : NORMALIZATION_TABLE c' = Some c').
  { unfold NORMALIZATION_TABLE in *.
    destruct (Ascii.eqb c "/") eqn:E1; [injection E as <-; reflexivity|].
    destruct (Ascii.eqb c "{") eqn:E2; [discriminate|].
    destruct (Ascii.eqb c "}") eqn:E3; [discriminate|].
    injection E as <-. now rewrite E1, E2, E3. }
  rewrite E', IH1. split; [reflexivity|lia].
Qed.

Lemma string_length_append (a b : string) :
  String.length (a ++ b) = (String.length a + String.length b)%nat.
Proof.
  induction a as [|c a IH]; [reflexivity|].
  change (S (String.length (a ++ b)) = S (String.length a + String.length b)).
  now rewrite IH.
Qed.

Lemma string_append_cancel_r (a b t : string) : a ++ t = b ++ t -> a = b.
Proof.
  revert b. induction a as [|c a IH]; intros [|d b] H.
  - reflexivity.
  - apply (f_equal String.length) in H. rewrite !string_length_append in H.
    cbn [String.length] in H. lia.
  - apply (f_equal String.length) in H. rewrite !string_length_append in H.
    cbn [String.length] in H. lia.
  - change (String c (a ++ t) = String d (b ++ t)) in H.
    injection H as -> H. f_equal. now apply IH.
Qed.

Lemma Py_str_inj (a b : Z) : Py.str a = Py.str b -> a = b.
Proof.
  unfold Py.str. intros H.
  assert (Hnil : forall z, Z.to_int z <> Decimal.Pos Decimal.Nil
                           /\ Z.to_int z <> Decimal.Neg Decimal.Nil).
  { intros z. split; intros E; pose proof (f_equal Z.of_int E) as E0;
      rewrite DecimalZ.of_to in E0; cbn in E0; subst z; discriminate E. }
  apply DecimalZ.to_int_inj.
  apply (f_equal NilZero.int_of_string) in H.
  rewrite !NilZero.isi in H by apply Hnil. now injection H.
Qed.

(** X17: The counter of a response is named after the hundred of its status
    code: a code between 100 k and 100 k + 99 is counted as k followed by
    "XX", and two codes are counted under the same name exactly when they
    lie in the same hundred. *)
Theorem X17_status_type_groups_by_hundreds :
  forall (a b : Z),
    status_type a = Py.str (a / 100) ++ "XX"
    /\ (status_type a = status_type b <-> a / 100 = b / 100).
Proof.
  intros a b. unfold status_type. split; [reflexivity|]. split.
  - intros H. apply string_append_cancel_r in H. now apply Py_str_inj.
  - now intros ->.
Qed.

(** ** Stripe events *)

Lemma rsplit1_none sep s :
  rsplit1 sep s = None <-> ~ In sep (chars s).
Proof.
  induction s as [|c s IH]; cbn [rsplit1].
  - split; auto.
  - rewrite chars_cons. destruct (rsplit1 sep s) as [[b a]|] eqn:E.
    + split; [discriminate|]. intros H. exfalso.
      assert (Hs : In sep (chars s)).
      { destruct (in_dec ascii_dec sep (chars s)); auto.
        apply IH in n. discriminate. }
      apply H. now right.
    + destruct (Ascii.eqb c sep) eqn:Ec.
      * apply Ascii.eqb_eq in Ec. split; [discriminate|]. intros H. exfalso.
        apply H. now left.
      * apply Ascii.eqb_neq in Ec. split; auto. intros _ [H|H]; [auto|].
        now apply (proj1 IH).
Qed.

Lemma rsplit1_some sep s before after :
  rsplit1 sep s = Some (before, after) ->
  s = before ++ String sep after /\ ~ In sep (chars after).
Proof.
  revert before. induction s as [|c s IH]; simpl; intros before H; [discriminate|].
  destruct (rsplit1 sep s) as [[b a]|] eqn:E.
  - injection H as <- <-. destruct (IH b eq_refl) as [-> Hn]. auto.
  - destruct (Ascii.eqb c sep) eqn:Ec; [|discriminate].
    apply Ascii.eqb_eq in Ec. injection H as <- <-. subst c.
    split; [reflexivity|]. now apply rsplit1_none.
Qed.

Lemma rsplit1_app sep prefix suffix :
  ~ In sep (chars suffix) ->
  rsplit1 sep (prefix ++ String sep suffix) = Some (prefix, suffix).
Proof.
  intros Hn. induction prefix as [|c p IH]; simpl.
  - apply rsplit1_none in Hn. now rewrite Hn, Ascii.eqb_refl.
  - now rewrite IH.
Qed.

(** X18: The event type is what follows the last dot of the type string: for a
    type made of a prefix, a dot and a dot-free suffix it is the suffix,
    and whenever it is returned the type string is of that form. *)
Theorem X18_event_type_is_suffix_after_last_dot :
  forall (prefix suffix type : string),
    (~ In "."%char (chars suffix) ->
     event_type (prefix ++ String "." suffix) = Returns suffix)
    /\ (event_type type = Returns suffix ->
        ~ In "."%char (chars suffix)
        /\ exists before, type = before ++ String "." suffix).
Proof.
  intros prefix suffix type. unfold event_type. split.
  - intros Hn. now rewrite rsplit1_app.
  - destruct (rsplit1 "." type) as [[b a]|] eqn:E; [|discriminate].
    intros [= ->]. apply rsplit1_some in E as [-> Hn]. eauto.
Qed.

Lemma X18_event_type_is_suffix_after_last_dot_witness :
  event_type "payment_intent.amount_capturable_updated"
  = Returns "amount_capturable_updated"
  /\ (~ In "."%char (chars "created")
      /\ exists before, "charge.dispute.created" = before ++ String "." "created").
Proof.
  split.
  - apply (X18_event_type_is_suffix_after_last_dot "payment_intent"
             "amount_capturable_updated" "").
    simpl. intros H. repeat (destruct H as [H|H]; [discriminate|]). exact H.
  - apply (X18_event_type_is_suffix_after_last_dot "" "created" "charge.dispute.created").
    reflexivity.
Defined.

(** X19: A type string without a dot has no event type: the index into the
    split raises IndexError; and only such strings do. *)
Theorem X19_event_type_without_dot_raises_IndexError :
  forall (type : string),
    event_type type = Throws IndexError <-> ~ In "."%char (chars type).
Proof.
  intros type. unfold event_type. rewrite <- rsplit1_none.
  destruct (rsplit1 "." type) as [[b a]|]; split; congruence.
Qed.

(** ** The weekly creation of transfers *)

Import WeeklyCreateTransfer.

(** The number of naturals below a bound in an interval. *)
Lemma count_below (t : Z) (n s : nat) :
  length (List.filter (fun i => Z.of_nat i <? t) (List.seq s n))
  = Z.to_nat (Z.max 0 (Z.min (Z.of_nat n) (t - Z.of_nat s))).
Proof.
  revert s. induction n as [|n IH]; intros s; cbn [List.seq List.filter].
  - simpl. lia.
  - destruct (Z.of_nat s <? t) eqn:E; cbn [length]; rewrite IH.
    + apply Z.ltb_lt in E. lia.
    + apply Z.ltb_ge in E. lia.
Qed.

(** Counting the residues below [b] over any hundred consecutive integers. *)
Lemma count_residues_below (b first : Z) :
  0 <= b <= 100 ->
  length (List.filter (fun a => a mod 100 <? b) (hundred_from first)) = Z.to_nat b.
Proof.
  intros Hb. unfold hundred_from.
  set (r := first mod 100).
  assert (Hr : 0 <= r < 100) by (apply Z.mod_pos_bound; lia).
  rewrite List.filter_map_swap, List.length_map.
  replace 100%nat with ((100 - Z.to_nat r) + Z.to_nat r)%nat at 1 by lia.
  rewrite List.seq_app, List.filter_app, List.length_app. cbn [Nat.add].
  erewrite (List.filter_ext_in _ (fun i => Z.of_nat i <? b - r)).
  2:{ intros i Hi. apply in_seq in Hi. cbv beta.
      rewrite <- Zplus_mod_idemp_l. fold r.
      rewrite Z.mod_small by lia.
      destruct (r + Z.of_nat i <? b) eqn:E1, (Z.of_nat i <? b - r) eqn:E2; auto;
        rewrite ?Z.ltb_lt, ?Z.ltb_ge in *; lia. }
  erewrite (List.filter_ext_in _ (fun i => Z.of_nat i <? b - r + 100)
              (List.seq (100 - Z.to_nat r) (Z.to_nat r))).
  2:{ intros i Hi. apply in_seq in Hi. cbv beta.
      rewrite <- Zplus_mod_idemp_l. fold r.
      replace (r + Z.of_nat i) with ((r + Z.of_nat i - 100) + 1 * 100) by lia.
      rewrite Z.mod_add by lia. rewrite Z.mod_small by lia.
      destruct (r + Z.of_nat i - 100 <? b) eqn:E1, (Z.of_nat i <? b - r + 100) eqn:E2;
        auto; rewrite ?Z.ltb_lt, ?Z.ltb_ge in *; lia. }
  rewrite !count_below. lia.
Qed.

(** X20: The bucket is a percentage: when the flag is not switched on for all
    and nobody is white-listed, a bucket of b (between 0 and 100) enables
    exactly b accounts of every hundred consecutive account ids, negative
    ids included. *)
Theorem X20_bucket_enables_its_share_of_every_hundred :
  forall (data : EnableListTransfers) (first b : Z),
    dict_get (enable_all data) false = false ->
    dict_get (white_list data) [] = [] ->
    bucket data = Some b ->
    0 <= b <= 100 ->
    length (List.filter
              (fun a => _is_enabled_for_payment_service_traffic data (Some a))
              (hundred_from first))
    = Z.to_nat b.
Proof.
  intros data first b Hall Hwl Hb Hrange.
  rewrite <- (count_residues_below b first Hrange).
  f_equal. apply List.filter_ext. intros a.
  unfold _is_enabled_for_payment_service_traffic.
  rewrite Hall, Hwl, Hb. cbn [List.existsb dict_get].
  now destruct (a mod 100 <? b).
Qed.

Lemma X20_bucket_enables_its_share_of_every_hundred_witness :
  length (List.filter
            (fun a => _is_enabled_for_payment_service_traffic
                        (mkEnableListTransfers None None (Some 25)) (Some a))
            (hundred_from (-1050)))
  = 25%nat.
Proof.
  apply (X20_bucket_enables_its_share_of_every_hundred
           (mkEnableListTransfers None None (Some 25)) (-1050) 25);
    [reflexivity|reflexivity|reflexivity|lia].
Defined.

(** X21: The ends of the rollout: a bucket of 100 or more enables every account
    with an id; without a positive bucket, and with the flag not switched
    on for all, exactly the white-listed accounts are enabled; an account
    without an id is enabled only by the switch for all. *)
Theorem X21_rollout_extremes :
  forall (data : EnableListTransfers) (account_id : Z),
    (forall b, bucket data = Some b -> 100 <= b ->
               _is_enabled_for_payment_service_traffic data (Some account_id) = true)
    /\ (dict_get (enable_all data) false = false ->
        dict_get (bucket data) 0 <= 0 ->
        _is_enabled_for_payment_service_traffic data (Some account_id)
        = List.existsb (Z.eqb account_id) (dict_get (white_list data) []))
    /\ _is_enabled_for_payment_service_traffic data None
       = dict_get (enable_all data) false.
Proof.
  intros data a. unfold _is_enabled_for_payment_service_traffic.
  pose proof (Z.mod_pos_bound a 100 ltac:(lia)) as Hm.
  repeat split.
  - intros b Hb Hge. rewrite Hb. cbn [dict_get].
    destruct (dict_get (enable_all data) false); auto.
    destruct (List.existsb _ _); auto.
    destruct (a mod 100 <? b) eqn:E; auto. apply Z.ltb_ge in E. lia.
  - intros Hall Hb. rewrite Hall.
    destruct (List.existsb _ _); auto.
    destruct (a mod 100 <? dict_get (bucket data) 0) eqn:E; auto.
    apply Z.ltb_lt in E. lia.
  - now destruct (dict_get (enable_all data) false).
Qed.

Lemma X21_rollout_extremes_witness :
  _is_enabled_for_payment_service_traffic
    (mkEnableListTransfers None None (Some 100)) (Some (-7)) = true
  /\ _is_enabled_for_payment_service_traffic
       (mkEnableListTransfers (Some false) (Some [3; 5]) None) (Some 5)
     = List.existsb (Z.eqb 5) [3; 5].
Proof.
  split.
  - apply (proj1 (X21_rollout_extremes
                    (mkEnableListTransfers None None (Some 100)) (-7)) 100);
      [reflexivity|lia].
  - apply (proj1 (proj2 (X21_rollout_extremes
                    (mkEnableListTransfers (Some false) (Some [3; 5]) None) 5)));
      [reflexivity|simpl; lia].
Defined.

(** *** The loop *)

Lemma create_transfers_accounting c position ids :
  attempted (fst (create_transfers c position ids)) = ids
  /\ (snd (create_transfers c position ids)
      + length (warned (fst (create_transfers c position ids))))%nat
     = length ids
  /\ finished_count (fst (create_transfers c position ids)) = []
  /\ List.existsb is_query (fst (create_transfers c position ids)) = false.
Proof.
  revert position. induction ids as [|a rest IH]; intros position;
    cbn [create_transfers]; [auto|].
  destruct (IH (S position)) as (IH1 & IH2 & IH3 & IH4).
  destruct (create_transfers c (S position) rest) as [events n].
  cbn [fst snd] in *.
  destruct (ENABLE_QUEUEING_MECHANISM_FOR_PAYOUT c).
  - destruct (send_create_transfer_task c position a);
      cbn [fst snd attempted warned finished_count List.flat_map List.existsb
           is_query app length orb];
      fold (attempted events) (warned events) (finished_count events);
      rewrite ?IH1, ?IH3; repeat split; auto; lia.
  - destruct (execute_create_transfer c position a);
      cbn [fst snd attempted warned finished_count List.flat_map List.existsb
           is_query app length orb];
      fold (attempted events) (warned events) (finished_count events);
      rewrite ?IH1, ?IH3; repeat split; auto; lia.
Qed.

Lemma attempted_app a b : attempted (a ++ b) = (attempted a ++ attempted b)%list.
Proof. apply List.flat_map_app. Qed.

Lemma warned_app a b : warned (a ++ b) = (warned a ++ warned b)%list.
Proof. apply List.flat_map_app. Qed.

Lemma finished_count_app a b :
  finished_count (a ++ b) = (finished_count a ++ finished_count b)%list.
Proof. apply List.flat_map_app. Qed.

Lemma selection_events_attempt_nothing c request :
  attempted (snd (payment_account_ids c request)) = []
  /\ warned (snd (payment_account_ids c request)) = []
  /\ finished_count (snd (payment_account_ids c request)) = [].
Proof.
  assert (Hreads : forall l, attempted (List.map ReadEnableListTransfers l) = []
                             /\ warned (List.map ReadEnableListTransfers l) = []
                             /\ finished_count (List.map ReadEnableListTransfers l) = []).
  { induction l as [|x l (I1 & I2 & I3)]; cbn; auto. }
  assert (Hcons : forall q l, is_query q = true ->
                    attempted (q :: l) = attempted l
                    /\ warned (q :: l) = warned l
                    /\ finished_count (q :: l) = finished_count l).
  { intros [] l Hq; try discriminate; cbn; auto. }
  unfold payment_account_ids, get_payment_account_ids_blocked_by_ato.
  destruct (whitelist_payment_account_ids request); [|cbn; auto].
  destruct (get_payout_account_ids_for_unpaid_transactions_without_limit c _ _)
    as [unpaid|e]; [|cbn; auto].
  destruct (Hreads unpaid) as (H1 & H2 & H3).
  assert (Hplain : attempted (QueriedUnpaidAccounts (unpaid_txn_start_time request)
                                (end_time request)
                              :: List.map ReadEnableListTransfers unpaid) = []
                   /\ warned (QueriedUnpaidAccounts (unpaid_txn_start_time request)
                                (end_time request)
                              :: List.map ReadEnableListTransfers unpaid) = []
                   /\ finished_count (QueriedUnpaidAccounts (unpaid_txn_start_time request)
                                (end_time request)
                              :: List.map ReadEnableListTransfers unpaid) = []).
  { destruct (Hcons (QueriedUnpaidAccounts (unpaid_txn_start_time request)
                       (end_time request))
                (List.map ReadEnableListTransfers unpaid) eq_refl) as (-> & -> & ->).
    auto. }
  destruct (exclude_recently_updated_accounts request) as [[|]|];
    cbn [snd]; try exact Hplain.
  destruct (DASHER_ATO_PREVENTION_THRESHOLD_IN_HOURS c =? 0);
    [|destruct (get_recent_bank_update_payment_account_ids c _)];
    cbn [snd];
    match goal with
    | |- context [(?q :: ?l ++ ?e)%list] =>
        destruct (Hcons q (l ++ e)%list eq_refl) as (-> & -> & ->)
    end;
    rewrite !attempted_app, !warned_app, !finished_count_app, H1, H2, H3; cbn; auto.
Qed.

(** X22: Every account of the shuffled list gets exactly one attempt, in the
    order of the list, whether or not earlier attempts failed; a failed
    attempt is logged and not counted; the operation still returns, and the
    count it reports plus the number of failures is the number of
    accounts. *)
Theorem X22_weekly_create_transfer_attempts_every_account :
  forall (c : Collaborators) (request : WeeklyCreateTransferRequest) (ids : list Z),
    fst (payment_account_ids c request) = Ok ids ->
    response (_execute c request) = Ok tt
    /\ attempted (events (_execute c request)) = shuffle c ids
    /\ exists transfer_count,
         finished_count (events (_execute c request)) = [transfer_count]
         /\ (transfer_count + length (warned (events (_execute c request))))%nat
            = length (shuffle c ids).
Proof.
  intros c request ids Hsel. unfold _execute.
  destruct (selection_events_attempt_nothing c request) as (S1 & S2 & S3).
  destruct (payment_account_ids c request) as [[ids'|e] evs]; cbn [fst snd] in *;
    [|discriminate].
  injection Hsel as ->.
  destruct (create_transfers_accounting c 0 (shuffle c ids)) as (L1 & L2 & L3 & _).
  destruct (create_transfers c 0 (shuffle c ids)) as [loop_events n].
  cbn [fst snd response events] in *.
  rewrite !attempted_app, !warned_app, !finished_count_app, S1, S2, S3, L1, L3.
  cbn. rewrite app_nil_r. split; [reflexivity|]. split; [reflexivity|].
  exists n. split; [reflexivity|]. rewrite app_nil_r. exact L2.
Qed.

Lemma events_of_execute c request ids :
  fst (payment_account_ids c request) = Ok ids ->
  events (_execute c request)
  = (snd (payment_account_ids c request)
     ++ fst (create_transfers c 0 (shuffle c ids))
     ++ [Finished (snd (create_transfers c 0 (shuffle c ids)))])%list.
Proof.
  unfold _execute. destruct (payment_account_ids c request) as [[ids'|e] evs];
    cbn [fst snd]; [|discriminate].
  intros [= ->]. now destruct (create_transfers c 0 (shuffle c ids)).
Qed.

Lemma attempted_of_execute c request ids :
  fst (payment_account_ids c request) = Ok ids ->
  attempted (events (_execute c request)) = shuffle c ids.
Proof.
  intros H. rewrite (events_of_execute c request ids H).
  destruct (selection_events_attempt_nothing c request) as (S1 & _).
  destruct (create_transfers_accounting c 0 (shuffle c ids)) as (L1 & _).
  rewrite !attempted_app, S1, L1. cbn. now rewrite app_nil_r.
Qed.

(** X23: A white list in the request bypasses the selection: no query is sent,
    neither the feature flag nor the ATO rule is consulted, the accounts
    attempted are the white-listed ones in shuffled order, and the list
    held by the request is the one that was shuffled. *)
Theorem X23_whitelist_bypasses_the_selection :
  forall (c : Collaborators) (request : WeeklyCreateTransferRequest),
    whitelist_payment_account_ids request <> [] ->
    attempted (events (_execute c request))
    = shuffle c (whitelist_payment_account_ids request)
    /\ List.existsb is_query (events (_execute c request)) = false
    /\ request_whitelist (_execute c request)
       = shuffle c (whitelist_payment_account_ids request).
Proof.
  intros c request Hne.
  assert (Hsel : payment_account_ids c request
                 = (Ok (whitelist_payment_account_ids request), [])).
  { unfold payment_account_ids.
    destruct (whitelist_payment_account_ids request); [contradiction|reflexivity]. }
  assert (Hfst : fst (payment_account_ids c request)
                 = Ok (whitelist_payment_account_ids request)) by now rewrite Hsel.
  split; [now apply attempted_of_execute|]. split.
  - rewrite (events_of_execute c request _ Hfst), Hsel. cbn [snd app].
    rewrite List.existsb_app.
    destruct (create_transfers_accounting c 0
                (shuffle c (whitelist_payment_account_ids request)))
      as (_ & _ & _ & ->).
    reflexivity.
  - unfold _execute. rewrite Hsel.
    destruct (create_transfers c 0 _). cbn [request_whitelist].
    destruct (whitelist_payment_account_ids request); [contradiction|reflexivity].
Qed.

(** X24: With the ATO exclusion requested the feature flag has no say: the
    accounts attempted are the distinct unpaid accounts that are not
    blocked, each once, whether or not the flag enables them. *)
Theorem X24_ato_exclusion_replaces_the_flag_filter :
  forall (c : Collaborators) (request : WeeklyCreateTransferRequest)
         (unpaid blocked : list Z),
    (forall l, Permutation (shuffle c l) l) ->
    whitelist_payment_account_ids request = [] ->
    exclude_recently_updated_accounts request = Some true ->
    get_payout_account_ids_for_unpaid_transactions_without_limit c
      (unpaid_txn_start_time request) (end_time request) = Ok unpaid ->
    fst (get_payment_account_ids_blocked_by_ato c) = Ok blocked ->
    List.NoDup (attempted (events (_execute c request)))
    /\ forall a, In a (attempted (events (_execute c request)))
                 <-> In a unpaid /\ ~ In a blocked.
Proof.
  intros c request unpaid blocked Hperm Hwl Hex Hunpaid Hblocked.
  assert (Hsel : fst (payment_account_ids c request)
                 = Ok (set_difference unpaid blocked)).
  { unfold payment_account_ids. rewrite Hwl, Hunpaid, Hex.
    destruct (get_payment_account_ids_blocked_by_ato c) as [[b|e] evs];
      cbn [fst] in *; [|discriminate].
    now injection Hblocked as ->. }
  rewrite (attempted_of_execute c request _ Hsel).
  split.
  - apply NoDup_ListNoDup. rewrite (Hperm _). apply NoDup_elements.
  - intros a. rewrite <- (list_elem_of_In _ a), (Hperm _).
    unfold set_difference.
    rewrite elem_of_elements, elem_of_difference, !elem_of_list_to_set.
    now rewrite !list_elem_of_In.
Qed.

(** X25: Without the ATO exclusion the accounts attempted are the unpaid
    accounts the feature flag enables, repetitions included. *)
Theorem X25_flag_filter_selects_without_ato_exclusion :
  forall (c : Collaborators) (request : WeeklyCreateTransferRequest)
         (unpaid : list Z),
    (forall l, Permutation (shuffle c l) l) ->
    whitelist_payment_account_ids request = [] ->
    exclude_recently_updated_accounts request <> Some true ->
    get_payout_account_ids_for_unpaid_transactions_without_limit c
      (unpaid_txn_start_time request) (end_time request) = Ok unpaid ->
    Permutation
      (attempted (events (_execute c request)))
      (List.filter
         (fun a => _is_enabled_for_payment_service_traffic
                     (enable_list_transfers_v1 c) (Some a))
         unpaid).
Proof.
  intros c request unpaid Hperm Hwl Hex Hunpaid.
  rewrite (attempted_of_execute c request
             (List.filter
                (fun a => _is_enabled_for_payment_service_traffic
                            (enable_list_transfers_v1 c) (Some a)) unpaid)).
  - apply Hperm.
  - unfold payment_account_ids. rewrite Hwl, Hunpaid.
    destruct (exclude_recently_updated_accounts request) as [[|]|];
      [contradiction| |]; reflexivity.
Qed.


(** *** Sample runs *)

Lemma X22_weekly_create_transfer_attempts_every_account_witness :
  response (_execute sample_collaborators (sample_request [] (Some true))) = Ok tt
  /\ attempted (events (_execute sample_collaborators (sample_request [] (Some true))))
     = shuffle sample_collaborators [7; 250]
  /\ exists transfer_count,
       finished_count (events (_execute sample_collaborators
                                 (sample_request [] (Some true))))
       = [transfer_count]
       /\ (transfer_count
           + length (warned (events (_execute sample_collaborators
                                       (sample_request [] (Some true))))))%nat
          = length (shuffle sample_collaborators [7; 250]).
Proof.
  apply (X22_weekly_create_transfer_attempts_every_account
           sample_collaborators (sample_request [] (Some true)) [7; 250]).
  vm_compute. reflexivity.
Defined.

Lemma X23_whitelist_bypasses_the_selection_witness :
  attempted (events (_execute sample_collaborators (sample_request [250; 103] (Some true))))
  = [103; 250]
  /\ List.existsb is_query
       (events (_execute sample_collaborators (sample_request [250; 103] (Some true))))
     = false
  /\ request_whitelist (_execute sample_collaborators (sample_request [250; 103] (Some true)))
     = [103; 250].
Proof.
  apply (X23_whitelist_bypasses_the_selection
           sample_collaborators (sample_request [250; 103] (Some true))).
  simpl. discriminate.
Defined.

Lemma X24_ato_exclusion_replaces_the_flag_filter_witness :
  List.NoDup (attempted (events (_execute sample_collaborators
                                   (sample_request [] (Some true)))))
  /\ forall a, In a (attempted (events (_execute sample_collaborators
                                          (sample_request [] (Some true)))))
               <-> In a [7; 250; 7; 103; 250] /\ ~ In a [103].
Proof.
  apply (X24_ato_exclusion_replaces_the_flag_filter
           sample_collaborators (sample_request [] (Some true))
           [7; 250; 7; 103; 250] [103]).
  - intros l. simpl. symmetry. apply Permutation_rev.
  - reflexivity.
  - reflexivity.
  - reflexivity.
  - reflexivity.
Defined.

Lemma X25_flag_filter_selects_without_ato_exclusion_witness :
  Permutation
    (attempted (events (_execute sample_collaborators (sample_request [] (Some false)))))
    [7; 7].
Proof.
  apply (X25_flag_filter_selects_without_ato_exclusion
           sample_collaborators (sample_request [] (Some false))
           [7; 250; 7; 103; 250]).
  - intros l. simpl. symmetry. apply Permutation_rev.
  - reflexivity.
  - simpl. discriminate.
  - reflexivity.
Defined.

